(* ===== verification/_CoqProject ===== *)
-Q . S2P
Prelude.v
Calendar.v
Store.v
Models.v
World.v
Streak.v
Habits.v
HabitStats.v
Gratitudes.v
Journals.v
Meditations.v
Text.v
Timer.v
TimerView.v
Dashboard.v
GratitudeView.v
GratitudeRender.v
Reddit.v
RedditView.v
Login.v
HabitView.v
HabitRows.v
DashboardData.v
DashboardView.v
Interleavings.v
ConcurrentView.v
