(* ===== verification/Prelude.v ===== *)
(** * A verification library for the habit/accountability tracker

    The program (TypeScript, Next.js + Mongoose) is a set of HTTP route
    handlers under [src/app/api/*/route.ts] that read and write per-user
    Mongoose documents ([src/models/*.ts]), and client views
    ([src/components/*.tsx], [src/app/page.tsx]) that call those handlers
    and compute what they display.  Every handler has the same shape:
    read the session, connect, one query or read-modify-write of one
    document, answer JSON.  The parts with real invariants are the
    streak engine (a two-field state machine with a self-healing start
    date and an append-only reset history), the day bucketing of dates
    (local-midnight normalisation, [setHours(0,0,0,0)]), the habit
    completion set (a toggle that must keep one entry per day), the
    client statistics, the meditation timer and the dashboard clock.

    ** Files, in dependency order

    - [Prelude] (this file): the JavaScript array helpers the code uses
      ([findIndex], [splice(i, 1)], [push], [slice(0, n)]), the
      [tracker] hint database, the [tracker_scope] notations, tactics, a
      reflective range check [forall_from], and the generic lemmas on
      lists of integers shared by the components (pigeonhole bound for
      distinct integers in an interval, sortedness of an appended list),
      and the commutation of stdpp's [merge_sort] with a map the
      comparison does not see (an in-place update keeps its place in a
      sorted listing).
    - [Calendar]: the ECMAScript [Date] arithmetic the code relies on:
      milliseconds as [Z], [TimeClip] (invalid dates are [None], i.e.
      NaN), local time as a fixed offset from UTC, [setHours(0,0,0,0)] and
      [setHours(23,59,59,999)], and [getDate]/[getMonth]/[getFullYear]
      through the proleptic Gregorian conversion [civil_from_days].  The
      conversion is proved to be inverted by [days_from_civil] and to
      produce in-range months and days.  Within one 400-year era the year
      of a day is monotone in the day, so two reflective checks suffice
      (the 400 years' first and last days, and the 366 days of a year,
      each evaluated by [vm_compute]); era arithmetic lifts the result to
      all of [Z].
      These are the JavaScript library, not code of the repository: the
      map of the manifest names the call sites that use them (the
      handlers and views), not these definitions.
    - [Store]: a Mongo collection as an association list from object ids
      to documents in insertion order; [findById], [create],
      [save]/replace, [findByIdAndDelete], and
      [find(filter).sort(createdAt).limit(n)] queries, with their lemmas
      (sorted, exactly the matches without a limit, the [n] first in sort
      order with one).  The class [Document] is the interface a model
      gives the store (owner and [createdAt]); the query lemmas are proved
      against it once for the four collections.
    - [Models]: the five schemas of [src/models] as records, with the
      Mongoose String/Number casts, defaults and [required]/[enum]
      validation the schema declarations imply, as functions into a
      result type, JavaScript truthiness of request values, and
      [!s.trim()] of the inputs ([is_blank]).
    - [World]: the server state (all collections, the id counter, the
      system clock as a sequence of readings) and the handler monad: state
      passing plus thrown exceptions, whose writes persist when a later
      step throws, with [new Date()] as a clock read and [catch] for
      [try]/[catch].  Responses are [NextResponse.json] values or an
      unhandled exception (HTTP 500).  A client reaches a handler through
      [fetch] over a network that delivers the request ([Up]) or makes
      the promise reject ([Down]); [res_ok] and [ok_json] are [res.ok]
      and [await res.json()].
    - [Streak] ([src/app/api/streak/route.ts]): Module [Spec] is the
      abstract streak, a two-field machine (start, history) whose [reset]
      step appends a reset time and restarts; Module [StreakRoute] has [GET] and
      [POST] and proves: GET on a valid start (floor of days/hours, no
      write), self-healing of a missing or unparsable start (repaired,
      persisted, 0 days), the shape of POST (one history entry appended,
      start moved to a later reading), the 401/404 paths leave the store
      unchanged, the invariant (history sorted and bounded by the start
      and the clock) holds after every sequence of requests, and the
      handlers refine [Spec].
    - [Habits] ([src/app/api/habits/route.ts]): Module [Toggle] is the
      PUT's [findIndex]/[splice]/[push] on local-midnight buckets, with the
      day-set invariant (every entry a local midnight, no day twice), its
      preservation, membership flip and involution up to order; Module
      [HabitRoute] has [GET]/[POST]/[PUT] with their error paths, schema
      validation on create, the missing ownership check of PUT, and the
      schema's types of the stored habits (non-empty name, valid dates)
      as an invariant every handler keeps.
    - [HabitStats] ([src/components/habbit-tracker.tsx]):
      [isCompletedToday], the monthly target and percentage: the target
      is never 0, the percentage is in [0, 100], for a daily habit the
      count never exceeds the days elapsed; when server and browser
      share a zone, the PUT's toggle removes an entry exactly when the
      habit is shown done today and flips what is shown (an
      equivalence); in any two zones, a toggle that books a day is shown
      done exactly when the browser's day is the server's shifted by the
      zones' difference, which fails with the server on UTC and the
      browser ahead of it.
    - [HabitView] (lines 16-105 of the same file): the list's state with
      its mount fetch, the add form's [onChange] handlers,
      [fetchHabbits], [handleAddHabbit] and [toggleHabbit] composed with
      the habit routes: the optimistic replace of a toggled row leaves the
      list equal to what a refetch shows, whatever the network does, and
      an added habit is shown after its refetch.
    - [HabitRows] (lines 91-183 of the same file): the add form's values
      and the cards the list renders (done mark, name, stored frequency, the progress line
      [count/target unit (percent%)] and its bar) and the empty message.
      A habit stored with frequency [null], which POST accepts, is
      measured against the days of the month but labelled in weeks.
    - [Gratitudes] ([src/app/api/gratitude/route.ts]): the four handlers;
      the today window is the local day of the request, history is the
      50 newest, PUT flips [isChecked] (twice restores it), DELETE removes
      the item from every later GET and answers "Deleted" even for an
      unknown id, and PUT/DELETE never check the owner.
    - [GratitudeView] ([src/components/gratitude-list.tsx]): the
      optimistic [toggleCheck] and [handleDelete] keep the list shown in
      agreement with the store once their PUT/DELETE has run, and the
      history grouping ([reduce] into runs of equal month/day labels)
      gives back every item once and in order, with neighbouring labels
      distinct; the labels carry no year.  The handlers with their
      requests ([fetchItems], [handleAdd_req], [toggleCheck_req],
      [handleDelete_req]): a toggle the server rejects is not rolled back,
      contrary to the specification.
    - [GratitudeRender] (the same file, lines 21-23 and 85-193): the tab
      buttons with the refetching effect, the text box with Enter, and
      the render (today's rows or the history's day groups, the prompts
      when empty).  Two history groups get the same React key when a
      month and day recurs a year apart with another day between.
    - [Journals] and [Meditations] ([src/app/api/journal/route.ts],
      [src/app/api/meditation/route.ts]): listing (all, newest first; the
      10 newest), the journal POST's 400/201/500 outcomes with no exception
      escaping its [try]/[catch], and the meditation POST accepting any
      integer duration.  The modules are [JournalRoute] and
      [MeditationRoute]; every route module is named after its route, so
      that each handler has one name in the whole development.
    - [Timer] ([src/components/meditation-timer.tsx]): the component as a
      state record with one function per handler, the interval
      callback and the unmount cleanup; the rendered controls give the enabled events and
      [reach] the reachable states (an inductive step relation).  Proved
      by rule induction: the invariant (preset duration, [0 <= timeLeft <=
      duration], active iff an interval is live, finished implies stopped
      at 0, every posted duration a preset); a running timer finishes after
      [max 1 timeLeft] firings posting exactly one session; the interval's
      firings are well founded (it stops, from any state); and the bug
      that restarting a finished session posts it again.
    - [Text]: [Number.prototype.toString] of integer values and
      [padStart], the JavaScript text the views put in template literals.
    - [TimerView] (the same file, lines 76-155): what the timer shows,
      as a record ([render]): [formatTime] with [toString] and
      [padStart], the ring's [strokeDashoffset] as a rational, the status
      word, the buttons and the highlighted preset.  [formatTime] of a
      non-negative time reads back as that time (two-character seconds);
      in every reachable state the ring is in [0, 283], one preset is
      highlighted, and "Completed" comes with "0:00".
    - [Reddit] ([src/app/api/reddit/route.ts]): the post extraction
      (at most five, none stickied, in listing order) and the 500 answer
      when the external fetch fails; the fetch itself is an input.
    - [RedditView] ([src/components/reddit-feed.tsx]): the card's state,
      its mount fetch composed with the route, and what it renders: never
      a skeleton once settled, the error panel exactly on a failed load,
      otherwise the first five non-stickied posts as links.
    - [Login] ([src/app/login/page.tsx]): [handleSubmit] with the outcome
      of [signIn] as an input (the credentials provider is not in the
      sources): navigation exactly on a resolved result without a truthy
      [error], the two error messages otherwise.  The inputs' [onChange],
      the browser's check of the [required] and [type="email"] inputs
      (the HTML standard's valid e-mail address) before [onSubmit], and
      the page's events as a run of steps: every [signIn] call carries a
      valid address and a password, whatever the user types.
    - [Dashboard] ([src/app/page.tsx]): milestones and [getProgress]
      (exact interpolation, never clamped, the [next === prev] branch dead),
      the elapsed-time decomposition and its round trip, agreement of the
      client clock with the streak GET, and the reset that shows the old
      streak again until the refetch answers.
    - [DashboardData] (the rest of [src/app/page.tsx]): [fetchStreak],
      [fetchJournals], [handleSaveJournal], [handleReset], the session
      effect, the render gate and the history table, composed with the
      streak and journal routes: after a confirmed reset and its refetch
      the page shows the new start, the reset at the head of the history
      and a clock counting from the new start; a saved entry is listed.
      The Sign out button, the journal box's [onChange], and a new load
      of the page (only [localStorage] kept, then the mount effect and
      [fetchStreak]): the start cached by a session that ended without
      Sign out is shown to the next user whose streak request fails.
    - [DashboardView] (lines 163-405 of [src/app/page.tsx]): the render
      as a record of what the page shows (greeting, the streak card's
      days and padded counters, the bar, the next milestone and the
      percentage [Math.round(getProgress(...))], the journal box and
      list, the reset table), behind the gate [DashboardData] models.
      The percentage is in [[0, 100]] and reads 100 exactly from day 564
      on, while the bar never fills and the next milestone is always
      one day away.
    - [Interleavings]: a handler's read ([findById]) and write
      ([save()]) as separate steps, and two requests on one document
      under each of the six interleavings of their steps (an inductive
      [interleaving]).  [save()] is modelled as Mongoose sends it: the
      changes made in memory ([$push] for [push], a [$set] of the array
      filtered on the loaded version [__v] for [splice], [$set] for
      scalars), applied to the document as stored ([Delta]).  Two PUTs
      for different days, and two streak resets, are linearizable: every
      interleaving gives the store of the two handlers run one after the
      other.  Two PUTs for the same day that both read before either
      saves book that day twice; two PUTs removing the same day conflict
      on the version filter and the second answers 500; two toggles of
      a gratitude item ([ConcurrentCheck]) leave it flipped once.
    - [ConcurrentView]: the client's view of the duplicated day: the
      card of [src/components/habbit-tracker.tsx] counts entries, so
      after the two PUTs it counts two more completions than before
      although one day was completed ("2/1 days" on the first of a
      month).

    ** Bounds, fuel and finite checks

    No definition uses fuel: every function is structural or
    non-recursive.  Two facts are proved by evaluation over a finite
    range and lifted: the calendar over one 400-year era (the 400 year
    boundaries and the 366 days of a year; all eras are equal modulo
    146097 days), and the milestones and the dashboard's shown
    percentage over the day counts 0..365 (beyond 365 both milestone
    functions are closed forms, and the percentage an integer division).

    ** Plan for the following sittings

    - The second tab's list after a conflicting save (the 500 of a stale
      removal leaves that tab's row unchanged until a refetch).

    ** Modelling choices that bound what the theorems say

    - Time values are exact integers (milliseconds).  JavaScript computes
      them as IEEE doubles; every value the code handles is an integer
      below 2^53 in magnitude, where doubles are exact.  Divisions that
      are then floored ([Math.floor(diff / 86400000)]) are modelled with
      [Z.div]; they agree with the double computation while the quotient
      stays far below 2^52 / divisor, i.e. for differences of less than
      a few thousand years.  The dashboard's progress quotient is a
      rational ([Q]), and [Math.round] of it is [floor(x + 1/2)] on that
      rational.  At the boundary day 564 the double computation agrees:
      [199 / 200 * 100] evaluates to exactly [99.5].
    - Local time is UTC plus a fixed offset [tzo] (milliseconds).  Daylight
      saving changes are not modelled.
    - The session ([getServerSession]) and the database connection
      ([dbConnect], [src/lib/db], not in the sources) are inputs: the
      session is an optional optional user id, the connection always
      succeeds.  Each Mongo call is atomic; a handler's separate calls
      are not, and [Interleavings] runs them interleaved with another
      request's.  Run alone, a handler's [save()] writes the document
      it loaded and changed (the store then agrees with the changes
      Mongoose sends, [Interleavings]), which is how [World] models it.
    - Mongoose's Number cast of a string is modelled for integer notation;
      the durations this program sends are integers.
    - Registration and the NextAuth configuration (the credentials
      provider) are not in the sources; registration is modelled from the
      specification only to give the initial user document
      ([spec_modelled]), and the outcome of [signIn] is an input of the
      login page.
    - A client's requests are sequential: the answers of [fetchStreak]'s
      two requests set different fields, so their order does not matter.
      Another client's concurrent writes are modelled only in
      [Interleavings].
    - The JSX is modelled as records of the values each view shows
      (texts, numbers, which element is present, React keys); styling,
      class names, SVG, the locale formatting of dates
      ([toLocaleDateString]) and the YouTube link ([window.open], no
      state) are not.  The external HTTP call of the reddit route is an
      input. *)

From stdpp Require Import base list sorting.
From Stdlib Require Import ZArith Lia.

Declare Scope tracker_scope.
Delimit Scope tracker_scope with trk.
Open Scope Z_scope.

Create HintDb tracker discriminated.
Create Rewrite HintDb tracker_rw.

(** ** JavaScript array helpers *)

Section js_array.
Context {A : Type}.

(** [Array.prototype.findIndex]: the index of the first element
    satisfying [p], or [-1]. *)
Fixpoint findIndex (p : A → bool) (l : list A) : Z :=
  match l with
  | [] => -1
  | x :: l' =>
      if p x then 0
      else let i := findIndex p l' in if i =? -1 then -1 else i + 1
  end.

(** [arr.splice(i, 1)] for [0 ≤ i]: removes the element at [i]; an
    index past the end removes nothing. *)
Definition splice1 (l : list A) (i : Z) : list A :=
  take (Z.to_nat i) l ++ drop (S (Z.to_nat i)) l.

(** [arr.push(x)]. *)
Definition push (l : list A) (x : A) : list A := l ++ [x].

(** [arr.slice(0, n)] (and Mongo's [limit(n)] for [n > 0]). *)
Definition slice0 (l : list A) (n : nat) : list A := take n l.
End js_array.

(** "every timestamp of [l] is at most [t]" *)
Notation "l ≤* t" := (Forall (λ h : Z, h ≤ t) l)
  (at level 70, no associativity) : tracker_scope.
Open Scope tracker_scope.

(** ** Tactics *)

(** Turn the boolean comparisons of the code into propositions. *)
Ltac zbool :=
  repeat match goal with
  | H : (_ =? _) = true |- _ => apply Z.eqb_eq in H
  | H : (_ =? _) = false |- _ => apply Z.eqb_neq in H
  | H : (_ <=? _) = true |- _ => apply Z.leb_le in H
  | H : (_ <=? _) = false |- _ => apply Z.leb_gt in H
  | H : (_ <? _) = true |- _ => apply Z.ltb_lt in H
  | H : (_ <? _) = false |- _ => apply Z.ltb_ge in H
  end.

(** ** Bounded quantification by evaluation *)

(** [forall_from n i f] checks [f] on [i, i+1, ..., i+n-1]; it lets a
    property of a finite range be proved by [vm_compute]. *)
Fixpoint forall_from (n : nat) (i : Z) (f : Z → bool) : bool :=
  match n with
  | O => true
  | S k => f i && forall_from k (i + 1) f
  end.

Lemma forall_from_spec (n : nat) (i : Z) (f : Z → bool) :
  forall_from n i f = true → ∀ j, i ≤ j < i + Z.of_nat n → f j = true.
Proof.
  revert i. induction n as [|n IH]; intros i H j Hj; simpl in *; [lia|].
  apply andb_prop in H as [Hi Hrest].
  destruct (Z.eq_dec j i) as [->|Hne]; [done|]. apply (IH (i + 1)); [done|lia].
Qed.

(** ** Generic lemmas *)

Section findIndex_lemmas.
Context {A : Type} (p : A → bool).

Lemma findIndex_range (l : list A) :
  -1 ≤ findIndex p l < Z.of_nat (length l).
Proof.
  induction l as [|x l IH]; simpl; [lia|].
  destruct (p x); [lia|]. destruct (Z.eqb_spec (findIndex p l) (-1)); lia.
Qed.

Lemma findIndex_none (l : list A) :
  findIndex p l = -1 ↔ Forall (λ x, p x = false) l.
Proof.
  induction l as [|x l IH]; simpl; [split; auto|].
  rewrite Forall_cons. destruct (p x) eqn:Hp.
  - split; [lia|]. intros [? _]; congruence.
  - destruct (Z.eqb_spec (findIndex p l) (-1)) as [E|E].
    + split; [intros _; split; [done|by apply IH]|done].
    + pose proof (findIndex_range l). split; [lia|].
      intros [_ Hl]. apply IH in Hl. congruence.
Qed.

Lemma findIndex_some (l : list A) (i : Z) :
  findIndex p l = i → 0 ≤ i →
  ∃ x, l !! Z.to_nat i = Some x ∧ p x = true ∧
       Forall (λ y, p y = false) (take (Z.to_nat i) l).
Proof.
  revert i. induction l as [|x l IH]; intros i Hi Hpos; simpl in *; [lia|].
  destruct (p x) eqn:Hp.
  - subst. exists x. done.
  - destruct (Z.eqb_spec (findIndex p l) (-1)) as [E|E]; [lia|].
    pose proof (findIndex_range l).
    destruct (IH (findIndex p l)) as (y & Hy & Hpy & Hpre); [done|lia|].
    subst i. replace (Z.to_nat (findIndex p l + 1))
      with (S (Z.to_nat (findIndex p l))) by lia.
    exists y. simpl. eauto.
Qed.

(** [findIndex(p) !== -1] is [some(p)]. *)
Lemma findIndex_found_existsb (l : list A) :
  -1 < findIndex p l ↔ existsb p l = true.
Proof.
  pose proof (findIndex_range l) as Hr. rewrite existsb_exists.
  split.
  - intros Hlt. destruct (findIndex_some l _ eq_refl ltac:(lia)) as (x & Hx & Hp & _).
    exists x. split; [|done]. apply list_elem_of_In. by eapply list_elem_of_lookup_2.
  - intros (x & Hin & Hp). destruct (Z.eq_dec (findIndex p l) (-1)) as [E|E]; [|lia].
    apply findIndex_none in E. rewrite Forall_forall in E.
    rewrite E in Hp; [done|]. by apply list_elem_of_In.
Qed.

Lemma findIndex_snoc (l : list A) (x : A) :
  Forall (λ y, p y = false) l → p x = true → findIndex p (l ++ [x]) = Z.of_nat (length l).
Proof.
  intros Hl Hx. induction l as [|y l IH]; simpl; [by rewrite Hx|].
  apply Forall_cons in Hl as [Hy Hl]. rewrite Hy, IH by done.
  destruct (Z.eqb_spec (Z.of_nat (length l)) (-1)); lia.
Qed.
End findIndex_lemmas.

Section splice_lemmas.
Context {A : Type}.

Lemma splice1_perm (l : list A) (i : Z) (x : A) :
  l !! Z.to_nat i = Some x → l ≡ₚ x :: splice1 l i.
Proof.
  intros Hx. unfold splice1.
  rewrite <- (take_drop_middle l (Z.to_nat i) x Hx) at 1.
  by rewrite Permutation_middle.
Qed.

Lemma splice1_subseteq (l : list A) (i : Z) (x : A) : x ∈ splice1 l i → x ∈ l.
Proof.
  unfold splice1. intros [Hx|Hx]%elem_of_app; [by eapply subseteq_take|].
  by eapply subseteq_drop.
Qed.

Lemma splice1_push (l : list A) (x : A) :
  splice1 (push l x) (Z.of_nat (length l)) = l.
Proof.
  unfold splice1, push. rewrite Nat2Z.id.
  rewrite take_app_length, drop_app_ge by lia.
  replace (S (length l) - length l)%nat with 1%nat by lia.
  by rewrite app_nil_r.
Qed.
End splice_lemmas.

(** Distinct integers in [[a, b]] number at most [b - a + 1]. *)
Lemma NoDup_interval_length (l : list Z) (a b : Z) :
  NoDup l → Forall (λ z, a ≤ z ≤ b) l → Z.of_nat (length l) ≤ Z.max 0 (b - a + 1).
Proof.
  intros Hnd Hin.
  assert (length l ≤ length (seqZ a (b - a + 1)))%nat as Hlen.
  { apply NoDup_incl_length; [by apply NoDup_ListNoDup|]. intros z Hz.
    rewrite <- list_elem_of_In, elem_of_seqZ.
    rewrite <- list_elem_of_In in Hz. rewrite Forall_forall in Hin.
    apply Hin in Hz. lia. }
  rewrite length_seqZ in Hlen. lia.
Qed.

Lemma Sorted_push_le (l : list Z) (x : Z) :
  Sorted Z.le l → l ≤* x → Sorted Z.le (push l x).
Proof.
  intros Hs Hle. apply Sorted_snoc; [done|].
  destruct l as [|y l] using rev_ind; [constructor|].
  constructor. apply Forall_app in Hle as [_ Hy]. by apply Forall_inv in Hy.
Qed.

Lemma Sorted_take {A} (R : relation A) (l : list A) (n : nat) :
  Sorted R l → Sorted R (take n l).
Proof.
  revert n. induction l as [|x l IH]; intros n Hs; [by rewrite take_nil|].
  destruct n as [|n]; simpl; [constructor|]. apply Sorted_inv in Hs as [Hs Hhd]. constructor; [by apply IH|].
  destruct l, n; simpl; constructor. by inversion Hhd.
Qed.

Lemma all_le_weaken (l : list Z) (t t' : Z) : l ≤* t → t ≤ t' → l ≤* t'.
Proof. intros Hl Ht. eapply Forall_impl; [exact Hl|]. simpl; lia. Qed.

Lemma all_le_push (l : list Z) (x t : Z) : l ≤* t → x ≤ t → push l x ≤* t.
Proof. intros Hl Hx. apply Forall_app. split; [done|]. by constructor. Qed.

(** A stable merge sort commutes with a map that neither changes nor
    is seen by the comparison (the in-place update of a row keeps its
    place in any sorted listing). *)
Section merge_sort_fmap.
Context {A : Type} (R : relation A) `{!RelDecision R} (f : A → A).
Hypothesis Hf : ∀ x y, R (f x) (f y) ↔ R x y.

Lemma list_merge_fmap l1 l2 : list_merge R (f <$> l1) (f <$> l2) = f <$> list_merge R l1 l2.
Proof.
  revert l2. induction l1 as [|x1 l1 IH1]; intros l2; [by rewrite fmap_nil, !list_merge_nil_l|].
  induction l2 as [|x2 l2 IH2]; [by rewrite fmap_nil, !list_merge_nil_r|].
  rewrite !fmap_cons, !list_merge_cons. destruct (decide (R x1 x2)) as [H|H].
  - rewrite decide_True by (by apply Hf). rewrite fmap_cons. f_equal. apply (IH1 (x2 :: l2)).
  - rewrite decide_False by (by rewrite Hf). rewrite fmap_cons. f_equal. apply IH2.
Qed.

Lemma merge_list_to_stack_fmap (st : list (option (list A))) (l : list A) :
  merge_list_to_stack R (fmap (M:=option) (fmap (M:=list) f) <$> st) (f <$> l) =
  fmap (M:=option) (fmap (M:=list) f) <$> merge_list_to_stack R st l.
Proof.
  revert l. induction st as [|[l'|] st IH]; intros l; simpl; [done| |done].
  rewrite list_merge_fmap. f_equal. apply IH.
Qed.
Lemma merge_stack_fmap (st : list (option (list A))) :
  merge_stack R (fmap (M:=option) (fmap (M:=list) f) <$> st) = f <$> merge_stack R st.
Proof.
  induction st as [|[l|] st IH]; simpl; [done| |exact IH].
  rewrite <- list_merge_fmap, <- IH. reflexivity.
Qed.
Lemma merge_sort_aux_fmap (st : list (option (list A))) (l : list A) :
  merge_sort_aux R (fmap (M:=option) (fmap (M:=list) f) <$> st) (f <$> l) =
  f <$> merge_sort_aux R st l.
Proof.
  revert st. induction l as [|x l IH]; intros st; simpl; [apply merge_stack_fmap|].
  rewrite <- IH. f_equal. apply (merge_list_to_stack_fmap st [x]).
Qed.

Lemma merge_sort_fmap (l : list A) : merge_sort R (f <$> l) = f <$> merge_sort R l.
Proof. apply (merge_sort_aux_fmap []). Qed.
End merge_sort_fmap.

(** Appending an element changes a list (a navigation or a post that
    happened cannot be confused with none). *)
Lemma app_snoc_neq {A} (l : list A) (x : A) : l ++ [x] ≠ l.
Proof. intros Hl. apply (f_equal List.length) in Hl. rewrite length_app in Hl. simpl in Hl. lia. Qed.

#[export] Hint Resolve all_le_weaken all_le_push Sorted_push_le : tracker.
#[export] Hint Extern 2 (_ ≤ _) => lia : tracker.
#[export] Hint Extern 2 (_ < _) => lia : tracker.
#[export] Hint Rewrite @length_app @length_take @length_drop : tracker_rw.
