(* ===== verification/Calendar.v ===== *)
(** * ECMAScript dates as the tracker uses them

    Time values are milliseconds since the epoch ([Z]); an invalid date
    (NaN) is [None].  Local time is UTC shifted by a fixed offset [tzo].
    The file gives [TimeClip], [Date.prototype.setHours] with the two
    argument lists the code uses ([0,0,0,0] and [23,59,59,999]), number
    equality of [getTime()] values, and the calendar fields [getDate],
    [getMonth], [getFullYear] through the proleptic Gregorian conversion
    [civil_from_days] (days since 1970-01-01 to year, month 1..12, day).
    The conversion is checked by evaluation on the year boundaries of one
    400-year era and on the days of a year, joined by the monotonicity of
    the year in the day, and lifted to every day number. *)

From stdpp Require Import base list.
From Stdlib Require Import ZArith Lia.
From S2P Require Import Prelude.

Open Scope Z_scope.

(** ** Constants and [TimeClip] *)

Definition msPerSecond : Z := 1000.
Definition msPerMinute : Z := 60000.
Definition msPerHour : Z := 3600000.
Definition msPerDay : Z := 86400000.

(** The largest time value (ECMAScript 21.4.1.1): 8.64e15 ms. *)
Definition maxTimeValue : Z := 8640000000000000.

(** [TimeClip]: out of range gives NaN. *)
Definition time_clip (t : Z) : option Z :=
  if Z.abs t <=? maxTimeValue then Some t else None.

(** [a.getTime() === b.getTime()]: NaN equals nothing. *)
Definition time_eqb (a b : option Z) : bool :=
  match a, b with
  | Some x, Some y => x =? y
  | _, _ => false
  end.

(** ** Local days *)

(** [Day(LocalTime(t))]: the local day number containing [t]. *)
Definition local_day (tzo t : Z) : Z := (t + tzo) / msPerDay.

(** [d.setHours(0, 0, 0, 0)]: local midnight of the day of [d]. *)
Definition set_hours_start (tzo : Z) (d : option Z) : option Z :=
  d ≫= λ t, time_clip (local_day tzo t * msPerDay - tzo).

(** [d.setHours(23, 59, 59, 999)]: the last millisecond of the local day. *)
Definition set_hours_end (tzo : Z) (d : option Z) : option Z :=
  d ≫= λ t, time_clip (local_day tzo t * msPerDay + (msPerDay - 1) - tzo).

(** ** Gregorian calendar (days since 1970-01-01) *)

Definition is_leap (y : Z) : bool :=
  (y mod 4 =? 0) && (negb (y mod 100 =? 0) || (y mod 400 =? 0)).

Definition days_in_month (y m : Z) : Z :=
  if m =? 2 then (if is_leap y then 29 else 28)
  else if (m =? 4) || (m =? 6) || (m =? 9) || (m =? 11) then 30
  else 31.

(** The first day (of era) of the March-based year [yoe] of an era. *)
Definition year_start (yoe : Z) : Z := 365 * yoe + yoe / 4 - yoe / 100.

(** The year of era of a day of era [doe] in [0, 146097). *)
Definition yoe_of_doe (doe : Z) : Z :=
  (doe - doe / 1460 + doe / 36524 - doe / 146096) / 365.

(** Month (1..12) and day of the [doy]-th day of a year starting in
    March, so that February ends it. *)
Definition month_day (doy : Z) : Z * Z :=
  let mp := (5 * doy + 2) / 153 in
  let d := doy - (153 * mp + 2) / 5 + 1 in
  let m := if mp <? 10 then mp + 3 else mp - 9 in
  (m, d).

(** Year of era, month and day of a day of era. *)
Definition civil_of_doe (doe : Z) : Z * Z * Z :=
  let yoe := yoe_of_doe doe in
  let '(m, d) := month_day (doe - year_start yoe) in
  (yoe, m, d).

(** The day of the year of a month and day. *)
Definition doy_of_md (m d : Z) : Z :=
  (153 * (if 2 <? m then m - 3 else m + 9) + 2) / 5 + d - 1.

Definition doe_of_civil (yoe m d : Z) : Z := year_start yoe + doy_of_md m d.

Definition civil_from_days (z : Z) : Z * Z * Z :=
  let z0 := z + 719468 in
  let era := z0 / 146097 in
  let doe := z0 - era * 146097 in
  let '(yoe, m, d) := civil_of_doe doe in
  (yoe + era * 400 + (if m <=? 2 then 1 else 0), m, d).

Definition days_from_civil (y m d : Z) : Z :=
  let y0 := y - (if m <=? 2 then 1 else 0) in
  let era := y0 / 400 in
  let yoe := y0 - era * 400 in
  era * 146097 + doe_of_civil yoe m d - 719468.

(** [getFullYear()], [getMonth()] (0-based) and [getDate()] of a valid
    time value, in local time. *)
Definition get_full_year (tzo t : Z) : Z :=
  let '(y, _, _) := civil_from_days (local_day tzo t) in y.
Definition get_month (tzo t : Z) : Z :=
  let '(_, m, _) := civil_from_days (local_day tzo t) in m - 1.
Definition get_date (tzo t : Z) : Z :=
  let '(_, _, d) := civil_from_days (local_day tzo t) in d.

(** ** The calendar checks

    The year of era is monotone in the day of era, so it is enough to
    check it at the first and last day of each of the 400 years; the
    month and day depend on the day of the year only, checked on its 366
    values.  Both checks run by [vm_compute]. *)

Definition doe_ok (doe : Z) : bool :=
  let '(yoe, m, d) := civil_of_doe doe in
  (0 <=? yoe) && (yoe <? 400) && (1 <=? m) && (m <=? 12) && (1 <=? d) &&
  (d <=? days_in_month (yoe + (if m <=? 2 then 1 else 0)) m) &&
  (doe_of_civil yoe m d =? doe).

(** The end of the year [y] of an era: the next year's start, except for
    the last year, which the era's extra leap day lengthens. *)
Definition year_end (y : Z) : Z := if y =? 399 then 146097 else year_start (y + 1).

Definition year_ok (y : Z) : bool :=
  (yoe_of_doe (year_start y) =? y) && (yoe_of_doe (year_end y - 1) =? y) &&
  (year_end y - year_start y =? if is_leap (y + 1) then 366 else 365).

Definition doy_ok (doy : Z) : bool :=
  let '(m, d) := month_day doy in
  (1 <=? m) && (m <=? 12) && (1 <=? d) &&
  (if m =? 2 then (d <=? 28) || ((doy =? 365) && (d <=? 29)) else d <=? days_in_month 1 m) &&
  (doy_of_md m d =? doy).

(** ** Lemmas *)

Lemma time_clip_valid (t : Z) : Z.abs t ≤ maxTimeValue → time_clip t = Some t.
Proof. intros H. unfold time_clip. by rewrite (proj2 (Z.leb_le _ _) H). Qed.

Lemma time_clip_invalid (t : Z) : maxTimeValue < Z.abs t → time_clip t = None.
Proof. intros H. unfold time_clip. by rewrite (proj2 (Z.leb_gt _ _) H). Qed.

Lemma years_check : forall_from 400 0 year_ok = true.
Proof. vm_compute. reflexivity. Qed.

Lemma doys_check : forall_from 366 0 doy_ok = true.
Proof. vm_compute. reflexivity. Qed.

Lemma quarter_step (a b : Z) : a ≤ b → b / 4 - a / 4 ≤ b - a.
Proof. intros. Z.div_mod_to_equations. lia. Qed.

(** The numerator of [yoe_of_doe] never decreases. *)
Lemma yoe_numerator_step (x : Z) :
  0 ≤ x →
  x - x / 1460 + x / 36524 - x / 146096 ≤
  (x + 1) - (x + 1) / 1460 + (x + 1) / 36524 - (x + 1) / 146096.
Proof.
  intros Hx. replace 146096 with (36524 * 4) by reflexivity. rewrite <- !Z.div_div by lia.
  pose proof (quarter_step (x / 36524) ((x + 1) / 36524) ltac:(apply Z.div_le_mono; lia)).
  assert ((x + 1) / 1460 - x / 1460 ≤ 1) by (Z.div_mod_to_equations; lia).
  lia.
Qed.

Lemma yoe_of_doe_mono (a b : Z) : 0 ≤ a ≤ b → yoe_of_doe a ≤ yoe_of_doe b.
Proof.
  intros Hab. replace b with (a + Z.of_nat (Z.to_nat (b - a))) by lia.
  induction (Z.to_nat (b - a)) as [|n IH]; [rewrite Z.add_0_r; lia|].
  etrans; [apply IH|]. unfold yoe_of_doe. apply Z.div_le_mono; [lia|].
  replace (a + Z.of_nat (S n)) with (a + Z.of_nat n + 1) by lia. apply yoe_numerator_step. lia.
Qed.

(** Every day of an era lies in one of its 400 years. *)
Lemma year_bracket (doe : Z) :
  0 ≤ doe < 146097 → ∃ y, 0 ≤ y < 400 ∧ year_start y ≤ doe < year_end y.
Proof.
  intros Hd.
  assert (∀ n : nat, (n ≤ 400)%nat → doe < year_end (Z.of_nat n - 1) →
            ∃ y, 0 ≤ y < Z.of_nat n ∧ year_start y ≤ doe < year_end y) as Hn.
  { induction n as [|n IH]; intros Hn Hlt.
    - assert (year_end (Z.of_nat 0 - 1) = 0) as E by reflexivity. lia.
    - destruct (Z.lt_ge_cases doe (year_start (Z.of_nat n))) as [Hs|Hs].
      + destruct n as [|n]; [change (year_start (Z.of_nat 0)) with 0 in Hs; lia|].
        destruct IH as (y & Hy & Hb); [lia| |exists y; lia].
        unfold year_end. rewrite (proj2 (Z.eqb_neq _ _)) by lia.
        by replace (Z.of_nat (S n) - 1 + 1) with (Z.of_nat (S n)) by lia.
      + exists (Z.of_nat n). replace (Z.of_nat (S n) - 1) with (Z.of_nat n) in Hlt by lia. lia. }
  destruct (Hn 400%nat) as (y & Hy & Hb);
    [lia|change (year_end (Z.of_nat 400 - 1)) with 146097; lia|].
  exists y. split; [lia|done].
Qed.

Lemma yoe_of_doe_in_year (doe y : Z) :
  0 ≤ y < 400 → year_start y ≤ doe < year_end y → yoe_of_doe doe = y.
Proof.
  intros Hy Hb. pose proof (forall_from_spec _ _ _ years_check y ltac:(lia)) as Hok.
  unfold year_ok in Hok. repeat (apply andb_prop in Hok as [Hok ?]). zbool.
  assert (0 ≤ year_start y) by (unfold year_start; Z.div_mod_to_equations; lia).
  pose proof (yoe_of_doe_mono (year_start y) doe ltac:(lia)).
  pose proof (yoe_of_doe_mono doe (year_end y - 1) ltac:(lia)). lia.
Qed.

Lemma days_in_month_not_feb (y m : Z) : m ≠ 2 → days_in_month y m = days_in_month 1 m.
Proof. intros Hm. unfold days_in_month. by rewrite (proj2 (Z.eqb_neq m 2) Hm). Qed.

Lemma doe_ok_all (doe : Z) : 0 ≤ doe < 146097 → doe_ok doe = true.
Proof.
  intros Hd. destruct (year_bracket doe Hd) as (y & Hy & Hb).
  pose proof (forall_from_spec _ _ _ years_check y ltac:(lia)) as Hyear.
  unfold year_ok in Hyear. repeat (apply andb_prop in Hyear as [Hyear ?]). zbool.
  set (doy := doe - year_start y).
  pose proof (forall_from_spec _ _ _ doys_check doy ltac:(case_match; lia)) as Hdoy.
  unfold doe_ok, civil_of_doe, doe_of_civil. rewrite (yoe_of_doe_in_year doe y Hy Hb). fold doy.
  unfold doy_ok in Hdoy. destruct (month_day doy) as [m d].
  apply andb_prop in Hdoy as [Hdoy Hinv]. apply andb_prop in Hdoy as [Hdoy Hfeb].
  apply andb_prop in Hdoy as [Hdoy Hd1]. apply andb_prop in Hdoy as [Hm1 Hm12]. zbool.
  repeat (apply andb_true_intro; split); zbool; try lia.
  destruct (Z.eq_dec m 2) as [->|Hm]; simpl in *.
  - unfold days_in_month. simpl. apply orb_prop in Hfeb as [?|Hl]; zbool;
      [case_match; lia|apply andb_prop in Hl as [? ?]; zbool].
    destruct (is_leap (y + 1)); lia.
  - rewrite (proj2 (Z.eqb_neq m 2) Hm) in Hfeb. zbool.
    rewrite days_in_month_not_feb by done. lia.
Qed.

Lemma is_leap_add400 (y k : Z) : is_leap (y + k * 400) = is_leap y.
Proof.
  unfold is_leap.
  replace (y + k * 400) with (y + (k * 100) * 4) by lia. rewrite Z.mod_add by lia.
  replace (y + k * 100 * 4) with (y + (k * 4) * 100) by lia. rewrite Z.mod_add by lia.
  replace (y + k * 4 * 100) with (y + k * 400) by lia. rewrite Z.mod_add by lia.
  done.
Qed.

(** The day of era of [z] and its decomposition. *)
Lemma civil_from_days_era (z : Z) :
  let z0 := z + 719468 in
  let era := z0 / 146097 in
  0 ≤ z0 - era * 146097 < 146097.
Proof. cbv zeta. Z.div_mod_to_equations. lia. Qed.

Lemma days_from_civil_shift (y m d k : Z) :
  days_from_civil y m (d + k) = days_from_civil y m d + k.
Proof. unfold days_from_civil, doe_of_civil, doy_of_md. ring. Qed.

Lemma days_in_month_add400 (y k m : Z) :
  days_in_month (y + k * 400) m = days_in_month y m.
Proof. unfold days_in_month. by rewrite is_leap_add400. Qed.

(** Everything [civil_from_days] guarantees, from the era check. *)
Lemma civil_from_days_spec (z y m d : Z) :
  civil_from_days z = (y, m, d) →
  1 ≤ m ≤ 12 ∧ 1 ≤ d ≤ days_in_month y m ∧ days_from_civil y m d = z.
Proof.
  intros H. unfold civil_from_days in H.
  pose proof (civil_from_days_era z) as Hr. cbv zeta in Hr.
  set (z0 := z + 719468) in *. set (era := z0 / 146097) in *.
  pose proof (doe_ok_all _ Hr) as Hok. unfold doe_ok in Hok.
  destruct (civil_of_doe (z0 - era * 146097)) as [[yoe m'] d'] eqn:E.
  injection H as <- <- <-.
  repeat match type of Hok with (_ && _) = true => apply andb_prop in Hok as [Hok ?] end.
  zbool. set (b := if m' <=? 2 then 1 else 0) in *.
  split; [lia|]. split.
  - replace (yoe + era * 400 + b) with (yoe + b + era * 400) by lia.
    rewrite days_in_month_add400. lia.
  - unfold days_from_civil. fold b.
    replace (yoe + era * 400 + b - b) with (era * 400 + yoe) by lia.
    rewrite Z.div_add_l, (Z.div_small yoe 400) by lia.
    replace (era * 400 + yoe - (era + 0) * 400) with yoe by lia.
    subst z0. lia.
Qed.

(** [days_from_civil] inverts [civil_from_days]: the calendar fields
    that [getFullYear]/[getMonth]/[getDate] report identify the day. *)
Theorem civil_roundtrip (z : Z) :
  let '(y, m, d) := civil_from_days z in days_from_civil y m d = z.
Proof.
  destruct (civil_from_days z) as [[y m] d] eqn:E.
  by apply civil_from_days_spec in E as (_ & _ & ->).
Qed.

(** [getMonth()] is in [0, 11] and [getDate()] is between 1 and the
    length of the month (so at least 1 and at most 31). *)
Theorem get_date_bounds (tzo t : Z) :
  0 ≤ get_month tzo t ≤ 11 ∧
  1 ≤ get_date tzo t ≤ days_in_month (get_full_year tzo t) (get_month tzo t + 1) ∧
  get_date tzo t ≤ 31.
Proof.
  unfold get_month, get_date, get_full_year.
  destruct (civil_from_days (local_day tzo t)) as [[y m] d] eqn:E.
  apply civil_from_days_spec in E as (Hm & Hd & _).
  replace (m - 1 + 1) with m by lia.
  assert (days_in_month y m ≤ 31) by (unfold days_in_month; repeat case_match; lia).
  lia.
Qed.

(** [getDate()] is a day of a month. *)
Lemma get_date_range (tzo t : Z) : 1 ≤ get_date tzo t ≤ 31.
Proof.
  unfold get_date. destruct (civil_from_days (local_day tzo t)) as [[y m] d] eqn:E.
  apply civil_from_days_spec in E as (Hm & Hd & _).
  assert (days_in_month y m ≤ 31) by (unfold days_in_month; repeat case_match; lia).
  lia.
Qed.

(** Two days of the same month and year are [d' - d] days apart. *)
Lemma same_month_offset (z z' y m d d' : Z) :
  civil_from_days z = (y, m, d) → civil_from_days z' = (y, m, d') → z' = z + (d' - d).
Proof.
  intros H H'.
  apply civil_from_days_spec in H as (_ & _ & <-).
  apply civil_from_days_spec in H' as (_ & _ & <-).
  replace d' with (d + (d' - d)) at 1 by lia. apply days_from_civil_shift.
Qed.

(** ** Local midnight *)

Lemma local_day_bounds (tzo t : Z) :
  local_day tzo t * msPerDay - tzo ≤ t < local_day tzo t * msPerDay - tzo + msPerDay.
Proof. unfold local_day, msPerDay. Z.div_mod_to_equations. lia. Qed.

Lemma local_day_of_midnight (tzo k : Z) : local_day tzo (k * msPerDay - tzo) = k.
Proof.
  unfold local_day. replace (k * msPerDay - tzo + tzo) with (k * msPerDay) by lia.
  apply Z.div_mul. unfold msPerDay. lia.
Qed.

(** Whatever [setHours(0, 0, 0, 0)] answers is a valid time value. *)
Lemma set_hours_start_valid (tzo : Z) (d : option Z) (s : Z) :
  set_hours_start tzo d = Some s → Z.abs s ≤ maxTimeValue.
Proof.
  unfold set_hours_start, time_clip. destruct d; simpl; [|done].
  case_match eqn:E; [|done]. intros [= <-]. by apply Z.leb_le in E.
Qed.

Lemma set_hours_start_spec (tzo t s : Z) :
  set_hours_start tzo (Some t) = Some s →
  s = local_day tzo t * msPerDay - tzo ∧ s ≤ t < s + msPerDay ∧
  local_day tzo s = local_day tzo t.
Proof.
  unfold set_hours_start, time_clip. simpl. case_match; [|done]. intros [= <-].
  pose proof (local_day_bounds tzo t). rewrite local_day_of_midnight. lia.
Qed.

Lemma set_hours_end_spec (tzo t e : Z) :
  set_hours_end tzo (Some t) = Some e →
  e = local_day tzo t * msPerDay + (msPerDay - 1) - tzo.
Proof. unfold set_hours_end, time_clip. simpl. case_match; [|done]. by intros [= <-]. Qed.

(** The window [[setHours(0,0,0,0), setHours(23,59,59,999)]] of two
    readings on the same local day is that local day. *)
Lemma day_window_iff (tzo t1 t2 lo hi x : Z) :
  set_hours_start tzo (Some t1) = Some lo → set_hours_end tzo (Some t2) = Some hi →
  local_day tzo t1 = local_day tzo t2 →
  lo ≤ x ≤ hi ↔ local_day tzo x = local_day tzo t1.
Proof.
  intros Hlo Hhi Hday. apply set_hours_start_spec in Hlo as (-> & _).
  apply set_hours_end_spec in Hhi as ->. rewrite <- Hday.
  pose proof (local_day_bounds tzo x). unfold msPerDay in *.
  split; [|intros <-; lia]. intros Hx.
  assert (local_day tzo x < local_day tzo t1 + 1) by nia.
  assert (local_day tzo t1 - 1 < local_day tzo x) by nia. lia.
Qed.

(** A local midnight is a fixed point of [setHours(0, 0, 0, 0)]. *)
Lemma set_hours_start_idem (tzo : Z) (d : option Z) :
  set_hours_start tzo (set_hours_start tzo d) = set_hours_start tzo d.
Proof.
  destruct (set_hours_start tzo d) as [s|] eqn:E; [|done].
  destruct d as [t|]; [|done].
  apply set_hours_start_spec in E as E'. destruct E' as (-> & _ & _).
  unfold set_hours_start at 1. simpl. rewrite local_day_of_midnight.
  rewrite <- E. unfold set_hours_start. done.
Qed.

(** Comparing the zeroed dates with [===] is comparing local days, as
    long as the midnights are representable. *)
Lemma same_day_iff (tzo t1 t2 : Z) :
  is_Some (set_hours_start tzo (Some t1)) →
  time_eqb (set_hours_start tzo (Some t1)) (set_hours_start tzo (Some t2)) = true ↔
  local_day tzo t1 = local_day tzo t2.
Proof.
  intros [s1 E1]. rewrite E1. split.
  - apply set_hours_start_spec in E1 as (-> & _ & _).
    destruct (set_hours_start tzo (Some t2)) as [s2|] eqn:E2; [|done].
    apply set_hours_start_spec in E2 as (-> & _ & _). simpl. zbool.
    unfold msPerDay in *. lia.
  - intros Heq.
    assert (set_hours_start tzo (Some t2) = set_hours_start tzo (Some t1)) as ->
      by (unfold set_hours_start; simpl; by rewrite Heq).
    rewrite E1. simpl. apply Z.eqb_refl.
Qed.
