(* ===== verification/Store.v ===== *)
(** * Mongo collections

    A collection is the list of its documents with their object ids, in
    insertion ("natural") order.  The operations are the Mongoose calls
    of the route handlers: [findById], [create] (append), [save] of a
    loaded document (replace by id), [findByIdAndDelete], and
    [find(filter).sort({ createdAt: ±1 }).limit(n)].  The class
    [Document] is the interface the models give the store: the owner
    reference and the [createdAt] timestamp that queries filter and sort
    on.  Mongo does not specify the order of documents with equal sort
    keys; the model sorts stably, and the lemmas below hold for any
    tie order (sortedness, permutation, prefix). *)

From stdpp Require Import base list sorting.
From Stdlib Require Import ZArith Lia.
From S2P Require Import Prelude.

Open Scope Z_scope.

(** Object ids. *)
Abbreviation oid := N (only parsing).

(** What a model exposes to the queries of the store. *)
Class Document (D : Type) := {
  doc_owner : D → oid;
  doc_createdAt : D → Z
}.

(** Sort directions of [.sort({ createdAt: 1 })] and [-1]. *)
Inductive sort_dir := Asc | Desc.

Section collection.
Context {D : Type}.
Implicit Types (c : list (oid * D)) (id : oid) (d : D).

(** [Model.findById(id)] *)
Definition find_by_id c id : option D :=
  snd <$> find (λ r, bool_decide (r.1 = id)) c.

(** [Model.create(doc)]: the new document goes last in natural order. *)
Definition insert_doc c id d : list (oid * D) := c ++ [(id, d)].

(** [doc.save()] of a document loaded by [findById]: written in place. *)
Definition replace_by_id c id d : list (oid * D) :=
  map (λ r, if bool_decide (r.1 = id) then (id, d) else r) c.

(** [Model.findByIdAndDelete(id)] *)
Definition delete_by_id c id : list (oid * D) :=
  filter (λ r, r.1 ≠ id) c.

Definition ids c : list oid := fst <$> c.
End collection.

Section queries.
Context `{Document D}.

(** The comparison the sort puts first. *)
Definition sort_rel (dir : sort_dir) (r1 r2 : oid * D) : Prop :=
  match dir with
  | Asc => doc_createdAt r1.2 ≤ doc_createdAt r2.2
  | Desc => doc_createdAt r2.2 ≤ doc_createdAt r1.2
  end.

#[global] Instance sort_rel_dec dir : RelDecision (sort_rel dir).
Proof. intros r1 r2. destruct dir; simpl; apply _. Defined.

#[global] Instance sort_rel_total dir : Total (sort_rel dir).
Proof. intros r1 r2. destruct dir; simpl; lia. Qed.

#[global] Instance sort_rel_trans dir : Transitive (sort_rel dir).
Proof. intros r1 r2 r3. destruct dir; simpl; lia. Qed.

(** [Model.find(filter).sort({ createdAt: dir }).limit(n)]; [None] is
    no [limit]. *)
Definition query (p : D → bool) (dir : sort_dir) (lim : option nat)
    (c : list (oid * D)) : list (oid * D) :=
  let rows := merge_sort (sort_rel dir) (filter (λ r, p r.2 = true) c) in
  match lim with
  | None => rows
  | Some n => slice0 rows n
  end.

#[global] Arguments query : simpl never.

(** [{ userId }] filters. *)
Definition owned_by (uid : oid) (d : D) : bool := bool_decide (doc_owner d = uid).

Lemma query_sorted p dir lim c : Sorted (sort_rel dir) (query p dir lim c).
Proof.
  unfold query, slice0. destruct lim as [n|].
  - apply Sorted_take, Sorted_merge_sort, _.
  - apply Sorted_merge_sort, _.
Qed.

Lemma query_all p dir c :
  query p dir None c ≡ₚ filter (λ r, p r.2 = true) c.
Proof. apply merge_sort_Permutation. Qed.

Lemma query_elem p dir lim c r :
  r ∈ query p dir lim c → r ∈ c ∧ p r.2 = true.
Proof.
  unfold query, slice0. intros Hr.
  assert (r ∈ merge_sort (sort_rel dir) (filter (λ r, p r.2 = true) c)) as Hr'.
  { destruct lim; [by apply (subseteq_take n)|done]. }
  assert (r ∈ filter (λ r, p r.2 = true) c) as Hf
    by by rewrite <- (merge_sort_Permutation (sort_rel dir)).
  apply list_elem_of_filter in Hf as [? ?]. done.
Qed.

Lemma query_length p dir n c : (length (query p dir (Some n) c) ≤ n)%nat.
Proof. unfold query, slice0. rewrite length_take. lia. Qed.
(** Without [.limit], the rows are exactly the matching documents. *)
Lemma query_none_elem p dir c r :
  r ∈ query p dir None c ↔ r ∈ c ∧ p r.2 = true.
Proof. rewrite (query_all p dir c), list_elem_of_filter. tauto. Qed.

(** [.limit(n)] keeps the first [n] rows of the sorted result: every
    matching row left out comes after (in the sort order) every row
    returned. *)
Lemma query_limit_first p dir n c r r' :
  r' ∈ query p dir (Some n) c → r ∈ c → p r.2 = true → r ∉ query p dir (Some n) c →
  sort_rel dir r' r.
Proof.
  unfold query, slice0. intros Hr' Hr Hp Hnot.
  set (rows := merge_sort (sort_rel dir) (filter (λ r, p r.2 = true) c)) in *.
  assert (r ∈ rows) as Hrows.
  { subst rows. rewrite (merge_sort_Permutation (sort_rel dir)).
    by apply list_elem_of_filter. }
  rewrite <- (take_drop n rows) in Hrows. apply elem_of_app in Hrows as [?|Hd]; [done|].
  apply (StronglySorted_app_1_elem_of (sort_rel dir) (take n rows) (drop n rows)); [|done..].
  rewrite take_drop. apply StronglySorted_merge_sort; apply _.
Qed.

(** The number of rows [.limit(n)] returns: all matches, up to [n]. *)
Lemma query_length_limit p dir n c :
  length (query p dir (Some n) c) = Nat.min n (length (filter (λ r, p r.2 = true) c)).
Proof.
  unfold query, slice0. rewrite length_take, (Permutation_length (merge_sort_Permutation _ _)).
  lia.
Qed.
(** [find({ userId }).sort({ createdAt: -1 }).limit(n)] is the owner's
    [n] newest documents, newest first. *)
Lemma query_owned_newest uid n c :
  let data := query (owned_by uid) Desc (Some n) c in
  Sorted (sort_rel Desc) data ∧
  length data = Nat.min n (length (filter (λ r, owned_by uid r.2 = true) c)) ∧
  (∀ r, r ∈ data → r ∈ c ∧ doc_owner r.2 = uid) ∧
  ∀ r r', r ∈ c → doc_owner r.2 = uid → r ∉ data → r' ∈ data →
    doc_createdAt r.2 ≤ doc_createdAt r'.2.
Proof.
  intros data. split_and!.
  - apply query_sorted.
  - apply query_length_limit.
  - intros r Hr. apply query_elem in Hr as [? Ho]. unfold owned_by in Ho.
    by apply bool_decide_eq_true in Ho.
  - intros r r' Hr Ho Hnot Hr'.
    exact (query_limit_first (owned_by uid) Desc n c r r' Hr' Hr
             ltac:(by apply bool_decide_eq_true) Hnot).
Qed.

(** A map on rows that keeps every row's [createdAt] and whether it
    matches commutes with a query. *)
Lemma query_fmap p dir lim c (g : oid * D → oid * D) :
  (∀ r, doc_createdAt (g r).2 = doc_createdAt r.2) → (∀ r, p (g r).2 = p r.2) →
  query p dir lim (g <$> c) = g <$> query p dir lim c.
Proof.
  intros Hk Hp. unfold query.
  assert (filter (λ r, p r.2 = true) (g <$> c) = g <$> filter (λ r, p r.2 = true) c) as ->.
  { induction c as [|r c IH]; [done|]. rewrite fmap_cons, !filter_cons, Hp.
    case_decide; rewrite ?fmap_cons, IH; done. }
  rewrite merge_sort_fmap by (intros x y; destruct dir; simpl; by rewrite !Hk).
  destruct lim; [unfold slice0; by rewrite fmap_take|done].
Qed.
End queries.

(** ** Lemmas on the collection operations *)

Section collection_lemmas.
Context {D : Type}.
Implicit Types (c : list (oid * D)) (id : oid) (d : D).

Lemma find_by_id_replace_eq c id d d' :
  find_by_id c id = Some d' → find_by_id (replace_by_id c id d) id = Some d.
Proof.
  unfold find_by_id, replace_by_id. induction c as [|[i x] c IH]; simpl; [done|].
  destruct (decide (i = id)) as [->|Hi].
  - rewrite (bool_decide_true (id = id)) by done. simpl. by rewrite bool_decide_true.
  - rewrite !(bool_decide_false (i = id)) by done. simpl. done.
Qed.

Lemma find_by_id_replace_ne c id id' d :
  id ≠ id' → find_by_id (replace_by_id c id d) id' = find_by_id c id'.
Proof.
  intros Hne. unfold find_by_id, replace_by_id.
  induction c as [|[i x] c IH]; simpl; [done|].
  destruct (decide (i = id)) as [->|Hi].
  - rewrite (bool_decide_true (id = id)) by done. simpl.
    by rewrite !(bool_decide_false (id = id')) by done.
  - rewrite (bool_decide_false (i = id)) by done. simpl. by case_bool_decide.
Qed.

Lemma find_by_id_insert_ne c id id' d :
  id ≠ id' → find_by_id (insert_doc c id d) id' = find_by_id c id'.
Proof.
  intros Hne. unfold find_by_id, insert_doc.
  induction c as [|[i x] c IH]; simpl; [by rewrite bool_decide_false|].
  by case_bool_decide.
Qed.

Lemma find_by_id_insert_fresh c id d :
  find_by_id c id = None → find_by_id (insert_doc c id d) id = Some d.
Proof.
  unfold find_by_id, insert_doc. intros Hc.
  induction c as [|[i x] c IH]; simpl in *; [by rewrite bool_decide_true|].
  case_bool_decide; [done|]. by apply IH.
Qed.

Lemma find_by_id_delete c id id' :
  find_by_id (delete_by_id c id) id' = if decide (id = id') then None else find_by_id c id'.
Proof.
  unfold find_by_id, delete_by_id.
  induction c as [|[i x] c IH]; simpl; [by case_decide|].
  destruct (decide (i = id)) as [->|Hi].
  - rewrite filter_cons_False by (simpl; tauto). rewrite IH.
    case_decide; [done|]. simpl. by rewrite bool_decide_false.
  - rewrite filter_cons_True by done. simpl.
    case_bool_decide as Hi'; simpl; [subst; by rewrite decide_False|done].
Qed.
Lemma delete_by_id_elem c id r : r ∈ delete_by_id c id ↔ r ∈ c ∧ r.1 ≠ id.
Proof. unfold delete_by_id. rewrite list_elem_of_filter. tauto. Qed.
End collection_lemmas.

(** ** Saving a row in place, seen through a query

    With unique ids, [save] of a loaded document that keeps its owner
    and [createdAt] changes a listing exactly where the document was:
    what a client does when it replaces the row it shows by the saved
    one. *)

Section query_replace.
Context `{Document D}.
Implicit Types (c : list (oid * D)) (id : oid) (d : D).

Lemma NoDup_ids_find c id r : NoDup (ids c) → r ∈ c → r.1 = id → find_by_id c id = Some r.2.
Proof.
  unfold ids, find_by_id. induction c as [|r' c IH]; [by intros _ ?%elem_of_nil|].
  rewrite fmap_cons. intros [Hr' Hnd]%NoDup_cons Hr Hid. simpl.
  apply elem_of_cons in Hr as [->|Hr]; [by rewrite bool_decide_true|].
  rewrite bool_decide_false; [by apply IH|].
  intros Heq. apply Hr'. rewrite Heq, <- Hid. by apply list_elem_of_fmap_2.
Qed.

Lemma query_replace p dir lim c id d d0 :
  NoDup (ids c) → find_by_id c id = Some d0 →
  doc_createdAt d = doc_createdAt d0 → p d = p d0 →
  query p dir lim (replace_by_id c id d) =
    (λ r, if bool_decide (r.1 = id) then (id, d) else r) <$> query p dir lim c.
Proof.
  intros Hnd Hf Hk Hp.
  set (g := λ r : oid * D, if bool_decide (r.1 = id ∧ doc_createdAt r.2 = doc_createdAt d ∧ p r.2 = p d)
                           then (id, d) else r).
  assert (∀ r, r ∈ c → (if bool_decide (r.1 = id) then (id, d) else r) = g r) as Hg.
  { intros r Hr. subst g. simpl. case_bool_decide as Hi; [|by rewrite bool_decide_false by naive_solver].
    rewrite (NoDup_ids_find c id r Hnd Hr Hi) in Hf. injection Hf as ->.
    by rewrite bool_decide_true. }
  assert (replace_by_id c id d = g <$> c) as ->.
  { apply (Forall_fmap_ext _ _ c), Forall_forall. intros r Hr. apply Hg, Hr. }
  rewrite query_fmap.
  - apply Forall_fmap_ext, Forall_forall. intros r Hr. symmetry. apply Hg.
    by apply query_elem in Hr as [? _].
  - intros r. subst g. simpl. case_bool_decide as Hc; [simpl; lia|done].
  - intros r. subst g. simpl. case_bool_decide as Hc; [simpl; naive_solver|done].
Qed.
End query_replace.

Section replace_forall.
Context {D : Type} (P : oid * D → Prop).

Lemma Forall_replace_by_id (c : list (oid * D)) id d :
  Forall P c → P (id, d) → Forall P (replace_by_id c id d).
Proof.
  intros Hc Hd. unfold replace_by_id. apply Forall_fmap, (Forall_impl _ _ _ Hc).
  intros r Hr. simpl. by case_bool_decide.
Qed.

Lemma find_by_id_Forall (c : list (oid * D)) id d :
  Forall P c → find_by_id c id = Some d → P (id, d).
Proof.
  unfold find_by_id. intros Hc Hf.
  destruct (find _ c) as [[i x]|] eqn:E; simplify_eq/=.
  apply find_some in E as [Hin Heq]. apply bool_decide_eq_true in Heq. simpl in Heq. subst.
  rewrite Forall_forall in Hc. by apply Hc, list_elem_of_In.
Qed.
End replace_forall.
