(* ===== verification/Models.v ===== *)
(** * The Mongoose schemas of [src/models]

    One module per schema, with its record and the updates the handlers
    make.  Each timestamped schema ([{ timestamps: true }]) carries
    [createdAt] and [updatedAt].  Request bodies are JSON values
    ([jval]); creating a document casts them to the schema types, applies
    the defaults and runs the [required] and [enum] validators, in the
    order Mongoose does: a [default] replaces [undefined] only, [enum]
    accepts [null]/[undefined], [required] on a String rejects
    [null]/[undefined]/[""].  A failure is the [ValidationError] that
    [Model.create] rejects with. *)

From stdpp Require Import base list strings pretty.
From Stdlib Require Import ZArith Lia String Ascii.
From S2P Require Import Prelude Store.

Open Scope Z_scope.

(** ** Request values and errors *)

(** JSON values of a parsed request body; a missing key is [JUndefined].
    Numbers are the integers the client sends (durations in seconds). *)
Inductive jval :=
| JUndefined
| JNull
| JBool (b : bool)
| JNum (z : Z)
| JStr (s : string)
| JObj.

(** JavaScript truthiness: [!v] is [negb (truthy v)]. *)
Definition truthy (v : jval) : bool :=
  match v with
  | JUndefined | JNull => false
  | JBool b => b
  | JNum z => negb (Z.eqb z 0)
  | JStr s => negb (String.eqb s "")
  | JObj => true
  end%string.

(** [!s.trim()]: a string of ASCII white space (the blanks a
    text input produces). *)
Definition is_blank (s : string) : bool :=
  forallb (λ c, bool_decide (c ∈ [" "; "009"; "010"; "011"; "012"; "013"]%char)) (list_ascii_of_string s).

(** Exceptions a handler can throw. *)
Inductive exn :=
| ValidationError (path : string)   (** [Model.create]/[save] rejected *)
| CastError (path : string)         (** a query or array cast threw *)
| BodyParseError.                   (** [await req.json()] rejected *)

Inductive result (A : Type) := Ok (a : A) | Err (e : exn).
Arguments Ok {A} a.
Arguments Err {A} e.

(** A path after casting: absent ([undefined]), [null], or a value. *)
Inductive field (A : Type) := FUndef | FNull | FVal (a : A).
Arguments FUndef {A}.
Arguments FNull {A}.
Arguments FVal {A} a.

(** Mongoose's String cast. *)
Definition cast_string (path : string) (v : jval) : result (field string) :=
  match v with
  | JUndefined => Ok FUndef
  | JNull => Ok FNull
  | JBool b => Ok (FVal (if b then "true" else "false"))
  | JNum z => Ok (FVal (pretty z))
  | JStr s => Ok (FVal s)
  | JObj => Err (CastError path)
  end%string.

(** [required: true] on a String path. *)
Definition required_string (path : string) (f : field string) : result string :=
  match f with
  | FVal s => if bool_decide (s = ""%string) then Err (ValidationError path) else Ok s
  | _ => Err (ValidationError path)
  end.

(** ** User ([src/models/User.ts]) *)

Module User.
Record t := mk {
email : string;
password : string;
name : option string;
currentStreakStart : option Z;  (** BSON date; [None] is a stored [null] *)
history : list Z;
createdAt : Z;
updatedAt : Z
}.

Definition set_start (u : t) (s : option Z) : t :=
mk (email u) (password u) (name u) s (history u) (createdAt u) (updatedAt u).
Definition set_history (u : t) (h : list Z) : t :=
mk (email u) (password u) (name u) (currentStreakStart u) h (createdAt u) (updatedAt u).
Definition touch (u : t) (now : Z) : t :=
mk (email u) (password u) (name u) (currentStreakStart u) (history u) (createdAt u) now.

(** A user as registration creates it: the defaults [Date.now] and
  [[]] of [currentStreakStart] and [history]. *)
Definition register (email password : string) (name : option string) (now : Z) : t :=
mk email password name (Some now) [] now now.
End User.

(** ** Gratitude, Journal, Meditation *)

(** The decimal integer a string spells, with an optional minus sign. *)
Fixpoint digits_value (s : string) (acc : Z) : option Z :=
  match s with
  | EmptyString => Some acc
  | String c s' =>
      let n := Z.of_nat (nat_of_ascii c) - 48 in
      if bool_decide (0 ≤ n ≤ 9) then digits_value s' (10 * acc + n) else None
  end.

Definition decimal_value (s : string) : option Z :=
  match s with
  | EmptyString => None
  | String "-" EmptyString => None
  | String "-" s' => Z.opp <$> digits_value s' 0
  | _ => digits_value s 0
  end%char.

(** Mongoose's Number cast: [null]/[undefined] pass, [''] is [null],
    booleans and strings go through [Number()], and a [NaN] is a
    [CastError].  Strings are modelled for the integer notation
    (optional [-], decimal digits); [Number()] also reads surrounding
    blanks, [+], exponents, hex and fractions, which the integer
    durations of this program never use. *)
Definition cast_number (path : string) (v : jval) : result (field Z) :=
  match v with
  | JUndefined => Ok FUndef
  | JNull => Ok FNull
  | JBool b => Ok (FVal (if b then 1 else 0))
  | JNum z => Ok (FVal z)
  | JStr s =>
      if bool_decide (s = ""%string) then Ok FNull
      else match decimal_value s with
           | Some z => Ok (FVal z)
           | None => Err (CastError path)
           end
  | JObj => Err (CastError path)
  end.

(** [required: true] on a Number path: [0] is accepted. *)
Definition required_number (path : string) (f : field Z) : result Z :=
  match f with
  | FVal z => Ok z
  | _ => Err (ValidationError path)
  end.

Module Gratitude.
Record t := mk {
  userId : oid;
  content : string;
  isChecked : bool;
  createdAt : Z;
  updatedAt : Z
}.

Definition set_isChecked (g : t) (b : bool) : t :=
  mk (userId g) (content g) b (createdAt g) (updatedAt g).
Definition touch (g : t) (now : Z) : t :=
  mk (userId g) (content g) (isChecked g) (createdAt g) now.

(** [content: { type: String, required: true }] *)
Definition validate (content : jval) : result string :=
  match cast_string "content" content with
  | Err e => Err e
  | Ok f => required_string "content" f
  end.
End Gratitude.

Module Journal.
Record t := mk {
  userId : oid;
  content : string;
  createdAt : Z;
  updatedAt : Z
}.

(** [content: { type: String, required: [true, 'Please provide content'] }] *)
Definition validate (content : jval) : result string :=
  match cast_string "content" content with
  | Err e => Err e
  | Ok f => required_string "content" f
  end.
End Journal.

Module Meditation.
Record t := mk {
  userId : oid;
  duration : Z;   (** seconds *)
  createdAt : Z;
  updatedAt : Z
}.

(** [duration: { type: Number, required: true }] *)
Definition validate (duration : jval) : result Z :=
  match cast_number "duration" duration with
  | Err e => Err e
  | Ok f => required_number "duration" f
  end.
End Meditation.

#[global] Instance gratitude_document : Document Gratitude.t :=
  {| doc_owner := Gratitude.userId; doc_createdAt := Gratitude.createdAt |}.
#[global] Instance journal_document : Document Journal.t :=
  {| doc_owner := Journal.userId; doc_createdAt := Journal.createdAt |}.
#[global] Instance meditation_document : Document Meditation.t :=
  {| doc_owner := Meditation.userId; doc_createdAt := Meditation.createdAt |}.

(** ** Habbit ([src/models/Habbit.ts]) *)

Inductive Frequency := Daily | Weekly.

#[global] Instance frequency_eq_dec : EqDecision Frequency.
Proof. solve_decision. Defined.

Module Habbit.
Record t := mk {
userId : oid;
name : string;
frequency : option Frequency;   (** [None]: a stored [null] *)
completedDates : list Z;
createdAt : Z;
updatedAt : Z
}.

Definition set_completedDates (h : t) (ds : list Z) : t :=
mk (userId h) (name h) (frequency h) ds (createdAt h) (updatedAt h).
Definition touch (h : t) (now : Z) : t :=
mk (userId h) (name h) (frequency h) (completedDates h) (createdAt h) now.

(** [enum: ['daily', 'weekly'], default: 'daily'] *)
Definition cast_frequency (v : jval) : result (option Frequency) :=
match cast_string "frequency" v with
| Err e => Err e
| Ok FUndef => Ok (Some Daily)
| Ok FNull => Ok None
| Ok (FVal s) =>
    if bool_decide (s = "daily"%string) then Ok (Some Daily)
    else if bool_decide (s = "weekly"%string) then Ok (Some Weekly)
    else Err (ValidationError "frequency")
end.

(** The casting and validation [Habbit.create({ userId, name,
  frequency })] runs before it writes: [name] is a required String,
  [frequency] an enum with a default. *)
Definition validate (name frequency : jval) : result (string * option Frequency) :=
match cast_string "name" name with
| Err e => Err e
| Ok fname =>
    match required_string "name" fname, cast_frequency frequency with
    | Ok n, Ok f => Ok (n, f)
    | Err e, _ => Err e
    | _, Err e => Err e
    end
end.

(** [Habbit.create] accepts a string name exactly when it is not
  empty, and a frequency exactly when it is missing (stored as
  ['daily']), [null] (stored as [null]), ['daily'] or ['weekly']. *)
Theorem validate_accepts (n : string) (fr : jval) (f : option Frequency) :
(∀ z, fr ≠ JNum z) →
validate (JStr n) fr = Ok (n, f) ↔
n ≠ ""%string ∧
(fr = JUndefined ∧ f = Some Daily ∨ fr = JNull ∧ f = None ∨
 fr = JStr "daily" ∧ f = Some Daily ∨ fr = JStr "weekly" ∧ f = Some Weekly)%string.
Proof.
intros Hnum. unfold validate, cast_string, required_string, cast_frequency.
case_bool_decide as Hn; [split; [done|naive_solver]|].
destruct fr as [| |[]|z|s|]; [| | | |by destruct (Hnum z)| |]; simpl;
  repeat (case_match || case_bool_decide); subst; split; intros; simplify_eq; naive_solver.
Qed.

Lemma validate_accepts_witness :
validate (JStr "Stretch") (JStr "weekly") = Ok ("Stretch", Some Weekly)%string.
Proof.
apply (validate_accepts "Stretch" (JStr "weekly") (Some Weekly)); [by intros z|].
split; [done|]. by right; right; right.
Defined.
End Habbit.

#[global] Instance habbit_document : Document Habbit.t :=
  {| doc_owner := Habbit.userId; doc_createdAt := Habbit.createdAt |}.
