(* ===== verification/World.v ===== *)
(** * Server state and the handler monad

    The world is every collection the handlers touch, the object-id
    counter and the system clock.  The clock is the sequence of values
    [new Date()] returns: [clock w i] is the [i]-th reading and [ticks w]
    the number of readings taken so far, so a handler that reads the
    clock twice sees two readings in order.

    A handler is a computation [M A]: it threads the world and may throw.
    A throw keeps the writes made before it (Mongo writes are not rolled
    back).  [run] gives the HTTP answer: the handler's [NextResponse], or
    status 500 when an exception escapes the handler. *)

From stdpp Require Import base list strings.
From Stdlib Require Import ZArith Lia String.
From S2P Require Import Prelude Calendar Store Models.

Open Scope Z_scope.

Record World := mkWorld {
  clock : nat → Z;
  ticks : nat;
  next_oid : oid;
  users : list (oid * User.t);
  habbits : list (oid * Habbit.t);
  gratitudes : list (oid * Gratitude.t);
  journals : list (oid * Journal.t);
  meditations : list (oid * Meditation.t)
}.

Definition set_users (w : World) us :=
  mkWorld (clock w) (ticks w) (next_oid w) us (habbits w) (gratitudes w) (journals w) (meditations w).
Definition set_habbits (w : World) hs :=
  mkWorld (clock w) (ticks w) (next_oid w) (users w) hs (gratitudes w) (journals w) (meditations w).
Definition set_gratitudes (w : World) gs :=
  mkWorld (clock w) (ticks w) (next_oid w) (users w) (habbits w) gs (journals w) (meditations w).
Definition set_journals (w : World) js :=
  mkWorld (clock w) (ticks w) (next_oid w) (users w) (habbits w) (gratitudes w) js (meditations w).
Definition set_meditations (w : World) ms :=
  mkWorld (clock w) (ticks w) (next_oid w) (users w) (habbits w) (gratitudes w) (journals w) ms.

(** The next value [new Date()] returns. *)
Definition clock_now (w : World) : Z := clock w (ticks w).

(** ** The handler monad *)

Inductive outcome (A : Type) := Ret (a : A) | Throw (e : exn).
Arguments Ret {A} a.
Arguments Throw {A} e.

Definition M (A : Type) : Type := World → outcome A * World.

#[global] Instance M_ret : MRet M := λ A a w, (Ret a, w).
#[global] Instance M_bind : MBind M := λ A B f m w,
  match m w with
  | (Ret a, w') => f a w'
  | (Throw e, w') => (Throw e, w')
  end.

Definition throw {A} (e : exn) : M A := λ w, (Throw e, w).
Definition gets {A} (f : World → A) : M A := λ w, (Ret (f w), w).
Definition modify (f : World → World) : M unit := λ w, (Ret tt, f w).

(** [try { m } catch (error) { h }]: the writes [m] made before it threw
    are kept. *)
Definition catch {A} (m : M A) (h : exn → M A) : M A := λ w,
  match m w with
  | (Ret a, w') => (Ret a, w')
  | (Throw e, w') => h e w'
  end.

(** The world after one clock reading, and after [n]. *)
Definition tick (w : World) : World :=
  mkWorld (clock w) (S (ticks w)) (next_oid w) (users w) (habbits w)
    (gratitudes w) (journals w) (meditations w).
Definition advance (w : World) (n : nat) : World :=
  mkWorld (clock w) (n + ticks w) (next_oid w) (users w) (habbits w)
    (gratitudes w) (journals w) (meditations w).

(** The [k]-th reading from now. *)
Definition clock_at (w : World) (k : nat) : Z := clock w (k + ticks w).

(** [new Date()]: one clock reading. *)
Definition new_date : M Z := λ w, (Ret (clock_now w), tick w).

(** A fresh [ObjectId]. *)
Definition fresh_oid : M oid := λ w,
  (Ret (next_oid w),
   mkWorld (clock w) (ticks w) (N.succ (next_oid w)) (users w) (habbits w)
     (gratitudes w) (journals w) (meditations w)).

Definition of_result {A} (r : result A) : M A :=
  match r with Ok a => mret a | Err e => throw e end.

(** [await req.json()] followed by destructuring: [None] is a body that
    is not JSON, or is JSON [null], on which the handler throws. *)
Definition read_body {B} (b : option B) : M B :=
  match b with Some x => mret x | None => throw BodyParseError end.

(** ** Requests and responses *)

(** [getServerSession(authOptions)]: [None] is no session, [Some None] a
    session without [user], [Some (Some id)] a signed-in user. *)
Definition session := option (option oid).

(** [if (!session || !session.user) return 401] *)
Definition session_user (s : session) : option oid :=
  match s with Some (Some uid) => Some uid | _ => None end.

(** An object id as it arrives in a body or a query string: a valid
    24-hex-digit id, a missing one ([undefined]/[null]), or a malformed
    string, on which [findById] throws a [CastError]. *)
Inductive idarg := IdValid (id : oid) | IdMissing | IdMalformed.

Inductive response (A : Type) :=
| Json (status : Z) (body : A)       (** [NextResponse.json(body, { status })] *)
| Message (status : Z) (msg : string) (** [NextResponse.json({ message }, { status })] *)
| Crash (e : exn).                    (** an exception escaped: HTTP 500 *)
Arguments Json {A} status body.
Arguments Message {A} status msg.
Arguments Crash {A} e.

Definition status {A} (r : response A) : Z :=
  match r with Json s _ | Message s _ => s | Crash _ => 500 end.

Definition run {A} (h : M (response A)) (w : World) : response A * World :=
  match h w with
  | (Ret r, w') => (r, w')
  | (Throw e, w') => (Crash e, w')
  end.

(** ** Responses as a client reads them

    [fetch] resolves to the response; [res.ok] is a status in 200..299,
    and [await res.json()] gives the body.  The handlers answer a 2xx
    status with [Message] only where the client ignores the body
    ([Message 200 "Deleted"], the streak reset); [ok_json] is [None]
    there, as it is for a body that is not the array or document the
    client expects. *)

Definition res_ok {A} (r : response A) : bool :=
  match r with
  | Json st _ | Message st _ => (200 <=? st) && (st <? 300)
  | Crash _ => false
  end.

Definition ok_json {A} (r : response A) : option A :=
  match r with
  | Json st b => if (200 <=? st) && (st <? 300) then Some b else None
  | _ => None
  end.

(** The network between a client and the handlers: [Up] delivers the
    request and its answer, [Down] makes [fetch] reject before the
    handler ran. *)
Inductive net := Up | Down.

(** [await fetch(...)] of a handler: its answer, or [None] when the
    promise rejected, with the world after it. *)
Definition fetch {A} (n : net) (h : M (response A)) (w : World) : option (response A) * World :=
  match n with
  | Up => let '(r, w') := run h w in (Some r, w')
  | Down => (None, w)
  end.

Definition unauthorized {A} : M (response A) := mret (Message 401 "Unauthorized"%string).

(** ** Mongoose operations on the world *)

Definition find_by_idarg {D} (c : list (oid * D)) (a : idarg) : M (option (oid * D)) :=
  match a with
  | IdValid id => mret (pair id <$> find_by_id c id)
  | IdMissing => mret None
  | IdMalformed => throw (CastError "_id")
  end.

(** [user.save()]: [updatedAt] is set from the clock, then the document is
    written back. *)
Definition save_user (id : oid) (u : User.t) : M User.t :=
  t ← new_date;
  let u' := User.touch u t in
  _ ← modify (λ w, set_users w (replace_by_id (users w) id u'));
  mret u'.

Definition save_habbit (id : oid) (h : Habbit.t) : M Habbit.t :=
  t ← new_date;
  let h' := Habbit.touch h t in
  _ ← modify (λ w, set_habbits w (replace_by_id (habbits w) id h'));
  mret h'.

Definition save_gratitude (id : oid) (g : Gratitude.t) : M Gratitude.t :=
  t ← new_date;
  let g' := Gratitude.touch g t in
  _ ← modify (λ w, set_gratitudes w (replace_by_id (gratitudes w) id g'));
  mret g'.

(** ** Running handlers symbolically *)

(** Unfold the monad plumbing of a handler applied to a world; what is
    left are the matches on the data the handler read. *)
Ltac mrun :=
  cbv beta iota zeta delta [run mbind M_bind mret M_ret gets modify new_date
    fresh_oid throw catch save_user save_habbit save_gratitude of_result read_body find_by_idarg unauthorized
    clock_now clock_at];
  cbn -[find_by_id replace_by_id insert_doc delete_by_id query
        set_hours_start set_hours_end time_clip local_day].

(** ** Assumptions on the clock *)

(** The system clock never goes backwards. *)
Definition clock_mono (w : World) : Prop := ∀ i j, (i ≤ j)%nat → clock w i ≤ clock w j.

(** Every reading is a valid time value ([new Date()] is never NaN). *)
Definition clock_in_range (w : World) : Prop := ∀ i, Z.abs (clock w i) ≤ maxTimeValue.

(** ** A concrete clock for examples

    One reading per second from 2023-11-14T22:13:20Z, stopping at
    2100-01-01: monotone and always a valid date. *)

Definition demo_clock (i : nat) : Z := Z.min (1700000000000 + 1000 * Z.of_nat i) 4102444800000.

(** The empty store at the first reading of [demo_clock]. *)
Definition demo_world : World := mkWorld demo_clock 0 100 [] [] [] [] [].

(** ** Lemmas *)

Lemma bind_assoc {A B C} (m : M A) (f : A → M B) (g : B → M C) w :
  (y ← (x ← m; f x); g y) w = (x ← m; y ← f x; g y) w.
Proof. unfold mbind, M_bind. destruct (m w) as [[a|e] w']; done. Qed.

Lemma clock_at_tick w k : clock_at (tick w) k = clock_at w (S k).
Proof. unfold clock_at. simpl. f_equal. lia. Qed.

Lemma clock_now_le w k : clock_mono w → clock_now w ≤ clock_at w k.
Proof. intros Hm. apply Hm. lia. Qed.

Lemma clock_at_le w k k' : clock_mono w → (k ≤ k')%nat → clock_at w k ≤ clock_at w k'.
Proof. intros Hm Hk. apply Hm. lia. Qed.

Lemma time_clip_clock w i : clock_in_range w → time_clip (clock w i) = Some (clock w i).
Proof. intros Hr. apply time_clip_valid, Hr. Qed.

Lemma demo_clock_mono (w : World) : clock w = demo_clock → clock_mono w.
Proof. intros Hc i j Hij. rewrite Hc. unfold demo_clock. lia. Qed.

Lemma demo_clock_range (w : World) : clock w = demo_clock → clock_in_range w.
Proof. intros Hc i. rewrite Hc. unfold demo_clock, maxTimeValue. lia. Qed.
