(* ===== verification/Streak.v ===== *)
(** * The streak engine: [src/app/api/streak/route.ts]

    [GET] reports the current streak of the signed-in user and repairs a
    missing or unparsable [currentStreakStart] (setting it to a fresh
    [new Date()] and saving) before computing the elapsed days and hours;
    [POST] records a relapse: it appends the current time to [history]
    and restarts the streak at a second reading of the clock.

    The abstract machine ([Spec]) has states [(start, history)] and one
    transition, [reset]; the concrete state is the user document.  The
    theorems give the behaviour of both handlers on every branch, the
    refinement of [reset] by [POST], and the invariant "history is sorted,
    and bounded by the start and by the clock" over every reachable
    sequence of streak requests. *)

From stdpp Require Import base list strings sorting.
From Stdlib Require Import ZArith Lia String.
From S2P Require Import Prelude Calendar Store Models World.

Open Scope Z_scope.

(** ** The abstract streak machine

    The contract of the specification (§4.2): a state is the start of the
    current streak and the reset history; the status at [now] is the
    floor of the elapsed days and hours; a reset, run at clock readings
    [t1 ≤ t2] not earlier than the start, records [t1] and restarts at
    [t2]. *)
Module Spec.
Record state := mk { start : Z; history : list Z }.

Definition status (now : Z) (a : state) : Z * Z :=
  ((now - start a) / msPerDay, (now - start a) / msPerHour).

Inductive reset : state → state → Prop :=
| reset_at a t1 t2 : start a ≤ t1 → t1 ≤ t2 → reset a (mk t2 (history a ++ [t1])).
End Spec.

Module StreakRoute.

(** The JSON body of a successful [GET]. *)
Record status_body := mk_status {
  streakDays : Z;
  streakHours : Z;
  startDate : option Z;   (** [null] when the date is invalid *)
  history : list Z
}.

(** [new Date(user.currentStreakStart)]: the stored BSON date read as a
    JavaScript date; [new Date(null)] is the epoch. *)
Definition date_of_field (f : option Z) : option Z :=
  match f with
  | None => Some 0
  | Some z => time_clip z
  end.

(** [GET]: lines 7-60. *)
Definition GET (s : session) : M (response status_body) :=
  match session_user s with
  | None => unauthorized
  | Some uid =>
      ou ← gets (λ w, find_by_id (users w) uid);
      match ou with
      | None => mret (Message 404 "User not found")
      | Some u0 =>
          u1 ← match User.currentStreakStart u0 with
               | None => t ← new_date; save_user uid (User.set_start u0 (Some t))
               | Some _ => mret u0
               end;
          now ← new_date;
          u2 ← match date_of_field (User.currentStreakStart u1) with
               | None => t ← new_date; save_user uid (User.set_start u1 (Some t))
               | Some _ => mret u1
               end;
          let validStart := date_of_field (User.currentStreakStart u2) in
          let diffTime := (λ v, Z.abs (now - v)) <$> validStart in
          let diffDays := (λ d, d / msPerDay) <$> diffTime in
          let diffHours := (λ d, d / msPerHour) <$> diffTime in
          mret (Json 200
            (mk_status (default 0 diffDays) (default 0 diffHours)
               (User.currentStreakStart u2 ≫= time_clip) (User.history u2)))
      end
  end%string.

(** [POST]: lines 62-85. *)
Definition POST (s : session) : M (response unit) :=
  match session_user s with
  | None => unauthorized
  | Some uid =>
      ou ← gets (λ w, find_by_id (users w) uid);
      match ou with
      | None => mret (Message 404 "User not found")
      | Some u =>
          t1 ← new_date;
          let u1 := User.set_history u (push (User.history u) t1) in
          t2 ← new_date;
          let u2 := User.set_start u1 (Some t2) in
          _ ← save_user uid u2;
          mret (Message 200 "Streak reset successfully")
      end
  end%string.

(** ** The streak invariant *)

(** A user document as the engine keeps it at clock value [now]: the
    history is sorted, no entry is later than [now] or than the current
    start, and the start is a valid date not later than [now]. *)
Definition user_inv (now : Z) (u : User.t) : Prop :=
  Sorted Z.le (User.history u) ∧ User.history u ≤* now ∧
  ∀ st, User.currentStreakStart u = Some st →
        User.history u ≤* st ∧ st ≤ now ∧ Z.abs st ≤ maxTimeValue.

Definition streak_inv (w : World) : Prop :=
  clock_mono w ∧ clock_in_range w ∧ Forall (λ r, user_inv (clock_now w) r.2) (users w).

(** ** Requests as steps *)

Inductive request := ReqGet (s : session) | ReqPost (s : session).

Definition handle (r : request) (w : World) : World :=
  match r with
  | ReqGet s => (run (GET s) w).2
  | ReqPost s => (run (POST s) w).2
  end.

(** The world after serving the requests [rs] in order. *)
Definition serve (rs : list request) (w : World) : World :=
  fold_left (λ w r, handle r w) rs w.

(** ** The abstract state of a user document *)

(** The abstract state a user document stands for. *)
Definition abs (u : User.t) : option Spec.state :=
  (λ st, Spec.mk st (User.history u)) <$> User.currentStreakStart u.

(** ** Concrete stores for the witnesses *)

(** Ada registered at 2023-07-22T04:26:40Z; Bob's start is a stored
    [null]. *)
Definition demo_users : list (oid * User.t) :=
  [(1%N, User.register "ada@example.com" "hash" None 1690000000000);
   (2%N, User.set_start (User.register "bob@example.com" "hash" None 1690000000000) None)]%string.

Definition demo_streak_world : World := set_users demo_world demo_users.

(** ** Behaviour of the handlers, branch by branch *)

Section branches.
Context (s : session) (w : World) (uid : oid).
Hypothesis Hs : session_user s = Some uid.

Lemma GET_run_valid u st :
  find_by_id (users w) uid = Some u → User.currentStreakStart u = Some st →
  time_clip st = Some st →
  run (GET s) w =
    (Json 200 (mk_status (Z.abs (clock_now w - st) / msPerDay)
                 (Z.abs (clock_now w - st) / msPerHour) (Some st) (User.history u)),
     tick w).
Proof.
  intros Hu Hst Hc. unfold GET. rewrite Hs. mrun. rewrite Hu, Hst. cbn.
  unfold date_of_field. rewrite Hst, Hc. cbn. rewrite Hst. cbn. by rewrite Hc.
Qed.

Lemma GET_run_missing u :
  clock_in_range w →
  find_by_id (users w) uid = Some u → User.currentStreakStart u = None →
  run (GET s) w =
    (Json 200 (mk_status (Z.abs (clock_at w 2 - clock_at w 0) / msPerDay)
                 (Z.abs (clock_at w 2 - clock_at w 0) / msPerHour)
                 (Some (clock_at w 0)) (User.history u)),
     set_users (advance w 3) (replace_by_id (users w) uid
       (User.touch (User.set_start u (Some (clock_at w 0))) (clock_at w 1)))).
Proof.
  intros Hr Hu Hst. unfold GET. rewrite Hs. mrun. rewrite Hu, Hst. cbn.
  unfold date_of_field. cbn. rewrite !(time_clip_clock w _ Hr). cbn.
  by rewrite ?(time_clip_clock w _ Hr).
Qed.

Lemma GET_run_invalid u st :
  clock_in_range w →
  find_by_id (users w) uid = Some u → User.currentStreakStart u = Some st →
  time_clip st = None →
  run (GET s) w =
    (Json 200 (mk_status (Z.abs (clock_at w 0 - clock_at w 1) / msPerDay)
                 (Z.abs (clock_at w 0 - clock_at w 1) / msPerHour)
                 (Some (clock_at w 1)) (User.history u)),
     set_users (advance w 3) (replace_by_id (users w) uid
       (User.touch (User.set_start u (Some (clock_at w 1))) (clock_at w 2)))).
Proof.
  intros Hr Hu Hst Hc. unfold GET. rewrite Hs. mrun. rewrite Hu, Hst. cbn.
  unfold date_of_field. rewrite Hst, Hc. cbn. rewrite !(time_clip_clock w _ Hr). cbn.
  by rewrite ?(time_clip_clock w _ Hr).
Qed.

Lemma POST_run u :
  find_by_id (users w) uid = Some u →
  run (POST s) w =
    (Message 200 "Streak reset successfully",
     set_users (advance w 3) (replace_by_id (users w) uid
       (User.touch (User.set_start (User.set_history u
          (push (User.history u) (clock_at w 0))) (Some (clock_at w 1))) (clock_at w 2))))%string.
Proof. intros Hu. unfold POST. rewrite Hs. mrun. by rewrite Hu. Qed.
End branches.
(** ** Unauthenticated and unknown users *)

Lemma GET_unauth s w : session_user s = None → run (GET s) w = (Message 401 "Unauthorized", w)%string.
Proof. intros Hs. unfold GET. by rewrite Hs. Qed.

Lemma POST_unauth s w : session_user s = None → run (POST s) w = (Message 401 "Unauthorized", w)%string.
Proof. intros Hs. unfold POST. by rewrite Hs. Qed.

Lemma GET_unknown s w uid :
  session_user s = Some uid → find_by_id (users w) uid = None →
  run (GET s) w = (Message 404 "User not found", w)%string.
Proof. intros Hs Hu. unfold GET. rewrite Hs. mrun. by rewrite Hu. Qed.

Lemma POST_unknown s w uid :
  session_user s = Some uid → find_by_id (users w) uid = None →
  run (POST s) w = (Message 404 "User not found", w)%string.
Proof. intros Hs Hu. unfold POST. rewrite Hs. mrun. by rewrite Hu. Qed.

Lemma user_inv_mono now now' u : user_inv now u → now ≤ now' → user_inv now' u.
Proof.
  intros (Hs & Hh & Hst) Hle. split; [done|]. split; [eauto with tracker|].
  intros st Hst'. destruct (Hst st Hst') as (? & ? & ?). split_and!; [done|lia|done].
Qed.

Lemma users_inv_mono now now' (us : list (oid * User.t)) :
  Forall (λ r, user_inv now r.2) us → now ≤ now' → Forall (λ r, user_inv now' r.2) us.
Proof.
  intros Hus Hle. eapply Forall_impl; [exact Hus|]. intros r Hr. simpl in *.
  eauto using user_inv_mono.
Qed.

(** Writing back a user that satisfies the invariant at the later clock
    keeps the invariant. *)
Lemma streak_inv_save w k uid u :
  streak_inv w → user_inv (clock_at w k) u →
  streak_inv (set_users (advance w k) (replace_by_id (users w) uid u)).
Proof.
  intros (Hm & Hr & Hus) Hu. split_and!; [done|done|].
  apply Forall_replace_by_id; [|done].
  apply (users_inv_mono (clock_now w)); [done|]. by apply clock_now_le.
Qed.

#[local] Hint Resolve user_inv_mono clock_now_le clock_at_le : tracker.

(** A restart at [t] (the repair of GET) keeps the invariant. *)
Lemma user_inv_restart now now' u t t' :
  user_inv now u → now ≤ t ≤ now' → Z.abs t ≤ maxTimeValue →
  user_inv now' (User.touch (User.set_start u (Some t)) t').
Proof.
  intros (Hs & Hh & _) Ht Hr. unfold user_inv; cbn. split_and!; [done|eauto with tracker|].
  intros st [= <-]. split_and!; [eauto with tracker|lia|done].
Qed.

(** A reset with readings [t1 ≤ t2] keeps the invariant. *)
Lemma user_inv_reset now now' u t1 t2 t3 :
  user_inv now u → now ≤ t1 → t1 ≤ t2 → t2 ≤ now' → Z.abs t2 ≤ maxTimeValue →
  user_inv now' (User.touch (User.set_start (User.set_history u
    (push (User.history u) t1)) (Some t2)) t3).
Proof.
  intros (Hs & Hh & _) H1 H2 H3 Hr. unfold user_inv; cbn.
  assert (User.history u ≤* t1) by eauto with tracker.
  split_and!; [eauto with tracker|apply all_le_push; eauto with tracker; lia|].
  intros st [= <-]. split_and!; [apply all_le_push; eauto with tracker|lia|done].
Qed.

Lemma GET_preserves s w : streak_inv w → streak_inv (run (GET s) w).2.
Proof.
  intros Hinv. pose proof Hinv as (Hm & Hr & Hus).
  destruct (session_user s) as [uid|] eqn:Hs; [|by rewrite GET_unauth].
  destruct (find_by_id (users w) uid) as [u|] eqn:Hu; [|by erewrite GET_unknown].
  pose proof (find_by_id_Forall _ _ _ _ Hus Hu) as Hui. simpl in Hui.
  destruct (User.currentStreakStart u) as [st|] eqn:Hst.
  - destruct Hui as (_ & _ & Hui). destruct (Hui st Hst) as (_ & _ & Hrange).
    rewrite (GET_run_valid s w uid Hs u st Hu Hst) by (by apply time_clip_valid).
    split_and!; [done|done|]. apply (users_inv_mono (clock_now w)); [done|]. apply Hm. simpl. lia.
  - rewrite (GET_run_missing s w uid Hs u Hr Hu Hst). apply streak_inv_save; [done|].
    eapply user_inv_restart; [exact Hui| |apply Hr].
    unfold clock_now, clock_at; simpl. split; apply Hm; lia.
Qed.

Lemma POST_preserves s w : streak_inv w → streak_inv (run (POST s) w).2.
Proof.
  intros Hinv. pose proof Hinv as (Hm & Hr & Hus).
  destruct (session_user s) as [uid|] eqn:Hs; [|by rewrite POST_unauth].
  destruct (find_by_id (users w) uid) as [u|] eqn:Hu; [|by erewrite POST_unknown].
  pose proof (find_by_id_Forall _ _ _ _ Hus Hu) as Hui. simpl in Hui.
  rewrite (POST_run s w uid Hs u Hu). apply streak_inv_save; [done|].
  eapply user_inv_reset; [exact Hui| | | |apply Hr];
    unfold clock_now, clock_at; simpl; apply Hm; lia.
Qed.

(** ** Serving sequences of requests *)

(** C4. The streak invariant holds after any sequence of streak
    requests (any sessions, any interleaving of GET and POST) that
    starts from a world satisfying it: every user's history stays sorted
    and no entry is later than the current start or than the clock. *)
Theorem streak_inv_serve (rs : list request) (w : World) :
  streak_inv w → streak_inv (serve rs w).
Proof.
  revert w. induction rs as [|r rs IH]; intros w Hw; simpl; [done|].
  apply IH. destruct r; [apply GET_preserves|apply POST_preserves]; done.
Qed.

(** ** Functional behaviour *)

(** C6. On a user whose stored start is a valid date not later than
    now, GET answers 200 with [streakDays = ⌊(now − start) / 1 day⌋] and
    [streakHours = ⌊(now − start) / 1 hour⌋], both non-negative, echoes
    the start and the history, and writes nothing (it only reads the
    clock once). *)
Theorem GET_reports_elapsed s w uid u st :
  session_user s = Some uid → find_by_id (users w) uid = Some u →
  User.currentStreakStart u = Some st → 0 ≤ st ≤ clock_now w → clock_now w ≤ maxTimeValue →
  run (GET s) w =
    (Json 200 (mk_status ((clock_now w - st) / msPerDay) ((clock_now w - st) / msPerHour)
                 (Some st) (User.history u)), tick w) ∧
  0 ≤ (clock_now w - st) / msPerDay ∧ 0 ≤ (clock_now w - st) / msPerHour.
Proof.
  intros Hs Hu Hst Hle Hmax.
  rewrite (GET_run_valid s w uid Hs u st Hu Hst) by (apply time_clip_valid; lia).
  rewrite Z.abs_eq by lia. split; [done|]. unfold msPerDay, msPerHour.
  split; apply Z.div_pos; lia.
Qed.

(** C7. When the stored start is missing ([null]) or not a valid date,
    GET repairs it: the new start is a clock reading taken during the
    request, it is saved before the answer, and the answer reports it
    with [streakDays = 0] as long as the request lasts less than a day. *)
Theorem GET_self_heals s w uid u :
  session_user s = Some uid → find_by_id (users w) uid = Some u →
  clock_mono w → clock_in_range w →
  (User.currentStreakStart u = None ∨
   ∃ st, User.currentStreakStart u = Some st ∧ maxTimeValue < Z.abs st) →
  clock_at w 2 - clock_at w 0 < msPerDay →
  ∃ t body,
    run (GET s) w = (Json 200 body, (run (GET s) w).2) ∧
    streakDays body = 0 ∧ startDate body = Some t ∧
    clock_at w 0 ≤ t ≤ clock_at w 2 ∧
    (User.currentStreakStart <$> find_by_id (users (run (GET s) w).2) uid) = Some (Some t).
Proof.
  intros Hs Hu Hm Hr Hbad Hday.
  assert (clock_at w 0 ≤ clock_at w 1 ≤ clock_at w 2)
    by (split; (apply clock_at_le; [done|lia])).
  destruct Hbad as [Hst|(st & Hst & Hinv)].
  - rewrite (GET_run_missing s w uid Hs u Hr Hu Hst). eexists _, _.
    split; [done|]. cbn -[clock_at msPerDay find_by_id replace_by_id]. rewrite Z.abs_eq by lia.
    rewrite Z.div_small by (unfold msPerDay in *; lia).
    split_and!; [done|done|lia|lia|]. by erewrite find_by_id_replace_eq.
  - rewrite (GET_run_invalid s w uid Hs u st Hr Hu Hst (time_clip_invalid _ Hinv)).
    eexists _, _. split; [done|]. cbn -[clock_at msPerDay find_by_id replace_by_id]. rewrite Z.abs_neq by lia.
    rewrite Z.div_small by (unfold msPerDay in *; lia).
    split_and!; [done|done|lia|lia|]. by erewrite find_by_id_replace_eq.
Qed.

(** C8. POST appends exactly one entry, the first clock reading, to the
    user's history, restarts the streak at the second reading (not
    earlier than the first), answers 200, and leaves every other user
    unchanged. *)
Theorem POST_appends_and_restarts s w uid u :
  session_user s = Some uid → find_by_id (users w) uid = Some u → clock_mono w →
  let '(r, w') := run (POST s) w in
  status r = 200 ∧
  (∃ u', find_by_id (users w') uid = Some u' ∧
         User.history u' = User.history u ++ [clock_at w 0] ∧
         User.currentStreakStart u' = Some (clock_at w 1) ∧
         clock_at w 0 ≤ clock_at w 1) ∧
  ∀ id, id ≠ uid → find_by_id (users w') id = find_by_id (users w) id.
Proof.
  intros Hs Hu Hm. rewrite (POST_run s w uid Hs u Hu).
  cbn -[find_by_id replace_by_id clock_at]. split; [done|]. split.
  - eexists. split; [by erewrite find_by_id_replace_eq|]. cbn.
    split_and!; [done|done|apply clock_at_le; [done|lia]].
  - intros id Hid. by apply find_by_id_replace_ne.
Qed.

(** Both handlers answer 401 without a signed-in user and 404 for a
    session whose user is not in the store, and in both cases leave the
    store and the clock untouched. *)
Theorem streak_guards s w :
  (session_user s = None →
     run (GET s) w = (Message 401 "Unauthorized", w) ∧
     run (POST s) w = (Message 401 "Unauthorized", w)) ∧
  (∀ uid, session_user s = Some uid → find_by_id (users w) uid = None →
     run (GET s) w = (Message 404 "User not found", w) ∧
     run (POST s) w = (Message 404 "User not found", w))%string.
Proof.
  split.
  - intros Hs. split; [by apply GET_unauth|by apply POST_unauth].
  - intros uid Hs Hu. split; [by eapply GET_unknown|by eapply POST_unknown].
Qed.

(** ** Refinement of the abstract machine *)

(** C5. In every world satisfying the invariant, the handlers implement
    the abstract machine: GET on a user with abstract state [a] reports
    [Spec.status now a] and leaves the state alone, and POST moves it by
    one [Spec.reset] step. *)
Theorem handlers_refine_spec s w uid u a :
  streak_inv w → session_user s = Some uid → find_by_id (users w) uid = Some u →
  abs u = Some a →
  (∃ b, run (GET s) w = (Json 200 b, tick w) ∧
        (streakDays b, streakHours b) = Spec.status (clock_now w) a) ∧
  (∃ a', (abs <$> find_by_id (users (run (POST s) w).2) uid) = Some (Some a') ∧
         Spec.reset a a').
Proof.
  intros Hinv Hs Hu Ha. pose proof Hinv as (Hm & Hr & Hus).
  pose proof (find_by_id_Forall _ _ _ _ Hus Hu) as (_ & _ & Hui). simpl in Hui.
  unfold abs in Ha. destruct (User.currentStreakStart u) as [st|] eqn:Hst; [|done].
  injection Ha as <-. destruct (Hui st eq_refl) as (_ & Hle & Hrange). split.
  - rewrite (GET_run_valid s w uid Hs u st Hu Hst) by (by apply time_clip_valid).
    eexists. split; [done|]. unfold Spec.status. cbn. by rewrite Z.abs_eq by lia.
  - rewrite (POST_run s w uid Hs u Hu). cbn -[find_by_id replace_by_id clock_at].
    erewrite find_by_id_replace_eq by done. eexists. split; [done|].
    constructor; cbn; [exact Hle|apply clock_at_le; [done|lia]].
Qed.

(** ** Witnesses on a concrete store *)

Lemma demo_streak_inv : streak_inv demo_streak_world.
Proof.
  split_and!; [by apply demo_clock_mono|by apply demo_clock_range|].
  constructor; [|constructor; [|constructor]]; unfold user_inv; cbn.
  - split_and!; [constructor|constructor|].
    intros st [= <-]. split_and!; [constructor|compute_done|compute_done].
  - split_and!; [constructor|constructor|done].
Qed.

Lemma GET_reports_elapsed_witness :
  run (GET (Some (Some 1%N))) demo_streak_world =
    (Json 200 (mk_status 115 2777 (Some 1690000000000) []), tick demo_streak_world).
Proof.
  destruct (GET_reports_elapsed (Some (Some 1%N)) demo_streak_world 1%N _ 1690000000000
    eq_refl eq_refl eq_refl ltac:(compute_done) ltac:(compute_done)) as [-> _].
  reflexivity.
Defined.

Lemma GET_self_heals_witness :
  ∃ t body,
    run (GET (Some (Some 2%N))) demo_streak_world =
      (Json 200 body, (run (GET (Some (Some 2%N))) demo_streak_world).2) ∧
    streakDays body = 0 ∧ startDate body = Some t ∧
    clock_at demo_streak_world 0 ≤ t ≤ clock_at demo_streak_world 2 ∧
    (User.currentStreakStart <$>
       find_by_id (users (run (GET (Some (Some 2%N))) demo_streak_world).2) 2%N) = Some (Some t).
Proof.
  apply (GET_self_heals (Some (Some 2%N)) demo_streak_world 2%N _ eq_refl eq_refl).
  - by apply demo_clock_mono.
  - by apply demo_clock_range.
  - by left.
  - compute_done.
Defined.

Lemma POST_appends_and_restarts_witness :
  let '(r, w') := run (POST (Some (Some 1%N))) demo_streak_world in
  status r = 200 ∧
  (∃ u', find_by_id (users w') 1%N = Some u' ∧
         User.history u' = [] ++ [clock_at demo_streak_world 0] ∧
         User.currentStreakStart u' = Some (clock_at demo_streak_world 1) ∧
         clock_at demo_streak_world 0 ≤ clock_at demo_streak_world 1) ∧
  ∀ id, id ≠ 1%N → find_by_id (users w') id = find_by_id (users demo_streak_world) id.
Proof.
  apply (POST_appends_and_restarts (Some (Some 1%N)) demo_streak_world 1%N _ eq_refl eq_refl).
  by apply demo_clock_mono.
Defined.

Lemma streak_guards_witness :
  run (GET None) demo_streak_world = (Message 401 "Unauthorized", demo_streak_world) ∧
  run (POST (Some (Some 7%N))) demo_streak_world =
    (Message 404 "User not found", demo_streak_world).
Proof.
  split.
  - apply (proj1 (streak_guards None demo_streak_world) eq_refl).
  - apply (proj2 (streak_guards (Some (Some 7%N)) demo_streak_world) 7%N eq_refl eq_refl).
Defined.

Lemma streak_inv_serve_witness :
  streak_inv (serve [ReqGet (Some (Some 2%N)); ReqPost (Some (Some 1%N)); ReqGet None;
                     ReqPost (Some (Some 2%N))] demo_streak_world).
Proof. apply streak_inv_serve, demo_streak_inv. Defined.

Lemma handlers_refine_spec_witness :
  (∃ b, run (GET (Some (Some 1%N))) demo_streak_world = (Json 200 b, tick demo_streak_world) ∧
        (streakDays b, streakHours b) =
          Spec.status (clock_now demo_streak_world) (Spec.mk 1690000000000 [])) ∧
  (∃ a', (abs <$> find_by_id (users (run (POST (Some (Some 1%N))) demo_streak_world).2) 1%N)
           = Some (Some a') ∧ Spec.reset (Spec.mk 1690000000000 []) a').
Proof.
  apply (handlers_refine_spec (Some (Some 1%N)) demo_streak_world 1%N _ _ demo_streak_inv
    eq_refl eq_refl eq_refl).
Defined.

End StreakRoute.
