(* ===== verification/Habits.v ===== *)
(** * Habit completion tracking: [src/app/api/habits/route.ts]

    [GET] lists the user's habits, newest first; [POST] creates one
    through the schema's validation; [PUT] toggles a day in a habit's
    [completedDates]: the requested date is moved to local midnight
    ([setHours(0, 0, 0, 0)] in the server's time zone), the first entry
    on the same local day is removed, or else the midnight is appended.

    The completion list is kept as a set of days: every entry is a local
    midnight and no two entries share a day ([day_set]).  The theorems:
    the toggle flips exactly the requested day, preserves [day_set], and
    is its own inverse up to order; the handlers' guards and error paths;
    and that [PUT] does not check who owns the habit. *)

From stdpp Require Import base list strings sorting.
From Stdlib Require Import ZArith String Lia.
From S2P Require Import Prelude Calendar Store Models World.

Open Scope Z_scope.

Module Toggle.

(** ** Dates for the witnesses: 2024-03-01 in UTC *)

(** 2024-03-01T00:00:00Z, and 15:30 the same day. *)
Definition mar1 : Z := 1709251200000.
Definition mar1_1530 : Z := 1709307000000.

Section toggle.
(** The server's offset from UTC, in milliseconds. *)
Context (tzo : Z).

(** The local days of a list of dates. *)
Definition days (ds : list Z) : list Z := local_day tzo <$> ds.

(** Lines 58-74: [findIndex] on the zeroed dates, then [splice] or
    [push]; pushing an invalid date throws when Mongoose casts it. *)
Definition toggle (target : option Z) (ds : list Z) : result (list Z) :=
  let existingIndex :=
    findIndex (λ d, time_eqb (set_hours_start tzo (time_clip d)) target) ds in
  if -1 <? existingIndex then Ok (splice1 ds existingIndex)
  else match target with
       | Some t => Ok (push ds t)
       | None => Err (CastError "completedDates")
       end%string.

(** Every entry is a (representable) local midnight and no two entries
    fall on the same local day. *)
Definition day_set (ds : list Z) : Prop :=
  Forall (λ d, set_hours_start tzo (Some d) = Some d) ds ∧ NoDup (days ds).

(** Reordering the entries reorders their days. *)
#[global] Instance days_proper : Proper ((≡ₚ) ==> (≡ₚ)) days.
Proof. intros l1 l2 Hp. unfold days. by rewrite Hp. Qed.

(** ** Lemmas: the test [findIndex] uses is "same local day" *)

(** Every entry after a toggle was there before or is the target. *)
Lemma toggle_entries target ds ds' :
  toggle target ds = Ok ds' → ∀ d, d ∈ ds' → d ∈ ds ∨ target = Some d.
Proof.
  unfold toggle. case_match.
  - intros [= <-] d Hd. left. by eapply splice1_subseteq.
  - destruct target as [t|]; [|done]. intros [= <-] d Hd.
    apply elem_of_app in Hd as [?|Hd%list_elem_of_singleton]; [by left|subst; by right].
Qed.

Section target.
(** The requested date [t] and its local midnight [m]. *)
Context (t m : Z).
Hypothesis Hm : set_hours_start tzo (Some t) = Some m.

Definition same_day (d : Z) : bool :=
  time_eqb (set_hours_start tzo (time_clip d)) (Some m).

Lemma midnight_clip d : set_hours_start tzo (Some d) = Some d → time_clip d = Some d.
Proof.
  intros Hd. pose proof (set_hours_start_spec _ _ _ Hd) as (Heq & _).
  unfold set_hours_start in Hd. simpl in Hd. by rewrite <- Heq in Hd.
Qed.

Lemma same_day_spec d :
  set_hours_start tzo (Some d) = Some d →
  same_day d = true ↔ local_day tzo d = local_day tzo t.
Proof.
  intros Hd. unfold same_day. rewrite (midnight_clip d Hd), Hd. simpl.
  apply set_hours_start_spec in Hd as (Hd & _). apply set_hours_start_spec in Hm as (-> & _).
  rewrite Z.eqb_eq. unfold msPerDay in *. lia.
Qed.

Lemma same_day_absent ds :
  day_set ds → findIndex same_day ds = -1 ↔ local_day tzo t ∉ days ds.
Proof.
  intros [Hmid _]. rewrite findIndex_none. unfold days. rewrite list_elem_of_fmap.
  split.
  - intros Hall (d & Hday & Hin). rewrite Forall_forall in Hall, Hmid.
    specialize (Hall d Hin). rewrite <- not_true_iff_false, same_day_spec in Hall by auto.
    congruence.
  - intros Hnot. apply Forall_forall. intros d Hin. apply not_true_iff_false.
    rewrite same_day_spec by (rewrite Forall_forall in Hmid; auto). intros Heq.
    apply Hnot. eauto.
Qed.

Lemma same_day_found ds i :
  day_set ds → findIndex same_day ds = i → 0 ≤ i →
  ds !! Z.to_nat i = Some m ∧ local_day tzo m = local_day tzo t.
Proof.
  intros [Hmid _] Hi Hpos. destruct (findIndex_some _ ds i Hi Hpos) as (x & Hx & Hpx & _).
  pose proof (list_elem_of_lookup_2 _ _ _ Hx) as Hin.
  rewrite Forall_forall in Hmid. specialize (Hmid x Hin).
  apply same_day_spec in Hpx; [|done].
  apply set_hours_start_spec in Hmid as (Hx' & _). pose proof Hm as Hm'.
  apply set_hours_start_spec in Hm' as (Hm' & _ & Hday).
  assert (x = m) as -> by (rewrite Hx', Hm', Hpx; done). done.
Qed.

Lemma day_set_perm ds rest :
  day_set ds → ds ≡ₚ m :: rest →
  day_set rest ∧ (local_day tzo m ∉ days rest) ∧ (days ds ≡ₚ local_day tzo m :: days rest).
Proof.
  intros [Hmid Hnd] Hp. unfold day_set, days in *.
  assert (local_day tzo <$> ds ≡ₚ local_day tzo m :: (local_day tzo <$> rest)) as Hdp
    by (by rewrite Hp).
  rewrite Hdp in Hnd. apply NoDup_cons in Hnd as [Hnot Hnd].
  rewrite Hp in Hmid. apply Forall_cons in Hmid as [_ Hmid]. done.
Qed.

(** The two ways a toggle can go on a day set. *)
Lemma toggle_cases ds :
  day_set ds →
  ((local_day tzo t ∉ days ds) ∧ toggle (set_hours_start tzo (Some t)) ds = Ok (ds ++ [m])) ∨
  (∃ rest, ds ≡ₚ m :: rest ∧ toggle (set_hours_start tzo (Some t)) ds = Ok rest).
Proof.
  intros Hds. unfold toggle. rewrite Hm. fold same_day.
  pose proof (findIndex_range same_day ds) as Hr.
  destruct (Z.ltb_spec (-1) (findIndex same_day ds)) as [Hlt|Hge].
  - right. destruct (same_day_found ds _ Hds eq_refl ltac:(lia)) as [Hx _].
    eexists. split; [by apply splice1_perm|done].
  - left. split; [|done]. apply same_day_absent; [done|lia].
Qed.

Lemma local_day_target : local_day tzo m = local_day tzo t.
Proof. by apply set_hours_start_spec in Hm as (_ & _ & ?). Qed.

Lemma midnight_target : set_hours_start tzo (Some m) = Some m.
Proof. rewrite <- Hm. by rewrite set_hours_start_idem. Qed.

(** A day not yet completed is appended, and the list stays a day set. *)
Lemma toggle_absent ds :
  day_set ds → local_day tzo t ∉ days ds →
  toggle (set_hours_start tzo (Some t)) ds = Ok (ds ++ [m]) ∧ day_set (ds ++ [m]).
Proof.
  intros Hds Hnot. destruct (toggle_cases ds Hds) as [[_ Ht]|(rest & Hp & _)].
  - split; [done|]. destruct Hds as [Hmid Hnd]. split.
    + apply Forall_app. split; [done|]. constructor; [apply midnight_target|constructor].
    + unfold days in *. rewrite fmap_app, fmap_cons, fmap_nil, local_day_target.
      apply NoDup_app. split_and!; [done| |by apply NoDup_singleton].
      intros x Hx Hy. apply list_elem_of_singleton in Hy. by subst.
  - exfalso. apply Hnot. destruct (day_set_perm ds rest Hds Hp) as (_ & _ & ->).
    rewrite <- local_day_target. by constructor.
Qed.

(** Toggling a day flips whether that local day is completed and
    leaves every other day as it was. *)
Theorem toggle_flips ds :
  day_set ds →
  ∃ ds', toggle (set_hours_start tzo (Some t)) ds = Ok ds' ∧
    (local_day tzo t ∈ days ds' ↔ local_day tzo t ∉ days ds) ∧
    ∀ k, k ≠ local_day tzo t → (k ∈ days ds' ↔ k ∈ days ds).
Proof.
  intros Hds. pose proof local_day_target as Hld.
  destruct (toggle_cases ds Hds) as [[Hnot ->]|(rest & Hp & ->)]; eexists; (split; [done|]).
  - unfold days in *. rewrite fmap_app, fmap_cons, fmap_nil, Hld. split.
    + split; [done|]. intros _. apply elem_of_app. right. by constructor.
    + intros k Hk. rewrite elem_of_app, list_elem_of_singleton. naive_solver.
  - destruct (day_set_perm ds rest Hds Hp) as (_ & Hnot & Hdp). split.
    + rewrite Hdp, <- Hld. split; [done|]. intros Hn. exfalso. apply Hn. by constructor.
    + intros k Hk. rewrite Hdp, elem_of_cons. naive_solver.
Qed.

(** The toggle keeps a day set a day set. *)
Lemma toggle_day_set ds ds' :
  day_set ds → toggle (set_hours_start tzo (Some t)) ds = Ok ds' → day_set ds'.
Proof.
  intros Hds Ht. destruct (toggle_cases ds Hds) as [[Hnot Ht']|(rest & Hp & Ht')];
    rewrite Ht' in Ht; injection Ht as <-.
  - by apply toggle_absent.
  - by apply (day_set_perm ds rest Hds Hp).
Qed.

(** C2. Toggling keeps [completedDates] a day set: entries stay local
    midnights and no day is booked twice. *)
Theorem toggle_preserves_day_set ds ds' :
  day_set ds → toggle (set_hours_start tzo (Some t)) ds = Ok ds' → day_set ds'.
Proof. apply toggle_day_set. Qed.

(** C3. Toggling the same day twice restores the completion set (the
    order of the entries may change). *)
Theorem toggle_involutive ds ds' :
  day_set ds → toggle (set_hours_start tzo (Some t)) ds = Ok ds' →
  ∃ ds'', toggle (set_hours_start tzo (Some t)) ds' = Ok ds'' ∧ ds'' ≡ₚ ds.
Proof.
  intros Hds Ht. pose proof (toggle_day_set ds ds' Hds Ht) as Hds'.
  destruct (toggle_cases ds Hds) as [[Hnot Ht']|(rest & Hp & Ht')];
    rewrite Ht' in Ht; injection Ht as <-.
  - exists ds. split; [|done]. unfold toggle. rewrite Hm. fold same_day.
    rewrite findIndex_snoc.
    + rewrite (proj2 (Z.ltb_lt _ _)) by lia. f_equal. apply (splice1_push ds m).
    + apply findIndex_none. by apply same_day_absent.
    + apply same_day_spec; [apply midnight_target|apply local_day_target].
  - destruct (day_set_perm ds rest Hds Hp) as (Hrest & Hnot & _).
    destruct (toggle_cases rest Hrest) as [[_ ->]|(rest' & Hp' & _)].
    + eexists. split; [done|]. rewrite Hp. symmetry. apply Permutation_cons_append.
    + exfalso. apply Hnot. rewrite Hp'. by constructor.
Qed.
End target.
End toggle.

(** ** Witnesses *)

Lemma toggle_flips_witness :
  ∃ ds', toggle 0 (set_hours_start 0 (Some mar1_1530)) [] = Ok ds' ∧
    (local_day 0 mar1_1530 ∈ days 0 ds' ↔ local_day 0 mar1_1530 ∉ days 0 []) ∧
    ∀ k, k ≠ local_day 0 mar1_1530 → (k ∈ days 0 ds' ↔ k ∈ days 0 []).
Proof. apply (toggle_flips 0 mar1_1530 mar1 eq_refl). split; compute_done. Defined.

Lemma toggle_preserves_day_set_witness : day_set 0 [mar1].
Proof.
  apply (toggle_preserves_day_set 0 mar1_1530 mar1 eq_refl []); [split; compute_done|].
  reflexivity.
Defined.

Lemma toggle_involutive_witness :
  ∃ ds'', toggle 0 (set_hours_start 0 (Some mar1_1530)) [] = Ok ds'' ∧ ds'' ≡ₚ [mar1].
Proof.
  apply (toggle_involutive 0 mar1_1530 mar1 eq_refl [mar1]); [split; compute_done|].
  reflexivity.
Defined.
End Toggle.

Module HabitRoute.
Import Toggle.

Record put_body := mk_put { put_id : idarg; put_date : option Z }.
Record post_body := mk_post { post_name : jval; post_frequency : jval }.

(** The types the schema gives a stored habit ([src/models/Habbit.ts],
    lines 3-21): a [required] [name] (never empty), and [completedDates]
    of [type: [Date]] (valid dates only). *)
Definition habbit_typed (h : Habbit.t) : Prop :=
  Habbit.name h ≠ ""%string ∧ Forall (λ d, Z.abs d ≤ maxTimeValue) (Habbit.completedDates h).

Definition habbits_typed (w : World) : Prop := Forall (λ r, habbit_typed r.2) (habbits w).

(** The habit of the witnesses: habit 5 of user 1. *)
Definition demo_habbit : Habbit.t := Habbit.mk 1 "Read" (Some Daily) [] 1690000000000 1690000000000.
Definition demo_habbit_world : World := set_habbits demo_world [(5%N, demo_habbit)].

Section handlers.
Context (tzo : Z).

(** [GET]: lines 8-19. *)
Definition GET (s : session) : M (response (list (oid * Habbit.t))) :=
  match session_user s with
  | None => unauthorized
  | Some uid =>
      hs ← gets (λ w, query (owned_by uid) Desc None (habbits w));
      mret (Json 200 hs)
  end.

(** [POST]: lines 22-40. *)
Definition POST (s : session) (body : option post_body) : M (response (oid * Habbit.t)) :=
  match session_user s with
  | None => unauthorized
  | Some uid =>
      b ← read_body body;
      '(n, f) ← of_result (Habbit.validate (post_name b) (post_frequency b));
      id ← fresh_oid;
      t ← new_date;
      let h := Habbit.mk uid n f [] t t in
      _ ← modify (λ w, set_habbits w (insert_doc (habbits w) id h));
      mret (Json 200 (id, h))
  end.

(** [PUT]: lines 43-79. *)
Definition PUT (s : session) (body : option put_body) : M (response (oid * Habbit.t)) :=
  match session_user s with
  | None => unauthorized
  | Some _ =>
      b ← read_body body;
      found ← (w ← gets id; find_by_idarg (habbits w) (put_id b));
      match found with
      | None => mret (Message 404 "Habbit not found")
      | Some (id, h) =>
          let targetDate := set_hours_start tzo (put_date b) in
          ds ← of_result (toggle tzo targetDate (Habbit.completedDates h));
          h' ← save_habbit id (Habbit.set_completedDates h ds);
          mret (Json 200 (id, h'))
      end
  end%string.

(** ** Behaviour of PUT *)

Lemma PUT_run_found s uid w id h date ds :
  session_user s = Some uid → find_by_id (habbits w) id = Some h →
  toggle tzo (set_hours_start tzo date) (Habbit.completedDates h) = Ok ds →
  run (PUT s (Some (mk_put (IdValid id) date))) w =
    (Json 200 (id, Habbit.touch (Habbit.set_completedDates h ds) (clock_now w)),
     set_habbits (tick w) (replace_by_id (habbits w) id
       (Habbit.touch (Habbit.set_completedDates h ds) (clock_now w)))).
Proof. intros Hs Hh Ht. unfold PUT. rewrite Hs. mrun. rewrite Hh. cbn. by rewrite Ht. Qed.

(** C1. PUT on a habit whose completion list is a day set, with a valid
    date, answers 200 with the saved habit, whose list is still a day
    set and has the requested local day flipped. *)
Theorem PUT_toggles_day s uid w id h t m :
  session_user s = Some uid → find_by_id (habbits w) id = Some h →
  day_set tzo (Habbit.completedDates h) → set_hours_start tzo (Some t) = Some m →
  ∃ h', run (PUT s (Some (mk_put (IdValid id) (Some t)))) w =
          (Json 200 (id, h'), set_habbits (tick w) (replace_by_id (habbits w) id h')) ∧
        day_set tzo (Habbit.completedDates h') ∧
        (local_day tzo t ∈ days tzo (Habbit.completedDates h') ↔
         local_day tzo t ∉ days tzo (Habbit.completedDates h)).
Proof.
  intros Hs Hh Hds Hm. destruct (toggle_flips tzo t m Hm _ Hds) as (ds & Ht & Hflip & _).
  eexists. split; [by apply (PUT_run_found s uid)|]. cbn.
  split; [by eapply toggle_day_set|done].
Qed.

(** PUT's error paths write nothing: 401 without a user, a body
    that is not JSON or a malformed id is a 500, an unknown or missing
    id is a 404, and an unparsable date is a 500 (Mongoose cannot cast
    the invalid date it would push). *)
Theorem PUT_errors s w b :
  (session_user s = None → run (PUT s b) w = (Message 401 "Unauthorized", w)) ∧
  (∀ uid, session_user s = Some uid →
    (b = None → run (PUT s b) w = (Crash BodyParseError, w)) ∧
    (∀ d, b = Some (mk_put IdMalformed d) → run (PUT s b) w = (Crash (CastError "_id"), w)) ∧
    (∀ d, b = Some (mk_put IdMissing d) → run (PUT s b) w = (Message 404 "Habbit not found", w)) ∧
    (∀ id d, b = Some (mk_put (IdValid id) d) → find_by_id (habbits w) id = None →
       run (PUT s b) w = (Message 404 "Habbit not found", w)) ∧
    (∀ id h, b = Some (mk_put (IdValid id) None) → find_by_id (habbits w) id = Some h →
       run (PUT s b) w = (Crash (CastError "completedDates"), w)))%string.
Proof.
  split; [intros Hs; unfold PUT; by rewrite Hs|]. intros uid Hs.
  unfold PUT; rewrite Hs. split_and!; intros; subst; mrun; try done.
  - by rewrite H0.
  - rewrite H0. cbn. unfold toggle.
    rewrite (proj2 (findIndex_none _ _)); [done|].
    apply Forall_forall. intros d _. unfold time_eqb. by case_match.
Qed.

(** C35. PUT never looks at who owns the habit: any signed-in user gets
    the same answer and the same write for any habit id. *)
Theorem PUT_ignores_owner s1 s2 u1 u2 b w :
  session_user s1 = Some u1 → session_user s2 = Some u2 →
  run (PUT s1 b) w = run (PUT s2 b) w.
Proof. intros H1 H2. unfold PUT. by rewrite H1, H2. Qed.

(** ** Behaviour of POST *)

Lemma POST_run_valid s uid w b n f :
  session_user s = Some uid → Habbit.validate (post_name b) (post_frequency b) = Ok (n, f) →
  ∃ w', run (POST s (Some b)) w =
          (Json 200 (next_oid w, Habbit.mk uid n f [] (clock_now w) (clock_now w)), w') ∧
        habbits w' = insert_doc (habbits w) (next_oid w) (Habbit.mk uid n f [] (clock_now w) (clock_now w)).
Proof. intros Hs Hv. unfold POST. rewrite Hs. mrun. rewrite Hv. cbn. by eexists. Qed.

(** POST stores the habit exactly when the schema accepts the body:
    then the new document (fresh id, empty completion list, both
    timestamps from one clock reading) is appended and returned; else
    the handler throws and nothing is written. *)
Theorem POST_creates s uid w b :
  session_user s = Some uid → find_by_id (habbits w) (next_oid w) = None →
  (∀ n f, Habbit.validate (post_name b) (post_frequency b) = Ok (n, f) →
     let h := Habbit.mk uid n f [] (clock_now w) (clock_now w) in
     (run (POST s (Some b)) w).1 = Json 200 (next_oid w, h) ∧
     find_by_id (habbits (run (POST s (Some b)) w).2) (next_oid w) = Some h ∧
     ∀ id, id ≠ next_oid w →
       find_by_id (habbits (run (POST s (Some b)) w).2) id = find_by_id (habbits w) id) ∧
  (∀ e, Habbit.validate (post_name b) (post_frequency b) = Err e →
     run (POST s (Some b)) w = (Crash e, w)).
Proof.
  intros Hs Hfresh. unfold POST. rewrite Hs. split.
  - intros n f Hv. mrun. rewrite Hv. cbn -[find_by_id insert_doc]. split_and!; [done| |].
    + by apply find_by_id_insert_fresh.
    + intros id Hid. by apply find_by_id_insert_ne.
  - intros e Hv. mrun. by rewrite Hv.
Qed.
(** ** The schema's types *)

Lemma validate_name nm fr n f : Habbit.validate nm fr = Ok (n, f) → n ≠ ""%string.
Proof.
  unfold Habbit.validate. destruct (cast_string "name" nm) as [[| |n']|]; [done|done| |done].
  simpl. case_bool_decide; [done|]. destruct (Habbit.cast_frequency fr); [|done]. by intros [= <- _].
Qed.

(** C18. The stored habits keep the types their schema declares (a
    non-empty name, completion dates that are valid dates): GET, POST
    and PUT preserve it for any session and any body, on their error
    paths too. *)
Theorem handlers_keep_habbits_typed s b b' w :
  habbits_typed w →
  habbits_typed (run (GET s) w).2 ∧ habbits_typed (run (POST s b) w).2 ∧
  habbits_typed (run (PUT s b') w).2.
Proof.
  intros Hw. split_and!.
  - unfold GET. destruct (session_user s); by mrun.
  - unfold POST. destruct (session_user s); [|by mrun]. destruct b as [b|]; mrun; [|done].
    destruct (Habbit.validate _ _) as [[nm fq]|e] eqn:Hv; mrun; [|done].
    apply Forall_app. split; [done|]. repeat constructor. by eapply validate_name.
  - unfold PUT. destruct (session_user s); [|by mrun]. destruct b' as [[a date]|]; mrun; [|done].
    destruct a as [id| |]; mrun; [|done|done]. destruct (find_by_id (habbits w) id) as [h|] eqn:Hf; [|done].
    cbn -[set_hours_start toggle].
    destruct (toggle tzo (set_hours_start tzo date) (Habbit.completedDates h)) as [ds|e] eqn:Ht; [|done].
    cbn. apply Forall_replace_by_id; [done|]. destruct (find_by_id_Forall _ _ _ _ Hw Hf) as [Hn Hd].
    split; [done|]. apply Forall_forall. intros d Hin. simpl in Hin.
    destruct (toggle_entries _ _ _ _ Ht d Hin) as [Hold|Hnew].
    + rewrite Forall_forall in Hd. by apply Hd.
    + by eapply set_hours_start_valid.
Qed.

End handlers.

(** ** Witnesses: habit 5 of user 1, toggled by users 1 and 2 *)

Lemma handlers_keep_habbits_typed_witness :
  habbits_typed (run (PUT 0 (Some (Some 1%N)) (Some (mk_put (IdValid 5) (Some mar1_1530)))) demo_habbit_world).2.
Proof.
  refine (proj2 (proj2 (handlers_keep_habbits_typed 0 (Some (Some 1%N)) None _ demo_habbit_world _))).
  repeat constructor. simpl. done.
Defined.

Lemma PUT_toggles_day_witness :
  ∃ h', run (PUT 0 (Some (Some 1%N)) (Some (mk_put (IdValid 5) (Some mar1_1530)))) demo_habbit_world =
          (Json 200 (5%N, h'), set_habbits (tick demo_habbit_world)
                                 (replace_by_id (habbits demo_habbit_world) 5%N h')) ∧
        day_set 0 (Habbit.completedDates h') ∧
        (local_day 0 mar1_1530 ∈ days 0 (Habbit.completedDates h') ↔
         local_day 0 mar1_1530 ∉ days 0 (Habbit.completedDates demo_habbit)).
Proof.
  apply (PUT_toggles_day 0 (Some (Some 1%N)) 1%N demo_habbit_world 5%N demo_habbit mar1_1530 mar1
           eq_refl eq_refl); [split; compute_done|reflexivity].
Defined.

Lemma PUT_errors_witness :
  run (PUT 0 (Some (Some 1%N)) (Some (mk_put (IdValid 6) (Some mar1)))) demo_habbit_world =
    (Message 404 "Habbit not found", demo_habbit_world) ∧
  run (PUT 0 (Some (Some 1%N)) (Some (mk_put IdMalformed (Some mar1)))) demo_habbit_world =
    (Crash (CastError "_id"), demo_habbit_world) ∧
  run (PUT 0 (Some (Some 1%N)) (Some (mk_put (IdValid 5) None))) demo_habbit_world =
    (Crash (CastError "completedDates"), demo_habbit_world).
Proof.
  split_and!.
  - destruct (proj2 (PUT_errors 0 (Some (Some 1%N)) demo_habbit_world
      (Some (mk_put (IdValid 6) (Some mar1)))) 1%N eq_refl) as (_ & _ & _ & H & _).
    apply (H 6%N (Some mar1) eq_refl). reflexivity.
  - destruct (proj2 (PUT_errors 0 (Some (Some 1%N)) demo_habbit_world
      (Some (mk_put IdMalformed (Some mar1)))) 1%N eq_refl) as (_ & H & _).
    by apply (H (Some mar1)).
  - destruct (proj2 (PUT_errors 0 (Some (Some 1%N)) demo_habbit_world
      (Some (mk_put (IdValid 5) None))) 1%N eq_refl) as (_ & _ & _ & _ & H).
    apply (H 5%N demo_habbit eq_refl). reflexivity.
Defined.

Lemma PUT_ignores_owner_witness :
  run (PUT 0 (Some (Some 2%N)) (Some (mk_put (IdValid 5) (Some mar1_1530)))) demo_habbit_world =
  run (PUT 0 (Some (Some 1%N)) (Some (mk_put (IdValid 5) (Some mar1_1530)))) demo_habbit_world.
Proof. apply (PUT_ignores_owner 0 _ _ 2%N 1%N); reflexivity. Defined.

Lemma POST_creates_witness :
  let h := Habbit.mk 1 "Meditate" (Some Daily) [] (clock_now demo_world) (clock_now demo_world) in
  (run (POST (Some (Some 1%N)) (Some (mk_post (JStr "Meditate") JUndefined))) demo_world).1 =
    Json 200 (next_oid demo_world, h) ∧
  find_by_id (habbits (run (POST (Some (Some 1%N))
                (Some (mk_post (JStr "Meditate") JUndefined))) demo_world).2) (next_oid demo_world) = Some h.
Proof.
  destruct (POST_creates (Some (Some 1%N)) 1%N demo_world (mk_post (JStr "Meditate") JUndefined)
              eq_refl eq_refl) as [Hok _].
  destruct (Hok "Meditate"%string (Some Daily) eq_refl) as (H1 & H2 & _). by split.
Defined.
End HabitRoute.
