(* ===== verification/HabitStats.v ===== *)
(** * Client statistics of [src/components/habbit-tracker.tsx]

    The tracker shows, per habit, whether it is done today
    ([isCompletedToday], lines 76-79) and a monthly progress bar (lines
    118-142): the completions whose local month and year are the current
    ones, a target of the days elapsed in the month (daily) or
    [Math.ceil(days / 7)] (weekly), and [Math.min(100, Math.round(
    completed / target * 100))].  All calendar fields are in the
    browser's time zone [ctz]; the dates were normalised by the server in
    its own zone.

    [Math.round] is modelled on the exact quotient: with a target of at
    most 31, a quotient [100 c / t] that is a half-integer has [t] a
    multiple of 8 dividing [200 c], so [c / t] is a dyadic rational that
    doubles represent exactly; any other quotient is at least [1/62] away
    from a half-integer, far more than the rounding error of a double. *)

From stdpp Require Import base list strings sorting.
From Stdlib Require Import ZArith String Lia.
From S2P Require Import Prelude Calendar Store Models World Habits.

Open Scope Z_scope.

Module HabbitTracker.
Import Toggle.

(** [Math.round(a / b)] for [b > 0]: [⌊a / b + 1/2⌋]. *)
Definition js_round_div (a b : Z) : Z := (2 * a + b) / (2 * b).

Section client.
(** The browser's offset from UTC and its [new Date()]. *)
Context (ctz now : Z).

(** Lines 76-79. *)
Definition isCompletedToday (dates : list Z) : bool :=
  let today := set_hours_start ctz (Some now) in
  existsb (λ d, time_eqb (set_hours_start ctz (Some d)) today) dates.

(** Lines 119-127: the completions in the current local month. *)
Definition completedThisMonth (dates : list Z) : Z :=
  let currentMonth := get_month ctz now in
  let currentYear := get_full_year ctz now in
  Z.of_nat (List.length (filter (λ d, get_month ctz d = currentMonth ∧
                                 get_full_year ctz d = currentYear) dates)).

(** Lines 122 and 136-139. *)
Definition target (frequency : option Frequency) : Z :=
  let daysInMonthSoFar := get_date ctz now in
  if bool_decide (frequency = Some Weekly) then (daysInMonthSoFar + 6) / 7
  else daysInMonthSoFar.

(** Line 142. *)
Definition percentage (h : Habbit.t) : Z :=
  Z.min 100 (js_round_div (completedThisMonth (Habbit.completedDates h) * 100)
                          (target (Habbit.frequency h))).

(** ** Lemmas *)

Lemma target_bounds f : 1 ≤ target f ≤ 31.
Proof.
  unfold target. destruct (get_date_range ctz now) as [Hd Hd31].
  case_bool_decide; [split; [apply Z.div_le_lower_bound|apply Z.div_le_upper_bound]|]; lia.
Qed.

Lemma completedThisMonth_nonneg ds : 0 ≤ completedThisMonth ds.
Proof. unfold completedThisMonth. lia. Qed.

(** The days of the current month up to today are the [get_date]
    days ending today. *)
Lemma month_window d :
  d ≤ now → get_month ctz d = get_month ctz now → get_full_year ctz d = get_full_year ctz now →
  local_day ctz now - get_date ctz now + 1 ≤ local_day ctz d ≤ local_day ctz now.
Proof.
  unfold get_month, get_full_year, get_date. intros Hle Hm Hy.
  destruct (civil_from_days (local_day ctz d)) as [[y1 m1] d1] eqn:E1.
  destruct (civil_from_days (local_day ctz now)) as [[y2 m2] d2] eqn:E2.
  assert (m1 = m2) as <- by lia. subst y2.
  pose proof (same_month_offset _ _ _ _ _ _ E2 E1) as Hoff.
  apply civil_from_days_spec in E1 as (_ & Hd1 & _).
  assert (local_day ctz d ≤ local_day ctz now)
    by (unfold local_day; apply Z.div_le_mono; unfold msPerDay; lia).
  lia.
Qed.
End client.

(** ** The habit of the witnesses *)

(** 2024-03-15T12:00Z; completions on March 1 and 2. *)
Definition mar15_noon : Z := 1710504000000.
Definition demo_daily : Habbit.t :=
  Habbit.mk 1 "Read" (Some Daily) [1709251200000; 1709337600000] 0 0.

(** ** Server and browser zones *)

(** A midnight of the server's zone [stz] falls on the client's day
    shifted by a constant. *)
Lemma local_day_midnight_shift stz ctz d :
  set_hours_start stz (Some d) = Some d →
  local_day ctz d = local_day stz d + (ctz - stz) / msPerDay.
Proof.
  intros Hd. apply set_hours_start_spec in Hd as (Hd & _).
  set (k := local_day stz d) in *. unfold local_day.
  replace (d + ctz) with ((ctz - stz) + k * msPerDay) by lia.
  rewrite Z.div_add by (unfold msPerDay; lia). lia.
Qed.

(** Distinct server days stay distinct in the client's zone. *)
Lemma day_set_client_days stz ctz ds :
  day_set stz ds → NoDup (local_day ctz <$> ds).
Proof.
  intros [Hmid Hnd].
  assert (local_day ctz <$> ds = (λ k, k + (ctz - stz) / msPerDay) <$> days stz ds) as ->.
  { unfold days. rewrite <- list_fmap_compose. apply list_fmap_ext.
    intros i x Hx. apply local_day_midnight_shift.
    rewrite Forall_forall in Hmid. apply Hmid. by eapply list_elem_of_lookup_2. }
  apply NoDup_fmap_2; [intros x y; lia|done].
Qed.

Lemma isCompletedToday_iff tzo now ds :
  day_set tzo ds →
  isCompletedToday tzo now ds = true ↔ local_day tzo now ∈ days tzo ds.
Proof.
  intros [Hmid _]. unfold isCompletedToday, days.
  rewrite existsb_exists, list_elem_of_fmap. split.
  - intros (d & Hin & Heq). exists d. rewrite list_elem_of_In. split; [|done].
    rewrite Forall_forall in Hmid. rewrite <- list_elem_of_In in Hin.
    apply same_day_iff in Heq; [done|]. rewrite Hmid by done. by eexists.
  - intros (d & Hday & Hin). exists d. rewrite <- list_elem_of_In. split; [done|].
    rewrite Forall_forall in Hmid. apply same_day_iff; [rewrite Hmid by done; by eexists|done].
Qed.

(** ** Properties *)

(** C27. The monthly target is between 1 and 31, so the division in
    line 142 always has a positive divisor, and the percentage shown is
    between 0 and 100. *)
Theorem progress_bounds ctz now h :
  1 ≤ target ctz now (Habbit.frequency h) ≤ 31 ∧ 0 ≤ percentage ctz now h ≤ 100.
Proof.
  split; [apply target_bounds|]. unfold percentage, js_round_div.
  pose proof (target_bounds ctz now (Habbit.frequency h)).
  pose proof (completedThisMonth_nonneg ctz now (Habbit.completedDates h)).
  split; [|lia]. apply Z.min_glb; [lia|apply Z.div_pos; lia].
Qed.

(** For a daily habit whose completions are distinct days of the
    server's zone, none later than now, the completions counted this
    month never exceed the days elapsed in the month (in the browser's
    zone), so the percentage is the rounded ratio itself and the cap at
    100 never applies. *)
Theorem daily_progress_uncapped stz ctz now h :
  day_set stz (Habbit.completedDates h) → Habbit.completedDates h ≤* now →
  Habbit.frequency h ≠ Some Weekly →
  completedThisMonth ctz now (Habbit.completedDates h) ≤ get_date ctz now ∧
  percentage ctz now h =
    js_round_div (completedThisMonth ctz now (Habbit.completedDates h) * 100) (get_date ctz now).
Proof.
  intros Hds Hle Hf. pose proof (get_date_range ctz now) as [Hd1 _].
  assert (completedThisMonth ctz now (Habbit.completedDates h) ≤ get_date ctz now) as Hc.
  { unfold completedThisMonth. set (P := λ d, _ ∧ _).
    set (F := filter P (Habbit.completedDates h)).
    assert (NoDup (local_day ctz <$> F)) as Hnd.
    { eapply sublist_NoDup; [apply (day_set_client_days stz), Hds|].
      apply fmap_sublist, sublist_filter. }
    assert (Forall (λ z, local_day ctz now - get_date ctz now + 1 ≤ z ≤ local_day ctz now)
              (local_day ctz <$> F)) as Hwin.
    { apply Forall_fmap, Forall_forall. intros d Hd.
      apply list_elem_of_filter in Hd as [[Hm Hy] Hin].
      rewrite Forall_forall in Hle. apply month_window; auto. }
    pose proof (NoDup_interval_length _ _ _ Hnd Hwin) as Hlen.
    rewrite length_fmap in Hlen. lia. }
  split; [done|]. unfold percentage, target. rewrite bool_decide_false by done.
  apply Z.min_r. unfold js_round_div.
  assert ((2 * (completedThisMonth ctz now (Habbit.completedDates h) * 100) + get_date ctz now)
            / (2 * get_date ctz now) < 101) by (apply Z.div_lt_upper_bound; lia).
  lia.
Qed.

(** With the server and the browser in the same zone, a toggle of
    the current time flips what the tracker shows as done today. *)
Theorem toggle_flips_completed_today tzo now m ds ds' :
  day_set tzo ds → set_hours_start tzo (Some now) = Some m →
  toggle tzo (set_hours_start tzo (Some now)) ds = Ok ds' →
  isCompletedToday tzo now ds' = negb (isCompletedToday tzo now ds).
Proof.
  intros Hds Hm Ht.
  destruct (toggle_flips tzo now m Hm ds Hds) as (ds2 & Ht2 & Hflip & _).
  rewrite Ht in Ht2. injection Ht2 as <-.
  pose proof (toggle_day_set tzo now m Hm ds ds' Hds Ht) as Hds'.
  pose proof (isCompletedToday_iff tzo now ds Hds) as H1.
  pose proof (isCompletedToday_iff tzo now ds' Hds') as H2.
  destruct (isCompletedToday tzo now ds), (isCompletedToday tzo now ds'); naive_solver.
Qed.

(** C20. With the browser and the server in one zone and the stored
    completions a day set, a PUT's toggle at [now] removes an entry
    exactly when the tracker shows the habit as done today, and
    afterwards the tracker shows the opposite of what it showed. *)
Theorem done_today_iff_toggle_removes tzo now m ds :
  day_set tzo ds → set_hours_start tzo (Some now) = Some m →
  ∃ ds', toggle tzo (set_hours_start tzo (Some now)) ds = Ok ds' ∧
    (isCompletedToday tzo now ds = true ↔ (List.length ds' < List.length ds)%nat) ∧
    isCompletedToday tzo now ds' = negb (isCompletedToday tzo now ds).
Proof.
  intros Hds Hm. pose proof (isCompletedToday_iff tzo now ds Hds) as Hiff.
  destruct (toggle_cases tzo now m Hm ds Hds) as [[Hnot Ht]|(rest & Hp & Ht)];
    eexists; (split; [exact Ht|]); (split; [|by eapply toggle_flips_completed_today]).
  - rewrite Hiff, List.length_app. simpl. split; [done|lia].
  - rewrite Hiff, (Permutation_length Hp). simpl. split; [lia|intros _].
    unfold days. rewrite Hp, fmap_cons, (local_day_target tzo now m Hm). by left.
Qed.

(** C40. Server zone [stz], browser zone [ctz]: a toggle that books the
    server's day of [now] shows the habit as done in the browser exactly
    when it already was or the browser's day of [now] is the server's
    day shifted by [(ctz - stz) / msPerDay], the browser's day of the
    server's midnight.  In one zone it always shows; with the server on
    UTC and the browser ahead, a toggle made after the browser's
    midnight but before the server's books a day the browser has left. *)
Theorem toggle_tz_mismatch stz ctz now m ds :
  day_set stz ds → set_hours_start stz (Some now) = Some m → local_day stz now ∉ days stz ds →
  is_Some (set_hours_start ctz (Some m)) →
  ∃ ds', toggle stz (set_hours_start stz (Some now)) ds = Ok ds' ∧
    (isCompletedToday ctz now ds' = true ↔
     isCompletedToday ctz now ds = true ∨ local_day ctz now = local_day stz now + (ctz - stz) / msPerDay).
Proof.
  intros Hds Hm Hnot Hsome. destruct (toggle_absent stz now m Hm ds Hds Hnot) as [Ht _].
  exists (ds ++ [m]). split; [exact Ht|].
  assert (local_day ctz m = local_day stz now + (ctz - stz) / msPerDay) as Hshift.
  { rewrite (local_day_midnight_shift stz ctz m (midnight_target stz now m Hm)).
    by rewrite (local_day_target stz now m Hm). }
  unfold isCompletedToday. rewrite existsb_app, orb_true_iff. simpl. rewrite orb_false_r.
  rewrite (same_day_iff ctz m now Hsome), Hshift. naive_solver.
Qed.

(** ** Witnesses *)

(** 2024-03-01 15:30 UTC, one zone: a list holding March 1 loses it. *)
Lemma done_today_iff_toggle_removes_witness :
  ∃ ds', toggle 0 (set_hours_start 0 (Some mar1_1530)) [mar1] = Ok ds' ∧
    (isCompletedToday 0 mar1_1530 [mar1] = true ↔ (List.length ds' < List.length [mar1])%nat) ∧
    isCompletedToday 0 mar1_1530 ds' = negb (isCompletedToday 0 mar1_1530 [mar1]).
Proof. apply (done_today_iff_toggle_removes 0 mar1_1530 mar1); [split; compute_done|reflexivity]. Defined.

(** Server on UTC, browser on UTC+10, toggle at 2024-03-01T20:00Z
    (06:00 on March 2 in the browser): the day booked is March 1, and
    the browser's day is not the shifted one, so it is not shown done. *)
Lemma toggle_tz_mismatch_witness :
  (∃ ds', toggle 0 (set_hours_start 0 (Some 1709323200000)) [] = Ok ds' ∧
    (isCompletedToday 36000000 1709323200000 ds' = true ↔
     isCompletedToday 36000000 1709323200000 [] = true ∨
     local_day 36000000 1709323200000 = local_day 0 1709323200000 + (36000000 - 0) / msPerDay)) ∧
  isCompletedToday 36000000 1709323200000 [] = false ∧
  local_day 36000000 1709323200000 ≠ local_day 0 1709323200000 + (36000000 - 0) / msPerDay.
Proof.
  split; [|split; [reflexivity|vm_compute; discriminate]].
  apply (toggle_tz_mismatch 0 36000000 1709323200000 1709251200000 []);
    [split; constructor|reflexivity|intros Hin; inversion Hin|eexists; reflexivity].
Defined.

Lemma daily_progress_uncapped_witness :
  completedThisMonth 0 mar15_noon (Habbit.completedDates demo_daily) ≤ get_date 0 mar15_noon ∧
  percentage 0 mar15_noon demo_daily =
    js_round_div (completedThisMonth 0 mar15_noon (Habbit.completedDates demo_daily) * 100)
                 (get_date 0 mar15_noon).
Proof.
  apply (daily_progress_uncapped 0 0 mar15_noon demo_daily); [split; compute_done|compute_done|done].
Defined.

Lemma toggle_flips_completed_today_witness :
  isCompletedToday 0 mar15_noon [1709251200000; 1710460800000] =
    negb (isCompletedToday 0 mar15_noon [1709251200000]).
Proof.
  apply (toggle_flips_completed_today 0 mar15_noon 1710460800000 [1709251200000]);
    [split; compute_done|reflexivity|reflexivity].
Defined.
End HabbitTracker.
