(* ===== verification/Gratitudes.v ===== *)
(** * The gratitude list: [src/app/api/gratitude/route.ts]

    Four handlers over the [gratitudes] collection.  [GET] answers the
    user's items of today (between [setHours(0,0,0,0)] of one reading of
    the clock and [setHours(23,59,59,999)] of a second one, oldest first)
    or, with [?mode=history], the user's 50 newest items.  [POST] creates
    an unchecked item, [PUT] flips [isChecked] of an item found by id and
    [DELETE] removes an item by id.  [PUT] and [DELETE] look the item up
    by id alone, without comparing its owner with the session user. *)

From stdpp Require Import base list strings sorting.
From Stdlib Require Import ZArith Lia String.
From S2P Require Import Prelude Calendar Store Models World.

Open Scope Z_scope.

Module GratitudeRoute.

(** [const { id } = await req.json()] of [PUT]. *)
Record put_body := mk_put { put_id : idarg }.

Section handlers.
(** The server's offset from UTC. *)
Context (tzo : Z).

(** [createdAt: { $gte: startOfDay, $lte: endOfDay }] *)
Definition in_window (lo hi : Z) (g : Gratitude.t) : bool :=
  bool_decide (lo ≤ Gratitude.createdAt g ≤ hi).

(** [GET]: lines 8-41; [mode] is [searchParams.get('mode')]. *)
Definition GET (s : session) (mode : option string) : M (response (list (oid * Gratitude.t))) :=
  match session_user s with
  | None => unauthorized
  | Some uid =>
      if bool_decide (mode = Some "history"%string) then
        data ← gets (λ w, query (owned_by uid) Desc (Some 50%nat) (gratitudes w));
        mret (Json 200 data)
      else
        t1 ← new_date;
        t2 ← new_date;
        match set_hours_start tzo (Some t1), set_hours_end tzo (Some t2) with
        | Some startOfDay, Some endOfDay =>
            data ← gets (λ w, query (λ g, owned_by uid g && in_window startOfDay endOfDay g)
                                    Asc None (gratitudes w));
            mret (Json 200 data)
        | _, _ => throw (CastError "createdAt")
        end
  end.

(** [POST]: lines 44-62. *)
Definition POST (s : session) (body : option jval) : M (response (oid * Gratitude.t)) :=
  match session_user s with
  | None => unauthorized
  | Some uid =>
      content ← read_body body;
      c ← of_result (Gratitude.validate content);
      id ← fresh_oid;
      t ← new_date;
      let item := Gratitude.mk uid c false t t in
      _ ← modify (λ w, set_gratitudes w (insert_doc (gratitudes w) id item));
      mret (Json 200 (id, item))
  end.

(** [PUT]: lines 65-81. *)
Definition PUT (s : session) (body : option put_body) : M (response (oid * Gratitude.t)) :=
  match session_user s with
  | None => unauthorized
  | Some _ =>
      b ← read_body body;
      found ← (w ← gets id; find_by_idarg (gratitudes w) (put_id b));
      match found with
      | None => mret (Message 404 "Not found")
      | Some (id, item) =>
          item' ← save_gratitude id (Gratitude.set_isChecked item (negb (Gratitude.isChecked item)));
          mret (Json 200 (id, item'))
      end
  end%string.

(** [DELETE]: lines 84-97; [a] is [searchParams.get('id')].
    [findByIdAndDelete(null)] matches nothing. *)
Definition DELETE (s : session) (a : idarg) : M (response unit) :=
  match session_user s with
  | None => unauthorized
  | Some _ =>
      _ ← match a with
          | IdValid id => modify (λ w, set_gratitudes w (delete_by_id (gratitudes w) id))
          | IdMissing => mret tt
          | IdMalformed => throw (CastError "_id")
          end;
      mret (Message 200 "Deleted")
  end%string.
End handlers.
End GratitudeRoute.

Module GratitudeProps.
Import GratitudeRoute.

(** ** The store of the witnesses (UTC server)

    User 1 wrote item 10 at 23:00 the day before the first reading of
    [demo_clock] (2023-11-14T22:13:20Z) and item 11 at 01:00 the same
    day; user 2 wrote item 12 that day. *)

Definition demo_gratitudes : list (oid * Gratitude.t) :=
  [(10%N, Gratitude.mk 1 "Family" false 1699916400000 1699916400000);
   (11%N, Gratitude.mk 1 "Sunrise" true 1699923600000 1699923600000);
   (12%N, Gratitude.mk 2 "Coffee" false 1699930000000 1699930000000)]%string.
Definition demo_gratitude_world : World := set_gratitudes demo_world demo_gratitudes.

Section props.
Context (tzo : Z).

(** C9. On a signed-in user's request without [mode=history], when the
    two clock readings fall on the same local day, GET answers 200 with
    exactly the user's items created on that local day, oldest first,
    and writes nothing. *)
Theorem GET_today_entries s uid w mode lo hi :
  session_user s = Some uid → mode ≠ Some "history"%string →
  set_hours_start tzo (Some (clock_now w)) = Some lo →
  set_hours_end tzo (Some (clock_at w 1)) = Some hi →
  local_day tzo (clock_now w) = local_day tzo (clock_at w 1) →
  ∃ data, run (GET tzo s mode) w = (Json 200 data, advance w 2) ∧
    Sorted (sort_rel Asc) data ∧
    ∀ r, r ∈ data ↔ r ∈ gratitudes w ∧ Gratitude.userId r.2 = uid ∧
      local_day tzo (Gratitude.createdAt r.2) = local_day tzo (clock_now w).
Proof.
  intros Hs Hm Hlo Hhi Hday. unfold GET. rewrite Hs, bool_decide_false by done.
  unfold clock_now, clock_at in *. change (1 + ticks w)%nat with (S (ticks w)) in Hhi.
  mrun. rewrite Hlo, Hhi.
  eexists. split; [reflexivity|]. split; [apply query_sorted|].
  intros r. rewrite query_none_elem. unfold owned_by, in_window.
  rewrite andb_true_iff, !bool_decide_eq_true, (day_window_iff tzo _ _ lo hi) by done.
  simpl. naive_solver.
Qed.

(** PUT on an item found by id. *)
Lemma PUT_run_item s uid w id g :
  session_user s = Some uid → find_by_id (gratitudes w) id = Some g →
  let g' := Gratitude.touch (Gratitude.set_isChecked g (negb (Gratitude.isChecked g))) (clock_now w) in
  run (PUT s (Some (mk_put (IdValid id)))) w =
    (Json 200 (id, g'), set_gratitudes (tick w) (replace_by_id (gratitudes w) id g')).
Proof. intros Hs Hg. unfold PUT. rewrite Hs. mrun. by rewrite Hg. Qed.

(** Every row GET answers is a document of the collection. *)
Lemma GET_rows s mode w st data w' :
  run (GET tzo s mode) w = (Json st data, w') → ∀ r, r ∈ data → r ∈ gratitudes w.
Proof.
  unfold GET. destruct (session_user s) as [uid|]; mrun; [|done].
  case_bool_decide; mrun.
  - intros [= _ <- _] r Hr. by apply query_elem in Hr as [? _].
  - destruct (set_hours_start tzo (Some (clock w (ticks w)))),
      (set_hours_end tzo (Some (clock w (S (ticks w))))); cbn; try done.
    intros [= _ <- _] r Hr. by apply query_elem in Hr as [? _].
Qed.

(** With [mode=history], GET answers the user's 50 newest items,
    newest first, and writes nothing: it returns all of the user's items
    up to 50, and every item of the user it leaves out is not newer than
    any item it returns. *)
Theorem GET_history_newest s uid w :
  session_user s = Some uid →
  ∃ data, run (GET tzo s (Some "history"%string)) w = (Json 200 data, w) ∧
    Sorted (sort_rel Desc) data ∧
    List.length data = Nat.min 50 (List.length (filter (λ r, owned_by uid r.2 = true) (gratitudes w))) ∧
    (∀ r, r ∈ data → r ∈ gratitudes w ∧ Gratitude.userId r.2 = uid) ∧
    ∀ r r', r ∈ gratitudes w → Gratitude.userId r.2 = uid → r ∉ data → r' ∈ data →
      Gratitude.createdAt r.2 ≤ Gratitude.createdAt r'.2.
Proof.
  intros Hs. eexists. split.
  { unfold GET. rewrite Hs, bool_decide_true by done. mrun. reflexivity. }
  exact (query_owned_newest uid 50 (gratitudes w)).
Qed.

(** PUT of an existing item flips its [isChecked], sets [updatedAt]
    from the clock, keeps its owner, content and [createdAt], writes it
    in place and answers it. *)
Theorem PUT_flips_checked s uid w id g :
  session_user s = Some uid → find_by_id (gratitudes w) id = Some g →
  ∃ g', run (PUT s (Some (mk_put (IdValid id)))) w =
          (Json 200 (id, g'), set_gratitudes (tick w) (replace_by_id (gratitudes w) id g')) ∧
        Gratitude.isChecked g' = negb (Gratitude.isChecked g) ∧
        Gratitude.userId g' = Gratitude.userId g ∧ Gratitude.content g' = Gratitude.content g ∧
        Gratitude.createdAt g' = Gratitude.createdAt g ∧ Gratitude.updatedAt g' = clock_now w.
Proof.
  intros Hs Hg. eexists. split; [by apply (PUT_run_item s uid)|done].
Qed.

(** Two PUTs of the same item restore its [isChecked]. *)
Theorem PUT_twice_restores s uid w id g :
  session_user s = Some uid → find_by_id (gratitudes w) id = Some g →
  ∃ g'', find_by_id (gratitudes (run (PUT s (Some (mk_put (IdValid id))))
                                  (run (PUT s (Some (mk_put (IdValid id)))) w).2).2) id = Some g'' ∧
         Gratitude.isChecked g'' = Gratitude.isChecked g.
Proof.
  intros Hs Hg. destruct (PUT_flips_checked s uid w id g Hs Hg) as (g' & Hrun & Hc & _).
  rewrite Hrun. simpl.
  pose proof (find_by_id_replace_eq (gratitudes w) id g' g Hg) as Hg'.
  destruct (PUT_flips_checked s uid (set_gratitudes (tick w) (replace_by_id (gratitudes w) id g'))
              id g' Hs Hg') as (g'' & Hrun' & Hc' & _).
  rewrite Hrun'. exists g''. split; [by eapply find_by_id_replace_eq|].
  rewrite Hc', Hc. by destruct (Gratitude.isChecked g).
Qed.

(** C10. DELETE with an id answers 200 "Deleted" whether or not the item
    exists; the item is gone, the other items stay, and no later GET, in
    either mode and for any user, answers it. *)
Theorem DELETE_removes s uid w id :
  session_user s = Some uid →
  let w' := set_gratitudes w (delete_by_id (gratitudes w) id) in
  run (DELETE s (IdValid id)) w = (Message 200 "Deleted"%string, w') ∧
  find_by_id (gratitudes w') id = None ∧
  (∀ id', id' ≠ id → find_by_id (gratitudes w') id' = find_by_id (gratitudes w) id') ∧
  ∀ s' mode st data w'', run (GET tzo s' mode) w' = (Json st data, w'') → id ∉ fst <$> data.
Proof.
  intros Hs w'. split_and!.
  - unfold DELETE. rewrite Hs. by mrun.
  - simpl. rewrite find_by_id_delete. by rewrite decide_True.
  - intros id' Hne. simpl. rewrite find_by_id_delete. by rewrite decide_False.
  - intros s' mode st data w'' Hget Hin.
    apply list_elem_of_fmap in Hin as (r & Hid & Hr).
    apply (GET_rows s' mode w' st data w'' Hget), delete_by_id_elem in Hr as [_ Hne].
    by apply Hne.
Qed.

(** C36. PUT and DELETE never compare the item's owner with the session
    user: any two signed-in users get the same answer and the same
    write for the same request. *)
Theorem gratitude_ignores_owner s1 s2 u1 u2 b a w :
  session_user s1 = Some u1 → session_user s2 = Some u2 →
  run (PUT s1 b) w = run (PUT s2 b) w ∧ run (DELETE s1 a) w = run (DELETE s2 a) w.
Proof. intros H1 H2. unfold PUT, DELETE. by rewrite H1, H2. Qed.
End props.

(** ** Witnesses *)
Lemma GET_today_entries_witness :
  ∃ data, run (GET 0 (Some (Some 1%N)) None) demo_gratitude_world =
            (Json 200 data, advance demo_gratitude_world 2) ∧
    Sorted (sort_rel Asc) data ∧
    ∀ r, r ∈ data ↔ r ∈ gratitudes demo_gratitude_world ∧ Gratitude.userId r.2 = 1%N ∧
      local_day 0 (Gratitude.createdAt r.2) = local_day 0 (clock_now demo_gratitude_world).
Proof.
  apply (GET_today_entries 0 (Some (Some 1%N)) 1%N demo_gratitude_world None
           1699920000000 1700006399999); [done|done|reflexivity|reflexivity|reflexivity].
Defined.

Lemma GET_history_newest_witness :
  ∃ data, run (GET 0 (Some (Some 1%N)) (Some "history"%string)) demo_gratitude_world =
            (Json 200 data, demo_gratitude_world) ∧
    Sorted (sort_rel Desc) data ∧
    List.length data = Nat.min 50 (List.length (filter (λ r, owned_by 1%N r.2 = true)
                                                  (gratitudes demo_gratitude_world))) ∧
    (∀ r, r ∈ data → r ∈ gratitudes demo_gratitude_world ∧ Gratitude.userId r.2 = 1%N) ∧
    ∀ r r', r ∈ gratitudes demo_gratitude_world → Gratitude.userId r.2 = 1%N → r ∉ data →
      r' ∈ data → Gratitude.createdAt r.2 ≤ Gratitude.createdAt r'.2.
Proof. apply (GET_history_newest 0 (Some (Some 1%N)) 1%N demo_gratitude_world). reflexivity. Defined.

Lemma PUT_flips_checked_witness :
  ∃ g', run (PUT (Some (Some 2%N)) (Some (mk_put (IdValid 11)))) demo_gratitude_world =
          (Json 200 (11%N, g'), set_gratitudes (tick demo_gratitude_world)
                                  (replace_by_id demo_gratitudes 11%N g')) ∧
        Gratitude.isChecked g' = false ∧ Gratitude.userId g' = 1%N ∧
        Gratitude.content g' = "Sunrise"%string ∧ Gratitude.createdAt g' = 1699923600000 ∧
        Gratitude.updatedAt g' = clock_now demo_gratitude_world.
Proof.
  apply (PUT_flips_checked (Some (Some 2%N)) 2%N demo_gratitude_world 11%N
           (Gratitude.mk 1 "Sunrise" true 1699923600000 1699923600000)); reflexivity.
Defined.

Lemma PUT_twice_restores_witness :
  ∃ g'', find_by_id (gratitudes (run (PUT (Some (Some 1%N)) (Some (mk_put (IdValid 10))))
           (run (PUT (Some (Some 1%N)) (Some (mk_put (IdValid 10)))) demo_gratitude_world).2).2)
           10%N = Some g'' ∧ Gratitude.isChecked g'' = false.
Proof.
  apply (PUT_twice_restores (Some (Some 1%N)) 1%N demo_gratitude_world 10%N
           (Gratitude.mk 1 "Family" false 1699916400000 1699916400000)); reflexivity.
Defined.

Lemma DELETE_removes_witness :
  run (DELETE (Some (Some 2%N)) (IdValid 99)) demo_gratitude_world =
    (Message 200 "Deleted"%string,
     set_gratitudes demo_gratitude_world (delete_by_id demo_gratitudes 99%N)).
Proof. apply (DELETE_removes 0 (Some (Some 2%N)) 2%N demo_gratitude_world 99%N). reflexivity. Defined.

Lemma gratitude_ignores_owner_witness :
  run (DELETE (Some (Some 2%N)) (IdValid 10)) demo_gratitude_world =
  run (DELETE (Some (Some 1%N)) (IdValid 10)) demo_gratitude_world.
Proof.
  apply (gratitude_ignores_owner (Some (Some 2%N)) (Some (Some 1%N)) 2%N 1%N
           (Some (mk_put (IdValid 10))) (IdValid 10) demo_gratitude_world); reflexivity.
Defined.
End GratitudeProps.
