(* ===== verification/Journals.v ===== *)
(** * The journal: [src/app/api/journal/route.ts]

    [GET] lists the user's entries, newest first.  [POST] runs in a
    [try]/[catch]: a falsy [content] is answered 400, an accepted one is
    stored and answered 201, and any exception (a body that is not JSON,
    a content Mongoose cannot cast) is caught and answered 500 with a
    generic message, so no exception escapes the handler. *)

From stdpp Require Import base list strings sorting sets.
From Stdlib Require Import ZArith Lia String.
From S2P Require Import Prelude Calendar Store Models World.

Open Scope Z_scope.

Module JournalRoute.

(** [GET]: lines 7-18. *)
Definition GET (s : session) : M (response (list (oid * Journal.t))) :=
  match session_user s with
  | None => unauthorized
  | Some uid =>
      journals ← gets (λ w, query (owned_by uid) Desc None (journals w));
      mret (Json 200 journals)
  end.

(** [POST]: lines 20-44. *)
Definition POST (s : session) (body : option jval) : M (response (oid * Journal.t)) :=
  match session_user s with
  | None => unauthorized
  | Some uid =>
      catch
        (content ← read_body body;
         if negb (truthy content) then mret (Message 400 "Content is required")
         else
           c ← of_result (Journal.validate content);
           id ← fresh_oid;
           t ← new_date;
           let journal := Journal.mk uid c t t in
           _ ← modify (λ w, set_journals w (insert_doc (journals w) id journal));
           mret (Json 201 (id, journal)))
        (λ _, mret (Message 500 "Server Error"))
  end%string.
End JournalRoute.

Module JournalProps.
Import JournalRoute.

(** A non-empty string content is stored and answered 201. *)
Lemma POST_run_content s uid w c :
  session_user s = Some uid → c ≠ ""%string →
  ∃ w', run (POST s (Some (JStr c))) w =
          (Json 201 (next_oid w, Journal.mk uid c (clock_now w) (clock_now w)), w') ∧
        journals w' = insert_doc (journals w) (next_oid w) (Journal.mk uid c (clock_now w) (clock_now w)).
Proof.
  intros Hs Hc. unfold POST. rewrite Hs. mrun. unfold Journal.validate, required_string. simpl.
  apply String.eqb_neq in Hc as Hc'. rewrite Hc'. simpl. rewrite bool_decide_false by done.
  by eexists.
Qed.

(** No exception escapes the journal's POST: the handler itself
    answers every request, with status 201, 400, 401 or 500. *)
Theorem POST_never_throws s body w :
  ∃ r w', POST s body w = (Ret r, w') ∧ status r ∈ [201; 400; 401; 500].
Proof.
  unfold POST. destruct (session_user s) as [uid|]; [|eexists _, _; split; [done|set_solver]].
  unfold catch. destruct body as [v|]; mrun; [|eexists _, _; split; [done|set_solver]].
  destruct (truthy v); mrun; [|eexists _, _; split; [done|set_solver]].
  destruct (Journal.validate v); mrun; eexists _, _; (split; [done|set_solver]).
Qed.

(** C28. The journal's POST for a signed-in user: a body that is not JSON
    and a content Mongoose cannot cast are answered 500 without a write,
    a falsy content 400 without a write, and a non-empty string is
    stored under a fresh id with both timestamps from one clock reading
    and answered 201. *)
Theorem POST_outcomes s uid w :
  session_user s = Some uid →
  run (POST s None) w = (Message 500 "Server Error", w) ∧
  run (POST s (Some JObj)) w = (Message 500 "Server Error", w) ∧
  (∀ v, truthy v = false → run (POST s (Some v)) w = (Message 400 "Content is required", w)) ∧
  (∀ c, c ≠ "" → let j := Journal.mk uid c (clock_now w) (clock_now w) in
     (run (POST s (Some (JStr c))) w).1 = Json 201 (next_oid w, j) ∧
     journals (run (POST s (Some (JStr c))) w).2 = insert_doc (journals w) (next_oid w) j)%string.
Proof.
  intros Hs. unfold POST. rewrite Hs. split_and!; [by mrun|by mrun| |].
  - intros v Hv. mrun. by rewrite Hv.
  - intros c Hc. mrun. unfold Journal.validate, required_string. simpl.
    apply String.eqb_neq in Hc as Hc'. rewrite Hc'. simpl.
    rewrite bool_decide_false by done. done.
Qed.

(** GET answers all of the user's entries and only them, newest
    first, and writes nothing. *)
Theorem GET_lists_own s uid w :
  session_user s = Some uid →
  ∃ data, run (GET s) w = (Json 200 data, w) ∧ Sorted (sort_rel Desc) data ∧
    data ≡ₚ filter (λ r, Journal.userId r.2 = uid) (journals w).
Proof.
  intros Hs. eexists. split.
  { unfold GET. rewrite Hs. mrun. reflexivity. }
  split; [apply query_sorted|]. rewrite query_all.
  apply Permutation_refl'. apply list_filter_iff. intros r. unfold owned_by.
  by rewrite bool_decide_eq_true.
Qed.

(** ** Witnesses: user 1 writes to the empty store of [demo_world] *)

Lemma POST_outcomes_witness :
  run (POST (Some (Some 1%N)) (Some (JStr ""))) demo_world =
    (Message 400 "Content is required", demo_world)%string ∧
  (run (POST (Some (Some 1%N)) (Some (JStr "Slept well"))) demo_world).1 =
    Json 201 (next_oid demo_world,
              Journal.mk 1 "Slept well" (clock_now demo_world) (clock_now demo_world))%string.
Proof.
  destruct (POST_outcomes (Some (Some 1%N)) 1%N demo_world eq_refl) as (_ & _ & H400 & H201).
  split; [by apply H400|]. by apply H201.
Defined.

Lemma GET_lists_own_witness :
  ∃ data, run (GET (Some (Some 1%N))) demo_world = (Json 200 data, demo_world) ∧
    Sorted (sort_rel Desc) data ∧
    data ≡ₚ filter (λ r, Journal.userId r.2 = 1%N) (journals demo_world).
Proof. apply (GET_lists_own (Some (Some 1%N)) 1%N demo_world). reflexivity. Defined.
End JournalProps.
