(* ===== verification/Meditations.v ===== *)
(** * Meditation sessions: [src/app/api/meditation/route.ts]

    [GET] answers the user's ten newest sessions, newest first; [POST]
    stores a session with the posted duration.  The schema only requires
    the duration to be present and castable to a Number: nothing checks
    that it is positive. *)

From stdpp Require Import base list strings sorting.
From Stdlib Require Import ZArith Lia String.
From S2P Require Import Prelude Calendar Store Models World.

Open Scope Z_scope.

Module MeditationRoute.

(** [GET]: lines 8-19. *)
Definition GET (s : session) : M (response (list (oid * Meditation.t))) :=
  match session_user s with
  | None => unauthorized
  | Some uid =>
      sessions ← gets (λ w, query (owned_by uid) Desc (Some 10%nat) (meditations w));
      mret (Json 200 sessions)
  end.

(** [POST]: lines 22-39. *)
Definition POST (s : session) (body : option jval) : M (response (oid * Meditation.t)) :=
  match session_user s with
  | None => unauthorized
  | Some uid =>
      duration ← read_body body;
      d ← of_result (Meditation.validate duration);
      id ← fresh_oid;
      t ← new_date;
      let meditation := Meditation.mk uid d t t in
      _ ← modify (λ w, set_meditations w (insert_doc (meditations w) id meditation));
      mret (Json 200 (id, meditation))
  end.
End MeditationRoute.

Module MeditationProps.
Import MeditationRoute.

(** GET answers the user's ten newest sessions, newest first, and
    writes nothing: all of the user's sessions up to ten, and every
    session of the user left out is not newer than any returned. *)
Theorem GET_last_ten s uid w :
  session_user s = Some uid →
  ∃ data, run (GET s) w = (Json 200 data, w) ∧
    Sorted (sort_rel Desc) data ∧
    List.length data = Nat.min 10 (List.length (filter (λ r, owned_by uid r.2 = true) (meditations w))) ∧
    (∀ r, r ∈ data → r ∈ meditations w ∧ Meditation.userId r.2 = uid) ∧
    ∀ r r', r ∈ meditations w → Meditation.userId r.2 = uid → r ∉ data → r' ∈ data →
      Meditation.createdAt r.2 ≤ Meditation.createdAt r'.2.
Proof.
  intros Hs. eexists. split.
  { unfold GET. rewrite Hs. mrun. reflexivity. }
  exact (query_owned_newest uid 10 (meditations w)).
Qed.

(** C37. POST stores any integer duration, zero and negative ones
    included, under a fresh id with both timestamps from one clock
    reading, and answers it; a missing or [null] duration is a
    validation error that escapes the handler (500) and writes nothing. *)
Theorem POST_accepts_any_duration s uid w :
  session_user s = Some uid →
  (∀ z, let m := Meditation.mk uid z (clock_now w) (clock_now w) in
     (run (POST s (Some (JNum z))) w).1 = Json 200 (next_oid w, m) ∧
     meditations (run (POST s (Some (JNum z))) w).2 = insert_doc (meditations w) (next_oid w) m) ∧
  run (POST s (Some JUndefined)) w = (Crash (ValidationError "duration"), w) ∧
  run (POST s (Some JNull)) w = (Crash (ValidationError "duration"), w).
Proof. intros Hs. unfold POST. rewrite Hs. split_and!; [intros z; by mrun|by mrun|by mrun]. Qed.

(** ** Witnesses *)

Lemma GET_last_ten_witness :
  ∃ data, run (GET (Some (Some 1%N))) demo_world = (Json 200 data, demo_world) ∧
    Sorted (sort_rel Desc) data ∧
    List.length data = Nat.min 10 (List.length (filter (λ r, owned_by 1%N r.2 = true)
                                                  (meditations demo_world))) ∧
    (∀ r, r ∈ data → r ∈ meditations demo_world ∧ Meditation.userId r.2 = 1%N) ∧
    ∀ r r', r ∈ meditations demo_world → Meditation.userId r.2 = 1%N → r ∉ data →
      r' ∈ data → Meditation.createdAt r.2 ≤ Meditation.createdAt r'.2.
Proof. apply (GET_last_ten (Some (Some 1%N)) 1%N demo_world). reflexivity. Defined.

Lemma POST_accepts_any_duration_witness :
  (run (POST (Some (Some 1%N)) (Some (JNum (-60)))) demo_world).1 =
    Json 200 (next_oid demo_world, Meditation.mk 1 (-60) (clock_now demo_world) (clock_now demo_world)).
Proof.
  destruct (POST_accepts_any_duration (Some (Some 1%N)) 1%N demo_world eq_refl) as (H & _).
  apply (H (-60)).
Defined.
End MeditationProps.
