(* ===== verification/Text.v ===== *)
(** * JavaScript text of numbers: [Number.prototype.toString] of an
    integer value and [String.prototype.padStart], as the views use them
    in template literals ([src/components/meditation-timer.tsx] line 79,
    [src/components/habbit-tracker.tsx] line 170). *)

From stdpp Require Import base list strings.
From Stdlib Require Import ZArith Lia Ascii String DecimalString DecimalNat.
From S2P Require Import Prelude.

Open Scope Z_scope.

(** The decimal digits of a natural number. *)
Definition digits (n : nat) : string := NilEmpty.string_of_uint (Nat.to_uint n).

(** [z.toString()] of an integer-valued number. *)
Definition js_int_string (z : Z) : string :=
  if z <? 0 then String "-" (digits (Z.to_nat (- z))) else digits (Z.to_nat z).

Fixpoint repeat_char (k : nat) (c : ascii) : string :=
  match k with
  | O => EmptyString
  | S k => String c (repeat_char k c)
  end.

(** [str.padStart(n, c)] with a one-character pad string. *)
Definition pad_start (n : nat) (c : ascii) (s : string) : string :=
  if (String.length s <? n)%nat then String.append (repeat_char (n - String.length s) c) s else s.

(** ** Lemmas *)

Lemma js_int_string_nonneg z : 0 ≤ z → js_int_string z = digits (Z.to_nat z).
Proof. intros Hz. unfold js_int_string. by rewrite (proj2 (Z.ltb_ge _ _)) by lia. Qed.

Lemma digits_read n : Nat.of_uint <$> NilEmpty.uint_of_string (digits n) = Some n.
Proof. unfold digits. rewrite NilEmpty.usu. cbn [fmap option_fmap option_map]. by rewrite Unsigned.of_to. Qed.

