(* ===== verification/Timer.v ===== *)
(** * The meditation timer: [src/components/meditation-timer.tsx]

    The component's React state ([duration], [timeLeft], [isActive],
    [isFinished]), whether [intervalRef] holds a live interval, and the
    durations it has posted to [/api/meditation], as a record.  Each
    handler of the component is a function on it; [tick] is one firing
    of the interval callback (lines 30-38); [unmount] is the cleanup of
    lines 19-25, after which a session in progress is never posted.  The buttons the component
    renders decide which handlers the user can run ([enabled]), and
    [reach] is the set of states reachable from the first render.

    The interval callback reads [duration] from the render that started
    it; [setPreset] clears the interval before it changes [duration], so
    a live interval always sees the current [duration], which is what
    [finishSession] reads here.  The POST of [finishSession] is recorded
    when it is sent; its answer does not change the component. *)

From stdpp Require Import base list sets.
From Stdlib Require Import ZArith Lia Wf_nat.
From S2P Require Import Prelude Store Models.

Open Scope Z_scope.

Module MeditationTimer.

Record state := mk {
  duration : Z;
  timeLeft : Z;
  isActive : bool;
  isFinished : bool;
  interval : bool;     (** [intervalRef.current] holds a live interval *)
  posted : list Z      (** the [duration]s of the POSTs sent, in order *)
}.

(** Lines 8-11. *)
Definition init : state := mk 300 300 false false false [].

(** Lines 14-18. *)
Definition presets : list Z := [300; 600; 900].

(** Lines 41-44. *)
Definition pauseTimer (s : state) : state :=
  mk (duration s) (timeLeft s) false (isFinished s) false (posted s).

(** Lines 26-39. *)
Definition startTimer (s : state) : state :=
  if isActive s then s
  else mk (duration s) (timeLeft s) true false true (posted s).

(** Lines 46-50. *)
Definition resetTimer (s : state) : state :=
  let s1 := pauseTimer s in
  mk (duration s1) (duration s1) (isActive s1) false (interval s1) (posted s1).

(** Lines 52-67: pause, mark finished and POST [{ duration }]. *)
Definition finishSession (s : state) : state :=
  let s1 := pauseTimer s in
  mk (duration s1) (timeLeft s1) (isActive s1) true (interval s1) (posted s1 ++ [duration s1]).

(** Lines 69-74. *)
Definition setPreset (sec : Z) (s : state) : state :=
  let s1 := pauseTimer s in
  mk sec sec (isActive s1) false (interval s1) (posted s1).

Definition set_timeLeft (s : state) (t : Z) : state :=
  mk (duration s) t (isActive s) (isFinished s) (interval s) (posted s).

(** One firing of the interval, lines 31-37: [finishSession()] runs
    inside the updater, which then returns [0]. *)
Definition tick (s : state) : state :=
  if interval s then
    if timeLeft s <=? 1 then set_timeLeft (finishSession s) 0
    else set_timeLeft s (timeLeft s - 1)
  else s.

(** The cleanup of the effect of lines 19-25: when the component
    unmounts, a live interval is cleared. *)
Definition unmount (s : state) : state :=
  mk (duration s) (timeLeft s) (isActive s) (isFinished s) false (posted s).

Inductive event := Start | Pause | Reset | Preset (sec : Z) | Tick.

Definition step (e : event) (s : state) : state :=
  match e with
  | Start => startTimer s
  | Pause => pauseTimer s
  | Reset => resetTimer s
  | Preset sec => setPreset sec s
  | Tick => tick s
  end.

(** The controls rendered (lines 122-150): play when inactive, pause
    when active, reset when [timeLeft !== duration || isFinished], the
    three presets always; the interval fires at any time. *)
Definition enabled (e : event) (s : state) : bool :=
  match e with
  | Start => negb (isActive s)
  | Pause => isActive s
  | Reset => negb (timeLeft s =? duration s) || isFinished s
  | Preset sec => bool_decide (sec ∈ presets)
  | Tick => true
  end.

Inductive reach : state → Prop :=
| reach_init : reach init
| reach_step e s : reach s → enabled e s = true → reach (step e s).

(** The timer's invariant. *)
Definition timer_inv (s : state) : Prop :=
  duration s ∈ presets ∧ 0 ≤ timeLeft s ≤ duration s ∧ isActive s = interval s ∧
  (isFinished s = true → isActive s = false ∧ timeLeft s = 0) ∧
  Forall (λ d, d ∈ presets) (posted s).

(** One firing of a live interval: [s'] follows [s]. *)
Definition fires (s' s : state) : Prop := interval s = true ∧ s' = tick s.

(** What is left of a live interval: its remaining seconds, plus the
    last firing that clears it. *)
Definition fires_left (s : state) : nat :=
  if interval s then S (Z.to_nat (timeLeft s)) else 0.

(** ** A five-minute session run to the end, for the witnesses *)

Definition session_done : state := Nat.iter 300 tick (startTimer init).

(** ** Lemmas *)

(** Once the component unmounts no firing is left: the session in
    progress is never posted. *)
Lemma unmount_silent s n : Nat.iter n tick (unmount s) = unmount s.
Proof. induction n as [|n IH]; [done|]. simpl. rewrite IH. reflexivity. Qed.

Lemma presets_pos d : d ∈ presets → 300 ≤ d ≤ 900.
Proof. unfold presets. intros Hd. repeat (apply elem_of_cons in Hd as [->|Hd]; [lia|]). set_solver. Qed.

Lemma step_inv e s : timer_inv s → enabled e s = true → timer_inv (step e s).
Proof.
  intros (Hd & Ht & Ha & Hf & Hp) He. pose proof (presets_pos _ Hd).
  destruct e; unfold step, enabled, timer_inv, startTimer, resetTimer, setPreset, tick,
    set_timeLeft, finishSession, pauseTimer in *; simpl in *; repeat case_match; simpl in *;
    simplify_eq; try (case_bool_decide as Hs; [|done]; pose proof (presets_pos _ Hs));
    split_and!; try done; try lia; try congruence; try (intros; naive_solver lia).
  apply Forall_app. split; [done|]. by constructor.
Qed.

Lemma reach_inv s : reach s → timer_inv s.
Proof.
  induction 1 as [|e s _ IH He].
  - unfold timer_inv, presets; simpl. split_and!; try done; try lia; set_solver.
  - by apply step_inv.
Qed.

Lemma reach_ticks n s : reach s → reach (Nat.iter n tick s).
Proof. intros Hs. induction n as [|n IH]; [done|]. by apply (reach_step Tick). Qed.

(** Ticks before the last one count down without posting. *)
Lemma ticks_count_down s (n : nat) :
  interval s = true → Z.of_nat n < timeLeft s →
  Nat.iter n tick s = set_timeLeft s (timeLeft s - Z.of_nat n).
Proof.
  intros Hi. induction n as [|n IH]; intros Hn.
  - destruct s; unfold set_timeLeft; simpl. f_equal. lia.
  - simpl. rewrite IH by lia. unfold tick, set_timeLeft at 1. simpl. rewrite Hi.
    destruct (Z.leb_spec (timeLeft s - Z.of_nat n) 1); [lia|]. unfold set_timeLeft. simpl. f_equal. lia.
Qed.

(** The last firing finishes the session. *)
Lemma tick_last s :
  interval s = true → timeLeft s ≤ 1 → tick s = set_timeLeft (finishSession s) 0.
Proof. intros Hi Ht. unfold tick. rewrite Hi. by rewrite (proj2 (Z.leb_le _ _)). Qed.

(** ** Properties *)

(** Every session the timer posts is one of the presets: a positive
    duration the meditation schema accepts as it is. *)
Theorem posted_sessions_valid s :
  reach s → Forall (λ d, 0 < d ∧ Meditation.validate (JNum d) = Ok d) (posted s).
Proof.
  intros Hr. destruct (reach_inv s Hr) as (_ & _ & _ & _ & Hp).
  apply (Forall_impl _ _ _ Hp). intros d Hd. pose proof (presets_pos d Hd). split; [lia|done].
Qed.

(** C31. A running timer finishes: after [max 1 timeLeft] firings of the
    interval it is stopped, finished, at 0, and has posted exactly one
    session of [duration]; no firing before the last posts anything. *)
Theorem timer_completes s :
  reach s → isActive s = true →
  let n := Z.to_nat (Z.max 1 (timeLeft s)) in
  (∀ k, (k < n)%nat → posted (Nat.iter k tick s) = posted s) ∧
  let s' := Nat.iter n tick s in
  isFinished s' = true ∧ timeLeft s' = 0 ∧ isActive s' = false ∧
  posted s' = posted s ++ [duration s].
Proof.
  intros Hr Ha. destruct (reach_inv s Hr) as (_ & Ht & Hai & _ & _).
  assert (interval s = true) as Hi by congruence.
  destruct (Z.le_gt_cases 1 (timeLeft s)) as [H1|H0].
  - rewrite Z.max_r by lia. split.
    + intros k Hk. by rewrite (ticks_count_down s k Hi) by lia.
    + replace (Z.to_nat (timeLeft s)) with (S (Z.to_nat (timeLeft s - 1))) by lia.
      simpl. rewrite (ticks_count_down s _ Hi) by lia. by rewrite tick_last by (done || simpl; lia).
  - rewrite Z.max_l by lia. split.
    + intros k Hk. by replace k with 0%nat by lia.
    + simpl. by rewrite tick_last by (done || lia).
Qed.

(** C19. The interval stops: from every state, a live interval can fire
    only finitely often before [finishSession] clears it; there is no
    infinite sequence of firings ([fires] is well founded), whatever
    [timeLeft] holds. *)
Theorem interval_terminates : well_founded fires.
Proof.
  apply (well_founded_lt_compat _ fires_left).
  intros s' s [Hi ->]. unfold fires_left, tick. rewrite Hi.
  destruct (Z.leb_spec (timeLeft s) 1); simpl; [lia|]. rewrite Hi. lia.
Qed.

(** C38. After a session has finished the play button is shown again,
    and pressing it posts a second session of the full [duration] one
    second later, although [timeLeft] is already 0. *)
Theorem restart_after_finish_posts_again s :
  reach s → isFinished s = true →
  enabled Start s = true ∧ posted (tick (startTimer s)) = posted s ++ [duration s].
Proof.
  intros Hr Hf. destruct (reach_inv s Hr) as (_ & _ & _ & Hfin & _).
  destruct (Hfin Hf) as [Ha Ht]. unfold enabled, startTimer, tick. rewrite Ha. simpl.
  rewrite Ht. done.
Qed.

(** ** Witnesses *)

Lemma reach_session_done : reach session_done.
Proof. apply reach_ticks, (reach_step Start init reach_init). reflexivity. Qed.

Lemma posted_sessions_valid_witness :
  Forall (λ d, 0 < d ∧ Meditation.validate (JNum d) = Ok d) (posted session_done).
Proof. apply posted_sessions_valid, reach_session_done. Defined.

Lemma timer_completes_witness :
  let s := startTimer init in
  let n := Z.to_nat (Z.max 1 (timeLeft s)) in
  (∀ k, (k < n)%nat → posted (Nat.iter k tick s) = posted s) ∧
  let s' := Nat.iter n tick s in
  isFinished s' = true ∧ timeLeft s' = 0 ∧ isActive s' = false ∧
  posted s' = posted s ++ [duration s].
Proof. apply timer_completes; [apply (reach_step Start init reach_init)|]; reflexivity. Defined.

Lemma restart_after_finish_posts_again_witness :
  enabled Start session_done = true ∧
  posted (tick (startTimer session_done)) = posted session_done ++ [300].
Proof.
  apply (restart_after_finish_posts_again session_done reach_session_done). vm_compute. reflexivity.
Defined.
End MeditationTimer.
