(* ===== verification/TimerView.v ===== *)
(** * What the meditation timer shows: [src/components/meditation-timer.tsx], lines 76-155

    The render of [MeditationTimer] as a record of what it displays: the
    glow and the ring's colour (active or not), the SVG ring's
    [strokeDashoffset] (line 104, a JavaScript division, here a rational),
    the time text [formatTime(timeLeft)] (lines 76-80, with
    [Number.prototype.toString] and [padStart]), the status word, the
    play or pause button, whether the reset button is there, and which
    preset is highlighted.

    The theorems: [formatTime] of a non-negative number of seconds is
    minutes, a colon and exactly two digits of seconds, from which the
    number of seconds is read back; and in every state the timer can
    reach, the ring is between empty and full, exactly one preset is
    highlighted, and "Completed" is shown only with the time "0:00". *)

From stdpp Require Import base list sets strings.
From Stdlib Require Import ZArith QArith Lqa Lia Ascii String DecimalString DecimalNat.
From S2P Require Import Prelude Text Timer.

Open Scope Z_scope.

Module MeditationView.
Import MeditationTimer.

(** [formatTime], lines 76-80: [Math.floor(sec / 60)], then [sec % 60]
    (a remainder, [Z.rem]) padded to two digits. *)
Definition formatTime (sec : Z) : string :=
  let m := sec / 60 in
  let s := Z.rem sec 60 in
  String.append (js_int_string m) (String ":" (pad_start 2 "0" (js_int_string s))).

(** ** The display *)

(** The preset buttons, lines 14-18: label and seconds. *)
Definition preset_buttons : list (string * Z) := [("5m", 300); ("10m", 600); ("15m", 900)]%string.

(** [strokeDashoffset={283 - (283 * timeLeft) / duration}], line 104. *)
Definition ring_offset (s : state) : Q :=
  (283 - (283 * inject_Z (timeLeft s)) / inject_Z (duration s))%Q.

(** The status word, line 112. *)
Definition status_text (s : state) : string :=
  (if isActive s then "Focus" else if isFinished s then "Completed" else "Ready")%string.

(** The primary button, lines 122-130. *)
Inductive control := PlayButton | PauseButton.

Record display := mk_display {
  glow : bool;                          (** [opacity-50] rather than [opacity-0], line 95 *)
  ring : Q;                             (** line 104 *)
  ring_active : bool;                   (** [text-sky-400], line 105 *)
  time_text : string;                   (** line 110 *)
  status_label : string;                (** lines 111-113 *)
  main_control : control;               (** lines 122-130 *)
  reset_shown : bool;                   (** lines 132-136 *)
  preset_selected : list (string * bool) (** label, highlighted: lines 141-149 *)
}.

(** The JSX of lines 82-155. *)
Definition render (s : state) : display :=
  mk_display (isActive s) (ring_offset s) (isActive s) (formatTime (timeLeft s)) (status_text s)
    (if negb (isActive s) then PlayButton else PauseButton)
    (negb (timeLeft s =? duration s) || isFinished s)
    ((λ p, (p.1, bool_decide (duration s = p.2))) <$> preset_buttons).

(** ** Reading a time back *)

(** The text before the first [:] and the text after it. *)
Fixpoint split_colon (s : string) : option (string * string) :=
  match s with
  | EmptyString => None
  | String c s' =>
      if Ascii.eqb c ":" then Some (EmptyString, s')
      else (λ '(a, b), (String c a, b)) <$> split_colon s'
  end.

(** The seconds a text [m:ss] stands for. *)
Definition parseTime (str : string) : option Z :=
  match split_colon str with
  | Some (a, b) =>
      match NilEmpty.uint_of_string a, NilEmpty.uint_of_string b with
      | Some u, Some v =>
          if (String.length b =? 2)%nat
          then Some (60 * Z.of_nat (Nat.of_uint u) + Z.of_nat (Nat.of_uint v))
          else None
      | _, _ => None
      end
  | None => None
  end.

(** ** Lemmas *)

Lemma split_colon_digits u rest :
  split_colon (String.append (NilEmpty.string_of_uint u) (String ":" rest)) =
    Some (NilEmpty.string_of_uint u, rest).
Proof. induction u; simpl; try rewrite IHu; reflexivity. Qed.

(** The seconds field: two characters that read back as the number. *)
Lemma pad_seconds r :
  (r < 60)%nat →
  String.length (pad_start 2 "0" (digits r)) = 2%nat ∧
  Nat.of_uint <$> NilEmpty.uint_of_string (pad_start 2 "0" (digits r)) = Some r.
Proof. intros Hr. do 60 (destruct r as [|r]; [vm_compute; split; reflexivity|]). lia. Qed.

Lemma ring_bounds s : timer_inv s → (0 <= ring_offset s <= 283)%Q.
Proof.
  intros (Hd & Ht & _). pose proof (presets_pos _ Hd) as Hp. unfold ring_offset.
  assert (0 < inject_Z (duration s))%Q as Hd0 by (change 0%Q with (inject_Z 0); rewrite <- Zlt_Qlt; lia).
  assert (0 <= inject_Z (timeLeft s) <= inject_Z (duration s))%Q as [H0 H1]
    by (change 0%Q with (inject_Z 0); rewrite <- !Zle_Qle; lia).
  split.
  - enough (283 * inject_Z (timeLeft s) / inject_Z (duration s) <= 283)%Q by lra.
    apply Qle_shift_div_r; [done|lra].
  - enough (0 <= 283 * inject_Z (timeLeft s) / inject_Z (duration s))%Q by lra.
    apply Qle_shift_div_l; [done|lra].
Qed.

(** ** Properties *)

(** C29. [formatTime] of a non-negative number of seconds is the minutes,
    a colon and exactly two characters of seconds, and the number of
    seconds is read back from it: distinct times are shown as distinct
    texts. *)
Theorem formatTime_roundtrip sec :
  0 ≤ sec →
  ∃ mm ss, formatTime sec = String.append mm (String ":" ss) ∧ String.length ss = 2%nat ∧
           parseTime (formatTime sec) = Some sec.
Proof.
  intros Hs. unfold formatTime.
  rewrite Z.rem_mod_nonneg by lia.
  pose proof (Z.mod_pos_bound sec 60 ltac:(lia)) as Hr.
  rewrite (js_int_string_nonneg (sec / 60)) by (apply Z.div_pos; lia).
  rewrite (js_int_string_nonneg (sec mod 60)) by lia.
  destruct (pad_seconds (Z.to_nat (sec mod 60)) ltac:(lia)) as [Hlen Hread].
  eexists _, _. split_and!; [reflexivity|exact Hlen|].
  unfold parseTime, digits at 1. rewrite split_colon_digits, NilEmpty.usu.
  destruct (NilEmpty.uint_of_string (pad_start 2 "0" (digits (Z.to_nat (sec mod 60)))))
    as [v|] eqn:Hv; [|done].
  simpl in Hread. injection Hread as Hread.
  rewrite Hlen, Unsigned.of_to, Hread. simpl. f_equal.
  rewrite !Z2Nat.id by (try apply Z.div_pos; lia). pose proof (Z.div_mod sec 60). lia.
Qed.

(** C30. In every state the timer can reach, the ring is between empty
    and full ([strokeDashoffset] in [0, 283]), exactly one preset button
    is highlighted, and "Completed" is shown only together with the time
    "0:00". *)
Theorem display_consistent s :
  reach s →
  (0 <= ring (render s) <= 283)%Q ∧
  List.length (filter (λ p, p.2 = true) (preset_selected (render s))) = 1%nat ∧
  (status_label (render s) = "Completed"%string → time_text (render s) = "0:00"%string).
Proof.
  intros Hr. pose proof (reach_inv s Hr) as Hinv. split; [|split].
  - by apply ring_bounds.
  - destruct Hinv as (Hd & _). unfold presets in Hd. rewrite !elem_of_cons in Hd.
    destruct Hd as [Hd|[Hd|[Hd|Hd]]]; [| | |by apply not_elem_of_nil in Hd];
      cbn [render preset_selected]; rewrite Hd; reflexivity.
  - destruct Hinv as (_ & _ & _ & Hfin & _). simpl. unfold status_text.
    destruct (isActive s); [done|]. destruct (isFinished s) eqn:Hf; [|done].
    intros _. destruct (Hfin eq_refl) as [_ ->]. reflexivity.
Qed.

(** ** Witnesses *)

Lemma formatTime_roundtrip_witness :
  formatTime 545 = "9:05"%string ∧ parseTime (formatTime 545) = Some 545.
Proof.
  split; [reflexivity|].
  destruct (formatTime_roundtrip 545 ltac:(lia)) as (mm & ss & _ & _ & Hp). exact Hp.
Defined.

(** The display after a five-minute session ran to the end. *)
Lemma display_consistent_witness :
  (0 <= ring (render session_done) <= 283)%Q ∧
  List.length (filter (λ p, p.2 = true) (preset_selected (render session_done))) = 1%nat ∧
  (status_label (render session_done) = "Completed"%string →
   time_text (render session_done) = "0:00"%string).
Proof. apply display_consistent, reach_session_done. Defined.
End MeditationView.
