(* ===== verification/Dashboard.v ===== *)
(** * The dashboard's streak clock: [src/app/page.tsx]

    The page keeps the streak start it counts from in a ref
    ([startDateRef]) and in [localStorage] ([streakStartDate]), and
    shows the elapsed time ([elapsed]) that an interval recomputes every
    second.  The progress bar interpolates between the milestones around
    the elapsed days.

    Date strings are modelled by the time value they parse to: a
    non-empty string is [Some t] when [new Date(str)] is valid and [None]
    when it is not; an absent or empty string (falsy) is [None] one level
    up.  The server's [startDate] is an ISO string that parses back to
    the same time value.  A [NaN] number is [None]. *)

From stdpp Require Import base list sets.
From Stdlib Require Import ZArith QArith Qminmax Lia.
From S2P Require Import Prelude Calendar Store Models World Streak.

Open Scope Z_scope.

Module StreakClock.

(** ** Milestones (lines 87-98) *)

Definition milestones : list Z := [1; 3; 7; 14; 30; 60; 90; 180; 365].

(** [x || d] on a number that may be [undefined]: [0] is falsy too. *)
Definition or_num (o : option Z) (d : Z) : Z :=
  match o with Some z => if z =? 0 then d else z | None => d end.

Definition getNextMilestone (days : Z) : Z :=
  or_num (List.find (λ m, days <? m) milestones) (days + 1).

(** [[0, 1, 3, ..., 365].reverse().find(m => m <= days) || 0] *)
Definition prevMilestone (days : Z) : Z :=
  or_num (List.find (λ m, m <=? days) (rev (0 :: milestones))) 0.

(** [getProgress], on exact rationals; [None] is [NaN]. *)
Definition getProgress (days : option Z) : Q :=
  match days with
  | None => 0
  | Some d =>
      let next := getNextMilestone d in
      let prev := prevMilestone d in
      if next =? prev then 100
      else Qmin 100 (Qmax 0 (inject_Z (d - prev) / inject_Z (next - prev) * 100))
  end.

(** ** Elapsed time (lines 102-157) *)

Record elapsed := mk_elapsed {
  days : option Z; hours : option Z; minutes : option Z; seconds : option Z
}.

Definition zero_elapsed : elapsed := mk_elapsed (Some 0) (Some 0) (Some 0) (Some 0).
Definition nan_elapsed : elapsed := mk_elapsed None None None None.

(** [Math.floor(diff / day)], [Math.floor((diff % day) / hour)], ... for
    [diff >= 0]; JavaScript's [%] is [Z.rem]. *)
Definition split_diff (diff : Z) : elapsed :=
  mk_elapsed (Some (diff / msPerDay)) (Some (Z.rem diff msPerDay / msPerHour))
             (Some (Z.rem diff msPerHour / msPerMinute)) (Some (Z.rem diff msPerMinute / msPerSecond)).

(** The page's state: the ref, the cached string and [elapsed]. *)
Record page := mk_page {
  startDateRef : option (option Z);
  cached : option (option Z);
  shown : elapsed
}.

Definition set_shown (p : page) (e : elapsed) : page := mk_page (startDateRef p) (cached p) e.

(** [calculateTime], lines 139-157, at the clock reading [now]. *)
Definition calculateTime (now : Z) (p : page) : page :=
  match startDateRef p with
  | None => p
  | Some None => set_shown p nan_elapsed
  | Some (Some start) =>
      let diff := now - start in
      if diff <? 0 then set_shown p zero_elapsed else set_shown p (split_diff diff)
  end.

(** The mount effect, lines 106-125. *)
Definition mount (now : Z) (p : page) : page :=
  match cached p with
  | None => p
  | Some ds =>
      let p1 := mk_page (Some ds) (cached p) (shown p) in
      match ds with
      | Some start => if 0 <=? now - start then set_shown p1 (split_diff (now - start)) else p1
      | None => p1
      end
  end.

(** The [streakData] effect, lines 128-133: [startDate] of the GET body. *)
Definition on_streak_data (startDate : option Z) (p : page) : page :=
  match startDate with
  | Some t => mk_page (Some (Some t)) (Some (Some t)) (shown p)
  | None => p
  end.

(** [handleReset] after the POST answered ok, lines 77-80, before the
    [fetchStreak] it starts has answered. *)
Definition reset_ok (p : page) : page := mk_page (startDateRef p) None zero_elapsed.

(** ** Lemmas *)

(** What [getNextMilestone] and the previous milestone are meant to
    find, as a boolean check. *)
Definition milestone_ok (d : Z) : bool :=
  let next := getNextMilestone d in
  let prev := prevMilestone d in
  (prev <=? d) && (d <? next) && bool_decide (prev ∈ 0 :: milestones) &&
  forallb (λ m, implb (m <=? d) (m <=? prev) && implb (d <? m) (next <=? m)) (0 :: milestones).

Definition blank_page : page := mk_page None None zero_elapsed.

Lemma milestone_ok_small : forall_from 366 0 milestone_ok = true.
Proof. vm_compute. reflexivity. Qed.

Lemma milestone_large d :
  365 < d → getNextMilestone d = d + 1 ∧ prevMilestone d = 365.
Proof.
  intros Hd. unfold getNextMilestone, prevMilestone, milestones. simpl.
  rewrite !(proj2 (Z.ltb_ge _ _)) by lia. rewrite (proj2 (Z.leb_le 365 d)) by lia. simpl.
  done.
Qed.

(** Around every day count [d >= 0]: the previous milestone (or 0) is
    the largest at most [d], the next the smallest above [d] (or
    [d + 1] past a year). *)
Lemma milestone_core d :
  0 ≤ d →
  prevMilestone d ≤ d < getNextMilestone d ∧ prevMilestone d ∈ 0 :: milestones ∧
  (∀ m, m ∈ 0 :: milestones → m ≤ d → m ≤ prevMilestone d) ∧
  (∀ m, m ∈ milestones → d < m → getNextMilestone d ≤ m).
Proof.
  intros Hd. destruct (Z.le_gt_cases d 365) as [Hs|Hl].
  - pose proof (forall_from_spec _ _ _ milestone_ok_small d ltac:(lia)) as Hok.
    unfold milestone_ok in Hok. apply andb_prop in Hok as [Hok Hall].
    apply andb_prop in Hok as [Hok Hin]. apply andb_prop in Hok as [Hp Hn]. zbool.
    apply bool_decide_eq_true in Hin. rewrite forallb_forall in Hall.
    split_and!; [lia|lia|done| |].
    + intros m Hm Hle. rewrite list_elem_of_In in Hm. apply Hall, andb_prop in Hm as [H1 _].
      rewrite implb_true_iff in H1. specialize (H1 (proj2 (Z.leb_le _ _) Hle)). zbool. lia.
    + intros m Hm Hlt. assert (In m (0 :: milestones)) as Hm' by (right; by apply list_elem_of_In).
      apply Hall, andb_prop in Hm' as [_ H2].
      rewrite implb_true_iff in H2. specialize (H2 (proj2 (Z.ltb_lt _ _) Hlt)). zbool. lia.
  - destruct (milestone_large d Hl) as [-> ->]. split_and!; [lia|lia|set_solver| |].
    + intros m Hm _. unfold milestones in Hm. repeat (apply elem_of_cons in Hm as [->|Hm]; [lia|]).
      set_solver.
    + intros m Hm Hlt. unfold milestones in Hm.
      repeat (apply elem_of_cons in Hm as [->|Hm]; [lia|]). set_solver.
Qed.

(** [a / b * 100] is in [[0, 100)] for [0 <= a < b]. *)
Lemma ratio_percent_bounds a b :
  0 ≤ a < b → (0 <= inject_Z a / inject_Z b * 100 < 100)%Q.
Proof.
  intros Hab. assert (0 < inject_Z b)%Q as Hb.
  { change 0%Q with (inject_Z 0). rewrite <- Zlt_Qlt. lia. }
  assert (0 <= inject_Z a / inject_Z b)%Q.
  { apply Qle_shift_div_l; [done|]. rewrite Qmult_0_l. change 0%Q with (inject_Z 0).
    rewrite <- Zle_Qle. lia. }
  assert (inject_Z a / inject_Z b < 1)%Q.
  { apply Qlt_shift_div_r; [done|]. rewrite Qmult_1_l, <- Zlt_Qlt. lia. }
  split.
  - apply Qmult_le_0_compat; [done|]. unfold Qle. simpl. lia.
  - rewrite <- (Qmult_1_l 100) at 2. apply Qmult_lt_r; [reflexivity|done].
Qed.

(** Total hours are the days' hours plus the hours of the last day. *)
Lemma hours_split diff :
  0 ≤ diff → diff / msPerHour = 24 * (diff / msPerDay) + Z.rem diff msPerDay / msPerHour.
Proof.
  intros Hd. rewrite Z.rem_mod_nonneg by (unfold msPerDay; lia).
  unfold msPerDay, msPerHour. Z.div_mod_to_equations. lia.
Qed.

(** ** Properties *)

(** C33. For every day count [d >= 0] the page can show, the progress bar
    interpolates between the largest milestone (or 0) at most [d] and
    the smallest above it (or [d + 1] after a year): the two differ, so
    the [next === prev] branch never runs, and the value is in
    [[0, 100)], so [Math.min]/[Math.max] never clamp. *)
Theorem progress_interpolates d :
  0 ≤ d →
  let prev := prevMilestone d in
  let next := getNextMilestone d in
  prev ∈ 0 :: milestones ∧ (∀ m, m ∈ 0 :: milestones → m ≤ d → m ≤ prev) ∧
  (∀ m, m ∈ milestones → d < m → next ≤ m) ∧ prev ≤ d < next ∧
  (getProgress (Some d) == inject_Z (d - prev) / inject_Z (next - prev) * 100)%Q ∧
  (0 <= getProgress (Some d) < 100)%Q.
Proof.
  intros Hd prev next. destruct (milestone_core d Hd) as (Hw & Hin & Hp & Hn).
  pose proof (ratio_percent_bounds (d - prev) (next - prev) ltac:(lia)) as [H0 H100].
  assert (getProgress (Some d) == inject_Z (d - prev) / inject_Z (next - prev) * 100)%Q as Heq.
  { unfold getProgress. fold prev next. rewrite (proj2 (Z.eqb_neq _ _)) by lia.
    rewrite Q.max_r by done. apply Q.min_r. by apply Qlt_le_weak. }
  refine (conj Hin (conj Hp (conj Hn (conj Hw (conj Heq _))))). by rewrite Heq.
Qed.

(** For [diff >= 0] the clock's fields decompose the elapsed time:
    days, hours, minutes and seconds recombine to [diff] up to its
    milliseconds, with hours below 24 and minutes and seconds below 60. *)
Theorem split_diff_roundtrip diff :
  0 ≤ diff →
  ∃ d h m sec, split_diff diff = mk_elapsed (Some d) (Some h) (Some m) (Some sec) ∧
    d * msPerDay + h * msPerHour + m * msPerMinute + sec * msPerSecond + diff mod msPerSecond = diff ∧
    0 ≤ d ∧ 0 ≤ h < 24 ∧ 0 ≤ m < 60 ∧ 0 ≤ sec < 60.
Proof.
  intros Hd. eexists _, _, _, _. split; [reflexivity|].
  unfold msPerDay, msPerHour, msPerMinute, msPerSecond. rewrite !Z.rem_mod_nonneg by lia.
  Z.div_mod_to_equations. lia.
Qed.

(** C32. On a user whose stored start is a valid date not later than
    now, the page that receives the streak GET's [startDate] and
    recomputes at the same instant shows the GET's [streakDays], and
    its hours are the GET's [streakHours] less the whole days. *)
Theorem client_matches_server s w uid u st p :
  session_user s = Some uid → find_by_id (users w) uid = Some u →
  User.currentStreakStart u = Some st → time_clip st = Some st → st ≤ clock_now w →
  ∃ b, (run (StreakRoute.GET s) w).1 = Json 200 b ∧
    let p' := calculateTime (clock_now w) (on_streak_data (StreakRoute.startDate b) p) in
    days (shown p') = Some (StreakRoute.streakDays b) ∧
    ∃ h, hours (shown p') = Some h ∧ StreakRoute.streakHours b = 24 * StreakRoute.streakDays b + h.
Proof.
  intros Hs Hu Hst Hc Hle. rewrite (StreakRoute.GET_run_valid s w uid Hs u st Hu Hst Hc).
  eexists. split; [reflexivity|]. unfold calculateTime. simpl.
  rewrite (proj2 (Z.ltb_ge _ _)) by lia. rewrite Z.abs_eq by lia. simpl.
  split; [done|]. eexists. split; [done|]. apply hours_split. lia.
Qed.

(** C39. After a successful reset the page shows 0, but it keeps
    counting from the old start in [startDateRef] until the refetched
    [startDate] arrives: the next firing of the interval shows the old
    streak again, a day or more when the old start was a day ago. *)
Theorem reset_reverts_elapsed p st now :
  startDateRef p = Some (Some st) → st + msPerDay ≤ now →
  shown (reset_ok p) = zero_elapsed ∧ cached (reset_ok p) = None ∧
  shown (calculateTime now (reset_ok p)) = split_diff (now - st) ∧
  ∃ d, days (split_diff (now - st)) = Some d ∧ 1 ≤ d.
Proof.
  intros Hr Hle. unfold calculateTime, reset_ok. simpl. rewrite Hr.
  rewrite (proj2 (Z.ltb_ge _ _)) by (unfold msPerDay in *; lia).
  split_and!; [done..|]. eexists. split; [done|].
  apply Z.div_le_lower_bound; unfold msPerDay in *; lia.
Qed.

(** ** Witnesses *)

Lemma progress_interpolates_witness :
  let prev := prevMilestone 10 in
  let next := getNextMilestone 10 in
  prev ∈ 0 :: milestones ∧ (∀ m, m ∈ 0 :: milestones → m ≤ 10 → m ≤ prev) ∧
  (∀ m, m ∈ milestones → 10 < m → next ≤ m) ∧ prev ≤ 10 < next ∧
  (getProgress (Some 10%Z) == inject_Z (10 - prev) / inject_Z (next - prev) * 100)%Q ∧
  (0 <= getProgress (Some 10%Z) < 100)%Q.
Proof. apply progress_interpolates. lia. Defined.

Lemma split_diff_roundtrip_witness :
  ∃ d h m sec, split_diff 90061001 = mk_elapsed (Some d) (Some h) (Some m) (Some sec) ∧
    d * msPerDay + h * msPerHour + m * msPerMinute + sec * msPerSecond + 90061001 mod msPerSecond
      = 90061001 ∧
    0 ≤ d ∧ 0 ≤ h < 24 ∧ 0 ≤ m < 60 ∧ 0 ≤ sec < 60.
Proof. apply split_diff_roundtrip. lia. Defined.

Lemma client_matches_server_witness :
  ∃ b, (run (StreakRoute.GET (Some (Some 1%N))) StreakRoute.demo_streak_world).1 = Json 200 b ∧
    let p' := calculateTime (clock_now StreakRoute.demo_streak_world)
                (on_streak_data (StreakRoute.startDate b) blank_page) in
    days (shown p') = Some (StreakRoute.streakDays b) ∧
    ∃ h, hours (shown p') = Some h ∧ StreakRoute.streakHours b = 24 * StreakRoute.streakDays b + h.
Proof.
  eapply (client_matches_server _ StreakRoute.demo_streak_world 1%N); try reflexivity. vm_compute. discriminate.
Defined.

Lemma reset_reverts_elapsed_witness :
  let p := mk_page (Some (Some 1690000000000)) (Some (Some 1690000000000)) zero_elapsed in
  shown (reset_ok p) = zero_elapsed ∧ cached (reset_ok p) = None ∧
  shown (calculateTime 1700000000000 (reset_ok p)) = split_diff (1700000000000 - 1690000000000) ∧
  ∃ d, days (split_diff (1700000000000 - 1690000000000)) = Some d ∧ 1 ≤ d.
Proof. apply reset_reverts_elapsed; [reflexivity|unfold msPerDay; lia]. Defined.
End StreakClock.
