(* ===== verification/GratitudeView.v ===== *)
(** * The gratitude list view: [src/components/gratitude-list.tsx]

    The view keeps the items of today ([items]) and of the history tab
    ([historyItems]) as the JSON of the documents the gratitude GET
    answered.  [toggleCheck] and [handleDelete] change [items] before the
    PUT or DELETE they send (optimistic updates); [handleAdd] appends the
    item the POST answered.  The history tab groups the items, in the
    order received, into runs of equal day labels
    ([toLocaleDateString(undefined, { month: 'short', day: 'numeric' })],
    a month and a day in the browser's zone, without the year). *)

From stdpp Require Import base list strings sorting.
From Stdlib Require Import ZArith Lia String Ascii.
From S2P Require Import Prelude Calendar Store Models World Gratitudes.

Open Scope Z_scope.

Module GratitudeList.

Abbreviation item := (oid * Gratitude.t)%type (only parsing).

(** [toggleCheck], line 62: the optimistic flip. *)
Definition toggleCheck (id : oid) (items : list item) : list item :=
  (λ i, if bool_decide (i.1 = id)
        then (i.1, Gratitude.set_isChecked i.2 (negb (Gratitude.isChecked i.2))) else i) <$> items.

(** [handleDelete], line 77. *)
Definition handleDelete (id : oid) (items : list item) : list item :=
  filter (λ i, i.1 ≠ id) items.

(** [handleAdd], lines 42-58: [saved] is the item the POST answered,
    [None] when the answer was not ok. *)
Definition handleAdd (newItem : string) (saved : option item) (items : list item) : list item :=
  if is_blank newItem then items
  else match saved with Some it => items ++ [it] | None => items end.

(** ** The component's requests, lines 12-83

    The component's state, and its handlers composed with the gratitude
    routes through [fetch]. *)

Inductive tab := TabToday | TabHistory.

Record gview := mk_gview {
  items : list item; historyItems : list item; newItem : string; activeTab : tab
}.

Definition set_items (v : gview) (l : list item) : gview :=
  mk_gview l (historyItems v) (newItem v) (activeTab v).
Definition set_historyItems (v : gview) (l : list item) : gview :=
  mk_gview (items v) l (newItem v) (activeTab v).

Section requests.
(** The server's offset from UTC and the browser's session. *)
Context (tzo : Z) (s : session).

(** [fetchItems], lines 25-40. *)
Definition fetchItems (n : net) (w : World) (v : gview) : World * gview :=
  let mode := match activeTab v with TabHistory => "history" | TabToday => "today" end%string in
  let '(r, w') := fetch n (GratitudeRoute.GET tzo s (Some mode)) w in
  (w', match r ≫= ok_json with
       | Some data =>
           match activeTab v with TabToday => set_items v data | TabHistory => set_historyItems v data end
       | None => v
       end).

(** [handleAdd] with its POST, lines 42-58. *)
Definition handleAdd_req (n : net) (w : World) (v : gview) : World * gview :=
  if is_blank (newItem v) then (w, v)
  else
    let '(r, w') := fetch n (GratitudeRoute.POST s (Some (JStr (newItem v)))) w in
    let saved : option item := r ≫= ok_json in
    (w', mk_gview (handleAdd (newItem v) saved (items v)) (historyItems v)
                  (match saved with Some _ => ""%string | None => newItem v end) (activeTab v)).

(** [toggleCheck] with its PUT, lines 60-74: the optimistic flip, then
    the PUT; [n1] carries the PUT, and [n2] the refetch that the [catch]
    runs when the PUT's [fetch] rejected. *)
Definition toggleCheck_req (n1 n2 : net) (id : oid) (w : World) (v : gview) : World * gview :=
  let v1 := set_items v (toggleCheck id (items v)) in
  let '(r, w') := fetch n1 (GratitudeRoute.PUT s (Some (GratitudeRoute.mk_put (IdValid id)))) w in
  match r with
  | None => fetchItems n2 w' v1
  | Some _ => (w', v1)
  end.

(** [handleDelete] with its DELETE, lines 76-83: the [catch] only logs. *)
Definition handleDelete_req (n : net) (id : oid) (w : World) (v : gview) : World * gview :=
  ((fetch n (GratitudeRoute.DELETE s (IdValid id)) w).2, set_items v (handleDelete id (items v))).
End requests.

(** ** History grouping, lines 162-172 *)

Record group := mk_group { gdate : Z * Z; gitems : list item }.

(** The label of a date: its month and day in the browser's zone. *)
Definition label (ctz t : Z) : Z * Z := (get_month ctz t, get_date ctz t).

(** One step of the [reduce]: join the last group when its label is the
    item's, else open a group. *)
Definition add_item (ctz : Z) (acc : list group) (it : item) : list group :=
  let date := label ctz (Gratitude.createdAt it.2) in
  match last acc with
  | Some g =>
      if bool_decide (gdate g = date) then removelast acc ++ [mk_group date (gitems g ++ [it])]
      else acc ++ [mk_group date [it]]
  | None => acc ++ [mk_group date [it]]
  end.

Definition group_history (ctz : Z) (historyItems : list item) : list group :=
  fold_left (add_item ctz) historyItems [].

(** The view agrees with the store: every item shown is a stored
    document with the same [isChecked] and [content]. *)
Definition agrees (items : list item) (c : list (oid * Gratitude.t)) : Prop :=
  Forall (λ i, ∃ g, find_by_id c i.1 = Some g ∧ Gratitude.isChecked g = Gratitude.isChecked i.2 ∧
                    Gratitude.content g = Gratitude.content i.2) items.

(** ** Lemmas *)

Definition distinct_dates (g1 g2 : group) : Prop := gdate g1 ≠ gdate g2.
Definition grouped (ctz : Z) (acc : list group) : Prop :=
  Forall (λ g, gitems g ≠ [] ∧ Forall (λ it, label ctz (Gratitude.createdAt it.2) = gdate g) (gitems g)) acc ∧
  Sorted distinct_dates acc.

Lemma Sorted_snoc {A} (R : A → A → Prop) l x :
  Sorted R l → (∀ y, last l = Some y → R y x) → Sorted R (l ++ [x]).
Proof.
  induction 1 as [|a l Hl IH Hhd]; intros Hlast; simpl; [by repeat constructor|].
  constructor.
  - apply IH. intros y Hy. apply Hlast. destruct l; [done|]. by rewrite last_cons_cons.
  - destruct l as [|b l]; simpl; constructor; [apply Hlast; done|]. by inv Hhd.
Qed.

Lemma Sorted_snoc_inv {A} (R : A → A → Prop) l x :
  Sorted R (l ++ [x]) → Sorted R l ∧ ∀ y, last l = Some y → R y x.
Proof.
  induction l as [|a l IH]; simpl; [intros _; split; [constructor|done]|].
  intros Hs. inv Hs. destruct (IH H1) as [Hl Hlast]. split.
  - constructor; [done|]. destruct l; [constructor|]. inv H2. by constructor.
  - intros y Hy. destruct l as [|b l]; simpl in *; [simplify_eq; by inv H2|]. by apply Hlast.
Qed.

(** What every prefix of the [reduce] satisfies: groups are non-empty,
    their items carry their label, and neighbouring labels differ. *)

Lemma removelast_last_Some {A} (l : list A) y : last l = Some y → l = removelast l ++ [y].
Proof.
  intros Hl. destruct l as [|a l] using rev_ind; [done|].
  rewrite last_snoc in Hl. simplify_eq. by rewrite removelast_last.
Qed.

Lemma add_item_items ctz acc it :
  List.concat (gitems <$> add_item ctz acc it) = List.concat (gitems <$> acc) ++ [it].
Proof.
  unfold add_item. destruct (last acc) as [g|] eqn:Hl; [case_bool_decide|].
  - rewrite (removelast_last_Some acc g Hl) at 2.
    rewrite !fmap_app, !concat_app. simpl. by rewrite ?app_nil_r, app_assoc.
  - rewrite fmap_app, concat_app. simpl. by rewrite ?app_nil_r.
  - rewrite fmap_app, concat_app. simpl. by rewrite ?app_nil_r.
Qed.

Lemma add_item_grouped ctz acc it : grouped ctz acc → grouped ctz (add_item ctz acc it).
Proof.
  intros [Hne Hs]. unfold add_item. destruct (last acc) as [g|] eqn:Hl; [case_bool_decide as Hd|].
  - rewrite (removelast_last_Some acc g Hl) in Hne, Hs.
    apply Sorted_snoc_inv in Hs as [Hs Hlast]. apply Forall_app in Hne as [Hne Hg].
    apply Forall_singleton in Hg as [Hgne Hgl]. split.
    + apply Forall_app. split; [done|]. apply Forall_singleton. split; [by destruct (gitems g)|].
      apply Forall_app. split; [by rewrite <- Hd|by constructor].
    + apply Sorted_snoc; [done|]. intros y Hy. unfold distinct_dates. simpl. rewrite <- Hd.
      by apply Hlast.
  - split; [apply Forall_app; split; [done|by repeat constructor]|].
    apply Sorted_snoc; [done|]. intros y Hy. rewrite Hl in Hy. by simplify_eq.
  - split; [apply Forall_app; split; [done|by repeat constructor]|].
    apply Sorted_snoc; [done|]. intros y Hy. by rewrite Hl in Hy.
Qed.

Lemma fold_add_item ctz hs acc :
  grouped ctz acc →
  grouped ctz (fold_left (add_item ctz) hs acc) ∧
  List.concat (gitems <$> fold_left (add_item ctz) hs acc) = List.concat (gitems <$> acc) ++ hs.
Proof.
  revert acc. induction hs as [|it hs IH]; intros acc Hg; simpl; [by rewrite app_nil_r|].
  destruct (IH (add_item ctz acc it) (add_item_grouped ctz acc it Hg)) as [H1 H2].
  split; [done|]. by rewrite H2, add_item_items, <- app_assoc.
Qed.

(** ** Properties *)

(** The history tab shows every item it received, once and in
    order: the groups' items concatenate to [historyItems]; every group
    is non-empty with all its items under its label, and neighbouring
    groups have different labels. *)
Theorem group_history_roundtrip ctz hs :
  List.concat (gitems <$> group_history ctz hs) = hs ∧
  Sorted distinct_dates (group_history ctz hs) ∧
  Forall (λ g, gitems g ≠ [] ∧
           Forall (λ it, label ctz (Gratitude.createdAt it.2) = gdate g) (gitems g))
         (group_history ctz hs).
Proof.
  destruct (fold_add_item ctz hs [] (conj (Forall_nil_2 _) (Sorted_nil _))) as [[Hf Hs] Hc].
  by split_and!.
Qed.

(** The optimistic updates agree with the store: when the list
    shown agrees with the stored items, it still does after
    [toggleCheck] and the PUT it sends, and after [handleDelete] and its
    DELETE. *)
Theorem optimistic_updates_agree s uid w items id g :
  session_user s = Some uid → agrees items (gratitudes w) →
  (find_by_id (gratitudes w) id = Some g →
     agrees (toggleCheck id items)
       (gratitudes (run (GratitudeRoute.PUT s (Some (GratitudeRoute.mk_put (IdValid id)))) w).2)) ∧
  agrees (handleDelete id items) (gratitudes (run (GratitudeRoute.DELETE s (IdValid id)) w).2).
Proof.
  intros Hs Hag. pose proof Hag as Hag'. unfold agrees in Hag'. rewrite Forall_forall in Hag'. split.
  - intros Hg. rewrite (GratitudeProps.PUT_run_item s uid w id g Hs Hg). simpl.
    apply Forall_fmap. apply (Forall_impl _ _ _ Hag). intros [i gi] (g0 & Hg0 & Hc & Hct). simpl in *.
    case_bool_decide as Hi; simpl.
    + subst i. rewrite Hg in Hg0. injection Hg0 as <-.
      eexists. split; [by eapply find_by_id_replace_eq|]. simpl. by rewrite Hc.
    + eexists. split; [rewrite find_by_id_replace_ne by congruence; exact Hg0|done].
  - unfold GratitudeRoute.DELETE. rewrite Hs. mrun. apply Forall_forall. intros [i gi] Hi.
    apply list_elem_of_filter in Hi as [Hne Hi]. simpl in *.
    destruct (Hag' _ Hi) as (g0 & Hg0 & Hc). exists g0.
    rewrite find_by_id_delete, decide_False by congruence. done.
Qed.

(** C21. A toggle the server rejects is not rolled back, although the
    specification asks the client to re-fetch after a failed toggle:
    when the item shown was deleted meanwhile (in another tab), the PUT
    answers 404 and writes nothing, and the list keeps the flipped item,
    which the store no longer has; only a [fetch] that rejects runs the
    refetch of the [catch]. *)
Theorem failed_toggle_not_reverted tzo s uid n2 id w v :
  session_user s = Some uid → find_by_id (gratitudes w) id = None →
  (run (GratitudeRoute.PUT s (Some (GratitudeRoute.mk_put (IdValid id)))) w).1 = Message 404 "Not found"%string ∧
  toggleCheck_req tzo s Up n2 id w v = (w, set_items v (toggleCheck id (items v))) ∧
  (id ∈ (fst <$> items v) →
   ¬ agrees (items (toggleCheck_req tzo s Up n2 id w v).2) (gratitudes (toggleCheck_req tzo s Up n2 id w v).1)) ∧
  toggleCheck_req tzo s Down n2 id w v = fetchItems tzo s n2 w (set_items v (toggleCheck id (items v))).
Proof.
  intros Hs Hn.
  assert (run (GratitudeRoute.PUT s (Some (GratitudeRoute.mk_put (IdValid id)))) w = (Message 404 "Not found"%string, w)) as Hrun.
  { unfold GratitudeRoute.PUT. rewrite Hs. mrun. by rewrite Hn. }
  assert (toggleCheck_req tzo s Up n2 id w v = (w, set_items v (toggleCheck id (items v)))) as Hup.
  { unfold toggleCheck_req, fetch. by rewrite Hrun. }
  split_and!; [by rewrite Hrun|done| |done].
  rewrite Hup. simpl. intros Hid Hag. apply list_elem_of_fmap in Hid as ([i g0] & -> & Hin).
  unfold agrees, toggleCheck in Hag. rewrite Forall_fmap, Forall_forall in Hag.
  destruct (Hag _ Hin) as (g1 & Hf & _). simpl in Hf. rewrite bool_decide_true in Hf by done.
  simpl in *. congruence.
Qed.

(** The labels carry no year: an item of 2024-11-14 followed by one of
    2023-11-14 land in one group. *)
Example history_merges_years :
  List.length (group_history 0 [(1%N, Gratitude.mk 1 "Walk" false 1731585600000 1731585600000);
                                (2%N, Gratitude.mk 1 "Tea" false 1699963200000 1699963200000)]%string) = 1%nat.
Proof. vm_compute. reflexivity. Qed.

(** ** Witnesses *)

Lemma optimistic_updates_agree_witness :
  let items := [(11%N, Gratitude.mk 1 "Sunrise" true 1699923600000 1699923600000)]%string in
  (find_by_id (gratitudes GratitudeProps.demo_gratitude_world) 11%N =
     Some (Gratitude.mk 1 "Sunrise" true 1699923600000 1699923600000)%string →
   agrees (toggleCheck 11 items)
     (gratitudes (run (GratitudeRoute.PUT (Some (Some 1%N)) (Some (GratitudeRoute.mk_put (IdValid 11))))
                   GratitudeProps.demo_gratitude_world).2)) ∧
  agrees (handleDelete 11 items)
    (gratitudes (run (GratitudeRoute.DELETE (Some (Some 1%N)) (IdValid 11)) GratitudeProps.demo_gratitude_world).2).
Proof.
  apply (optimistic_updates_agree (Some (Some 1%N)) 1%N GratitudeProps.demo_gratitude_world); [done|].
  repeat constructor. eexists. split; [reflexivity|done].
Defined.
Lemma failed_toggle_not_reverted_witness :
  let v := mk_gview [(13%N, Gratitude.mk 1 "Rain" false 1699923600000 1699923600000)] [] "" TabToday in
  (run (GratitudeRoute.PUT (Some (Some 1%N)) (Some (GratitudeRoute.mk_put (IdValid 13)))) GratitudeProps.demo_gratitude_world).1 =
    Message 404 "Not found" ∧
  toggleCheck_req 0 (Some (Some 1%N)) Up Up 13 GratitudeProps.demo_gratitude_world v =
    (GratitudeProps.demo_gratitude_world, set_items v (toggleCheck 13 (items v))) ∧
  (13%N ∈ (fst <$> items v) →
   ¬ agrees (items (toggleCheck_req 0 (Some (Some 1%N)) Up Up 13 GratitudeProps.demo_gratitude_world v).2)
       (gratitudes (toggleCheck_req 0 (Some (Some 1%N)) Up Up 13 GratitudeProps.demo_gratitude_world v).1)) ∧
  toggleCheck_req 0 (Some (Some 1%N)) Down Up 13 GratitudeProps.demo_gratitude_world v =
    fetchItems 0 (Some (Some 1%N)) Up GratitudeProps.demo_gratitude_world (set_items v (toggleCheck 13 (items v))).
Proof.
  intros v. apply (failed_toggle_not_reverted 0 (Some (Some 1%N)) 1 Up 13); [done|reflexivity].
Defined.
End GratitudeList.
