(* ===== verification/GratitudeRender.v ===== *)
(** * What the gratitude list shows, and its input events:
    [src/components/gratitude-list.tsx], lines 21-23 and 85-193

    The tab buttons set [activeTab]; the effect of lines 21-23 runs
    [fetchItems] when it changed (React skips a re-render and the effect
    when the value set is the current one).  The text box copies its
    input into [newItem], and Enter runs [handleAdd] (lines 147-153).

    The render ([grender]) is a record: which tab is highlighted, and
    either today's rows (check box filled and text struck through when
    checked, the content) with the prompt shown when there is none and
    the text box's value, or the history's day groups, keyed by their
    label, with "No history yet." when there is no item.

    Group keys are the day labels without the year: when the history
    holds two runs of items of the same month and day (a year apart)
    separated by another day, two groups get the same React key. *)

From stdpp Require Import base list strings sorting.
From Stdlib Require Import ZArith Lia String.
From S2P Require Import Prelude Calendar Store Models World Gratitudes GratitudeView.

Open Scope Z_scope.

Module GratitudeRender.
Import GratitudeList.

(** ** Input events *)

Definition set_tab (v : gview) (t : tab) : gview := mk_gview (items v) (historyItems v) (newItem v) t.
Definition set_newItem (v : gview) (s : string) : gview := mk_gview (items v) (historyItems v) s (activeTab v).

#[global] Instance tab_eq_dec : EqDecision tab.
Proof. solve_decision. Defined.

Section events.
Context (tzo : Z) (s : session).

(** A tab button, lines 94-105, and the effect of lines 21-23. *)
Definition clickTab (t : tab) (n : net) (w : World) (v : gview) : World * gview :=
  if bool_decide (activeTab v = t) then (w, v) else fetchItems tzo s n w (set_tab v t).

(** The text box's [onKeyDown], line 151: Enter adds the item. *)
Definition onKeyDown (key : string) (n : net) (w : World) (v : gview) : World * gview :=
  if String.eqb key "Enter" then handleAdd_req s n w v else (w, v).
End events.

(** The text box's [onChange], line 150. *)
Definition onChange (text : string) (v : gview) : gview := set_newItem v text.

(** ** The render *)

(** A row of today's list, lines 117-136. *)
Record today_row := mk_trow { trow_key : oid; trow_checked : bool; trow_text : string }.

(** An entry of a history group, lines 177-180. *)
Record history_entry := mk_hentry { hkey : oid; hdot : bool; htext : string }.

Inductive gbody :=
| TodayList (rows : list today_row) (prompt : bool) (input : string)   (** lines 111-158 *)
| HistoryList (groups : list ((Z * Z) * list history_entry)) (empty : bool). (** lines 159-188 *)

Record gdisplay := mk_gdisplay { today_on : bool; history_on : bool; body : gbody }.

Definition today_row_of (it : item) : today_row :=
  mk_trow it.1 (Gratitude.isChecked it.2) (Gratitude.content it.2).

Definition history_entry_of (it : item) : history_entry :=
  mk_hentry it.1 (Gratitude.isChecked it.2) (Gratitude.content it.2).

(** Lines 85-193, with the browser's offset [ctz] for the day labels. *)
Definition grender (ctz : Z) (v : gview) : gdisplay :=
  let on_today := bool_decide (activeTab v = TabToday) in
  mk_gdisplay on_today (negb on_today)
    (match activeTab v with
     | TabToday =>
         TodayList (today_row_of <$> items v) (bool_decide (items v = [])) (newItem v)
     | TabHistory =>
         HistoryList ((λ g, (gdate g, history_entry_of <$> gitems g)) <$> group_history ctz (historyItems v))
           (bool_decide (historyItems v = []))
     end).

(** The React keys of the history groups. *)
Definition group_keys (d : gdisplay) : list (Z * Z) :=
  match body d with HistoryList gs _ => fst <$> gs | TodayList _ _ _ => [] end.

(** ** Lemmas *)

Lemma group_history_three ctz a c b :
  label ctz (Gratitude.createdAt a.2) = label ctz (Gratitude.createdAt b.2) →
  label ctz (Gratitude.createdAt c.2) ≠ label ctz (Gratitude.createdAt a.2) →
  gdate <$> group_history ctz [a; c; b] =
    [label ctz (Gratitude.createdAt a.2); label ctz (Gratitude.createdAt c.2);
     label ctz (Gratitude.createdAt a.2)].
Proof.
  intros Hab Hca. unfold group_history, add_item. simpl.
  rewrite bool_decide_false by done. simpl.
  rewrite bool_decide_false by (rewrite <- Hab; congruence). simpl. by rewrite Hab.
Qed.

(** Clicking the highlighted tab does nothing; the other tab fetches
    its items. *)
Lemma clickTab_same tzo s t n w v : activeTab v = t → clickTab tzo s t n w v = (w, v).
Proof. intros Ht. unfold clickTab. by rewrite bool_decide_true. Qed.

(** ** Properties *)

(** C23. The history tab keys its day groups by month and day only: when
    the history holds an item, then one of another day, then one with
    the first one's month and day (a year earlier, as the newest-first
    history puts it), the tab shows three groups of which two have the
    same key, so the keys of the list are not unique. *)
Theorem history_keys_repeat ctz a c b :
  label ctz (Gratitude.createdAt a.2) = label ctz (Gratitude.createdAt b.2) →
  label ctz (Gratitude.createdAt c.2) ≠ label ctz (Gratitude.createdAt a.2) →
  let d := grender ctz (mk_gview [] [a; c; b] "" TabHistory) in
  history_on d = true ∧ List.length (group_keys d) = 3%nat ∧ ¬ NoDup (group_keys d).
Proof.
  intros Hab Hca d. unfold d, grender, group_keys. simpl.
  rewrite <- list_fmap_compose.
  change (fst ∘ (λ g, (gdate g, history_entry_of <$> gitems g))) with gdate.
  rewrite group_history_three by done. split_and!; [done|done|].
  intros Hnd. apply NoDup_cons in Hnd as [Hn _]. apply Hn. right. by left.
Qed.

(** ** Witnesses *)

(** 2024-03-05, 2024-03-04 and 2023-03-05, newest first, in UTC. *)
Lemma history_keys_repeat_witness :
  let a := (20%N, Gratitude.mk 1 "Rain" false 1709640000000 1709640000000) in
  let c := (21%N, Gratitude.mk 1 "Tea" true 1709553600000 1709553600000) in
  let b := (22%N, Gratitude.mk 1 "Friends" false 1678017600000 1678017600000) in
  let d := grender 0 (mk_gview [] [a; c; b] "" TabHistory) in
  history_on d = true ∧ List.length (group_keys d) = 3%nat ∧ ¬ NoDup (group_keys d).
Proof.
  apply history_keys_repeat; vm_compute; [reflexivity|discriminate].
Defined.
End GratitudeRender.
