(* ===== verification/Reddit.v ===== *)
(** * The community feed: [src/app/api/reddit/route.ts]

    [GET] fetches the subreddit's hot listing and answers the first five
    children that are not stickied, each reduced to six fields; any
    failure (a non-ok status, a network error, a payload without
    [data.children]) is caught and answered 500.  The fetch is an input:
    [None] is every failure, [Some children] a listing. *)

From stdpp Require Import base list strings.
From Stdlib Require Import ZArith Lia String.
From S2P Require Import Prelude World.

Open Scope Z_scope.

Module Feed.

(** [child.data] of the listing. *)
Record child := mk_child {
  c_id : string; c_title : string; c_permalink : string; c_author : string;
  c_score : Z; c_created_utc : Z; c_stickied : bool
}.

(** The post the route answers, lines 26-33. *)
Record post := mk_post {
  id : string; title : string; url : string; author : string; score : Z; created : Z
}.

Definition to_post (c : child) : post :=
  mk_post (c_id c) (c_title c) ("https://www.reddit.com" +:+ c_permalink c)%string
          (c_author c) (c_score c) (c_created_utc c).

(** Lines 23-33. *)
Definition extract (children : list child) : list post :=
  to_post <$> slice0 (filter (λ c, c_stickied c = false) children) 5.

(** [GET], lines 5-40. *)
Definition GET (feed : option (list child)) : response (list post) :=
  match feed with
  | Some children => Json 200 (extract children)
  | None => Message 500 "Failed to load community insights"
  end%string.

(** At most five posts, each from a child that is not stickied, in the
    listing's order. *)
Lemma extract_spec children :
  (List.length (extract children) ≤ 5)%nat ∧
  ∃ cs, extract children = to_post <$> cs ∧ cs `sublist_of` children ∧
        Forall (λ c, c_stickied c = false) cs.
Proof.
  unfold extract, slice0. split.
  - rewrite length_fmap, length_take. lia.
  - eexists. split; [done|]. split.
    + etrans; [apply sublist_take|apply sublist_filter].
    + apply Forall_take, Forall_forall. intros c Hc. by apply list_elem_of_filter in Hc as [? _].
Qed.
End Feed.
