(* ===== verification/RedditView.v ===== *)
(** * The community card: [src/components/reddit-feed.tsx]

    [RedditFeed] keeps [posts], [loading] and [error]; its mount effect
    fetches [/api/reddit] once ([fetchPosts], lines 19-41) and the card
    renders a skeleton while loading, an error panel when [error] is
    set, and one link per post otherwise (lines 55-94).  The fetch is
    composed with the route of [Reddit]: what the card shows is a
    function of the subreddit listing the route received. *)

From stdpp Require Import base list strings.
From Stdlib Require Import ZArith Lia String.
From S2P Require Import Prelude World Reddit.

Open Scope Z_scope.

Module RedditFeed.
Import Feed.

Record card_state := mk_card { posts : list post; loading : bool; error : bool }.

(** Lines 15-17. *)
Definition init : card_state := mk_card [] true false.

Definition setPosts (st : card_state) (ps : list post) : card_state :=
  mk_card ps (loading st) (error st).
Definition setError (st : card_state) : card_state := mk_card (posts st) (loading st) true.
Definition setLoading (st : card_state) (b : bool) : card_state := mk_card (posts st) b (error st).

(** [fetchPosts], lines 20-39: [None] is a [fetch] that rejected (the
    [catch]); an ok answer that is an array is shown, any other answer
    sets [error]; [finally] clears [loading]. *)
Definition fetchPosts (res : option (response (list post))) (st : card_state) : card_state :=
  let st1 :=
    match res with
    | None => setError st
    | Some r =>
        if res_ok r then
          match ok_json r with Some data => setPosts st data | None => setError st end
        else setError st
    end in
  setLoading st1 false.

(** One rendered link, lines 73-91: key, [href], title, score, author. *)
Record link := mk_link { key : string; href : string; ltitle : string; lscore : Z; lauthor : string }.

Definition to_link (p : post) : link := mk_link (id p) (url p) (title p) (score p) (author p).

Inductive card := Skeleton | Unavailable | Links (ls : list link).

(** The card body, lines 55-94. *)
Definition render (st : card_state) : card :=
  if loading st then Skeleton
  else if error st then Unavailable
  else Links (to_link <$> posts st).

(** The card after its mount effect, when the route answered from the
    listing [feed]. *)
Definition mounted (feed : option (list child)) : card :=
  render (fetchPosts (Some (GET feed)) init).

(** ** Properties *)

(** The card composed with the route: once the fetch has settled the
    card is never a skeleton; it shows the error panel exactly when the
    route could not load the listing, and when the fetch itself failed;
    otherwise it shows one link per child among the first five of the
    listing that are not stickied, in the listing's order, each to
    [https://www.reddit.com] followed by the child's permalink. *)
Theorem card_shows_feed feed :
  mounted feed ≠ Skeleton ∧
  (mounted feed = Unavailable ↔ feed = None) ∧
  render (fetchPosts None init) = Unavailable ∧
  ∀ children, feed = Some children →
    mounted feed =
      Links ((λ c, mk_link (c_id c) ("https://www.reddit.com" +:+ c_permalink c)
                            (c_title c) (c_score c) (c_author c))
             <$> take 5 (filter (λ c, c_stickied c = false) children)).
Proof.
  unfold mounted, fetchPosts, render. destruct feed as [children|]; simpl.
  - split_and!; [done|split; [done|intros; done]|done|].
    intros ? [= <-]. f_equal. unfold extract, slice0. by rewrite <- list_fmap_compose.
  - split_and!; done.
Qed.

(** ** Witnesses *)

Lemma card_shows_feed_witness :
  mounted (Some [mk_child "a1" "Day 30" "/r/x/a1" "u1" 12 1700000000 false]) =
    Links [mk_link "a1" "https://www.reddit.com/r/x/a1" "Day 30" 12 "u1"].
Proof. rewrite ((proj2 (proj2 (proj2 (card_shows_feed _)))) _ eq_refl). reflexivity. Defined.
End RedditFeed.
