(* ===== verification/Login.v ===== *)
(** * The login page: [src/app/login/page.tsx]

    [handleSubmit] (lines 18-38) calls NextAuth's [signIn('credentials',
    { email, password, redirect: false })], whose provider is outside the
    sources: its outcome is an input.  The page then shows an error, or
    navigates to the dashboard and refreshes the session.

    The form's inputs are [required] and the first is [type="email"]
    (lines 50-69): the browser runs [onSubmit] only when both are filled
    and the email is a valid e-mail address of the HTML standard
    ([valid_email]).  The page's events are the two [onChange] handlers
    and a submission; over any sequence of them, every [signIn] call
    carries a valid address and a password, every navigation is to the
    dashboard with its refresh, and the message shown is one of the
    page's two. *)

From stdpp Require Import base list sets strings.
From Stdlib Require Import Ascii String Lia.
From S2P Require Import Prelude.

Module LoginPage.

(** What [await signIn(...)] gives: [Resolved None] is an [undefined]
    result, [Resolved (Some e)] a result whose [error] field is [e]
    ([None] for [null]); [Rejected] is a thrown error. *)
Inductive signin_outcome := Resolved (res : option (option string)) | Rejected.

(** Lines 13-16, the router's history, and the credentials of each
    [signIn] call. *)
Record login_state := mk_login {
  email : string; password : string; error : string; pushed : list string; refreshes : nat;
  signins : list (string * string)
}.

Definition init : login_state := mk_login "" "" "" [] 0 [].

Definition setError (st : login_state) (e : string) : login_state :=
  mk_login (email st) (password st) e (pushed st) (refreshes st) (signins st).

(** [setEmail(e.target.value)], line 55, and [setPassword], line 65. *)
Definition setEmail (st : login_state) (v : string) : login_state :=
  mk_login v (password st) (error st) (pushed st) (refreshes st) (signins st).
Definition setPassword (st : login_state) (v : string) : login_state :=
  mk_login (email st) v (error st) (pushed st) (refreshes st) (signins st).

(** [signIn('credentials', { email, password, redirect: false })],
    lines 21-25. *)
Definition call_signIn (st : login_state) : login_state :=
  mk_login (email st) (password st) (error st) (pushed st) (refreshes st)
    (signins st ++ [(email st, password st)]).

(** [res?.error] is truthy. *)
Definition error_truthy (res : option (option string)) : bool :=
  match res with Some (Some e) => negb (String.eqb e "") | _ => false end.

(** [handleSubmit], lines 18-38. *)
Definition handleSubmit (o : signin_outcome) (st0 : login_state) : login_state :=
  let st := call_signIn st0 in
  match o with
  | Rejected => setError st "Something went wrong"
  | Resolved res =>
      if error_truthy res then setError st "Invalid credentials"
      else mk_login (email st) (password st) (error st) (pushed st ++ ["/"]) (S (refreshes st)) (signins st)
  end%string.

(** Line 71: the message shown under the form, if any. *)
Definition shown_error (st : login_state) : option string :=
  if String.eqb (error st) "" then None else Some (error st).

(** ** The form's constraints (lines 50-69) *)

Definition in_range (lo hi : ascii) (c : ascii) : bool :=
  (nat_of_ascii lo <=? nat_of_ascii c)%nat && (nat_of_ascii c <=? nat_of_ascii hi)%nat.

Definition is_alnum (c : ascii) : bool :=
  in_range "a" "z" c || in_range "A" "Z" c || in_range "0" "9" c.

Fixpoint has_char (c : ascii) (s : string) : bool :=
  match s with EmptyString => false | String d s' => Ascii.eqb c d || has_char c s' end.

(** A character of the local part of an address: a letter, a digit or
    one of [.!#$%&'*+/=?^_`{|}~-]. *)
Definition local_char (c : ascii) : bool := is_alnum c || has_char c ".!#$%&'*+/=?^_`{|}~-".

Fixpoint all_chars (f : ascii → bool) (s : string) : bool :=
  match s with EmptyString => true | String c s' => f c && all_chars f s' end.

(** The text before the first [c] and the text after it. *)
Fixpoint split_first (c : ascii) (s : string) : option (string * string) :=
  match s with
  | EmptyString => None
  | String d s' =>
      if Ascii.eqb c d then Some (EmptyString, s')
      else (λ '(a, b), (String d a, b)) <$> split_first c s'
  end.

(** The pieces of [s] between the occurrences of [c]. *)
Fixpoint split_all (c : ascii) (s : string) : list string :=
  match s with
  | EmptyString => [EmptyString]
  | String d s' =>
      if Ascii.eqb c d then EmptyString :: split_all c s'
      else match split_all c s' with
           | a :: rest => String d a :: rest
           | [] => [String d EmptyString]
           end
  end.

(** A domain label: 1 to 63 letters, digits and hyphens, starting and
    ending with a letter or digit. *)
Definition valid_label (l : string) : bool :=
  match l with
  | EmptyString => false
  | String c _ =>
      (String.length l <=? 63)%nat && is_alnum c &&
      match String.get (String.length l - 1) l with Some d => is_alnum d | None => false end &&
      all_chars (λ x, is_alnum x || Ascii.eqb x "-") l
  end.

(** The browser's check of [type="email"]: a valid e-mail address of the
    HTML standard, a non-empty local part, [@], and dot-separated labels. *)
Definition valid_email (s : string) : bool :=
  match split_first "@" s with
  | Some (loc, dom) => negb (String.eqb loc "") && all_chars local_char loc &&
                       forallb valid_label (split_all "." dom)
  | None => false
  end.

(** The constraint validation of [required] and [type="email"]. *)
Definition form_valid (st : login_state) : bool :=
  valid_email (email st) && negb (String.eqb (password st) "").

(** [onSubmit={handleSubmit}], line 47: the browser submits only a
    valid form. *)
Definition form_submit (o : signin_outcome) (st : login_state) : login_state :=
  if form_valid st then handleSubmit o st else st.

(** ** The page's events *)

Inductive login_event :=
| TypeEmail (v : string)            (** line 55 *)
| TypePassword (v : string)         (** line 65 *)
| Submit (o : signin_outcome).      (** line 47 *)

Definition login_step (st : login_state) (ev : login_event) : login_state :=
  match ev with
  | TypeEmail v => setEmail st v
  | TypePassword v => setPassword st v
  | Submit o => form_submit o st
  end.

Definition login_run (evs : list login_event) (st : login_state) : login_state :=
  foldl login_step st evs.

(** What the page shows, lines 40-83. *)
Record login_view := mk_lview { email_value : string; password_value : string; error_line : option string }.

Definition render (st : login_state) : login_view := mk_lview (email st) (password st) (shown_error st).

(** ** Invariant *)

Definition login_inv (st : login_state) : Prop :=
  Forall (λ c, valid_email c.1 = true ∧ c.2 ≠ ""%string) (signins st) ∧
  Forall (λ p, p = "/"%string) (pushed st) ∧ List.length (pushed st) = refreshes st ∧
  error st ∈ ["" ; "Invalid credentials"; "Something went wrong"]%string.

Lemma login_inv_init : login_inv init.
Proof. split_and!; [constructor|constructor|done|set_solver]. Qed.

Lemma login_step_inv st ev : login_inv st → login_inv (login_step st ev).
Proof.
  intros (Hs & Hp & Hl & He). destruct ev as [v|v|o]; simpl; [done|done|].
  unfold form_submit. destruct (form_valid st) eqn:Hv; [|done].
  apply andb_prop in Hv as [Hm Hpw]. apply negb_true_iff, String.eqb_neq in Hpw.
  assert (Forall (λ c, valid_email c.1 = true ∧ c.2 ≠ ""%string) (signins st ++ [(email st, password st)]))
    by (apply Forall_app; split; [done|by repeat constructor]).
  destruct o as [res|]; simpl; [destruct (error_truthy res)|]; simpl;
    (split; [done|]); split_and!; try done; try set_solver.
  - apply Forall_app; split; [done|by repeat constructor].
  - cbn. rewrite List.length_app. simpl. lia.
Qed.

Lemma login_run_inv_from evs st : login_inv st → login_inv (login_run evs st).
Proof.
  revert st. induction evs as [|ev evs IH]; intros st Hst; [done|].
  apply IH, login_step_inv, Hst.
Qed.

(** The address check on the form's placeholder and on malformed
    addresses. *)
Lemma valid_email_examples :
  valid_email "m@example.com" = true ∧ valid_email "m@localhost" = true ∧
  valid_email "m" = false ∧ valid_email "@example.com" = false ∧ valid_email "m@" = false ∧
  valid_email "m@example..com" = false ∧ valid_email "m@-example.com" = false ∧
  valid_email "m@x@y" = false.
Proof. split_and!; reflexivity. Qed.

(** ** Properties *)

(** C24. Submitting the form navigates to the dashboard (one push of
    ["/"] and one refresh) exactly when [signIn] resolved without a
    truthy [error], an [undefined] result included; otherwise the page
    stays and shows "Invalid credentials" for a rejected sign-in and
    "Something went wrong" when [signIn] threw.  A message of an earlier
    attempt is not cleared by a later successful one. *)
Theorem handleSubmit_outcomes o st :
  (pushed (handleSubmit o st) = pushed st ++ ["/"] ∧
   refreshes (handleSubmit o st) = S (refreshes st) ∧
   shown_error (handleSubmit o st) = shown_error st ↔
   ∃ res, o = Resolved res ∧ error_truthy res = false) ∧
  (o = Rejected → shown_error (handleSubmit o st) = Some "Something went wrong" ∧
                  pushed (handleSubmit o st) = pushed st) ∧
  (∀ res, o = Resolved res → error_truthy res = true →
     shown_error (handleSubmit o st) = Some "Invalid credentials" ∧
     pushed (handleSubmit o st) = pushed st)%string.
Proof.
  destruct o as [res|]; simpl.
  - destruct (error_truthy res) eqn:He; simpl.
    + split; [|split; [done|intros ? [= <-] _; done]].
      split; [intros (Hp & _); by apply eq_sym, app_snoc_neq in Hp|intros (? & [= <-] & ?); congruence].
    + split; [split; [intros _; by exists res|done]|split; [done|intros ? [= <-]; congruence]].
  - split; [|split; [done|done]].
    split; [intros (Hp & _); by apply eq_sym, app_snoc_neq in Hp|intros (? & ? & _); done].
Qed.

(** C25. Over any sequence of typing in the two inputs and submissions
    of the form, from the empty form: every [signIn] call carries an
    email that is a valid address and a non-empty password (the browser
    blocks the others), every navigation is a push of ["/"] with one
    refresh, and the error state is empty or one of the page's two
    messages. *)
Theorem login_events_safe evs :
  let st := login_run evs init in
  Forall (λ c, valid_email c.1 = true ∧ c.2 ≠ ""%string) (signins st) ∧
  Forall (λ p, p = "/"%string) (pushed st) ∧ List.length (pushed st) = refreshes st ∧
  error st ∈ ["" ; "Invalid credentials"; "Something went wrong"]%string.
Proof. exact (login_run_inv_from evs init login_inv_init). Qed.

Lemma handleSubmit_outcomes_witness :
  shown_error (handleSubmit (Resolved (Some (Some "CredentialsSignin"))) init) =
    Some "Invalid credentials"%string.
Proof.
  apply ((proj2 (proj2 (handleSubmit_outcomes _ init))) (Some (Some "CredentialsSignin"%string)));
    reflexivity.
Defined.
End LoginPage.
