(* ===== verification/HabitView.v ===== *)
(** * The habit list: [src/components/habbit-tracker.tsx], lines 16-105

    The component keeps the habits the GET answered ([habbits]), the
    name and frequency typed for a new habit, and [loading].
    [fetchHabbits] replaces the list by the answer of [GET /api/habits];
    [handleAddHabbit] POSTs a non-blank name and refetches; [toggleHabbit]
    PUTs the browser's [new Date()] for one habit and replaces that row
    of the list by the habit the PUT answered, without a refetch.  The
    mount effect fetches the list; the add form's inputs copy their
    values into the state.  Each
    request goes through [fetch] over a network that may fail ([net]),
    against the handlers of [Habits].

    What the client's rows are meant to be is a refetch: [fresh] says
    the list is what [GET] would answer now.  The theorems show when
    the handlers keep it so. *)

From stdpp Require Import base list strings sorting.
From Stdlib Require Import ZArith Lia String.
From S2P Require Import Prelude Calendar Store Models World Habits.

Open Scope Z_scope.

Module HabbitList.
Import Habits.Toggle Habits.HabitRoute.

Record view := mk_view {
  habbits_shown : list (oid * Habbit.t);
  newHabbitName : string;
  newHabbitFreq : Frequency;
  loading : bool
}.

(** Lines 17-20. *)
Definition init : view := mk_view [] "" Daily true.

Definition set_shown (v : view) (hs : list (oid * Habbit.t)) : view :=
  mk_view hs (newHabbitName v) (newHabbitFreq v) (loading v).
Definition set_name (v : view) (n : string) : view :=
  mk_view (habbits_shown v) n (newHabbitFreq v) (loading v).
Definition set_loading (v : view) (b : bool) : view :=
  mk_view (habbits_shown v) (newHabbitName v) (newHabbitFreq v) b.

(** The [<select>] value, lines 104-105. *)
Definition freq_string (f : Frequency) : string :=
  match f with Daily => "daily" | Weekly => "weekly" end%string.

Section client.
(** The server's offset from UTC, and the session of the browser. *)
Context (tzo : Z) (s : session).

(** [fetchHabbits], lines 26-38. *)
Definition fetchHabbits (n : net) (w : World) (v : view) : World * view :=
  let '(r, w') := fetch n (GET s) w in
  let v1 := match r ≫= ok_json with Some data => set_shown v data | None => v end in
  (w', set_loading v1 false).

(** [handleAddHabbit], lines 40-55: [n1] carries the POST, [n2] the
    refetch. *)
Definition handleAddHabbit (n1 n2 : net) (w : World) (v : view) : World * view :=
  if is_blank (newHabbitName v) then (w, v)
  else
    let body := mk_post (JStr (newHabbitName v)) (JStr (freq_string (newHabbitFreq v))) in
    let '(r, w1) := fetch n1 (POST s (Some body)) w in
    match r with
    | Some r' => if res_ok r' then fetchHabbits n2 w1 (set_name v "") else (w1, v)
    | None => (w1, v)
    end.

(** [toggleHabbit], lines 57-74, at the browser's clock reading [now]
    ([new Date().toISOString()] parses back to [now] on the server). *)
Definition toggleHabbit (n : net) (now : Z) (id : oid) (w : World) (v : view) : World * view :=
  let '(r, w1) := fetch n (PUT tzo s (Some (mk_put (IdValid id) (Some now)))) w in
  match r ≫= ok_json with
  | Some updated =>
      (w1, set_shown v ((λ h, if bool_decide (h.1 = id) then updated else h) <$> habbits_shown v))
  | None => (w1, v)
  end.

(** The mount effect, lines 21-23. *)
Definition mount (n : net) (w : World) : World * view := fetchHabbits n w init.
End client.

(** The name input's [onChange], line 94. *)
Definition onNameChange (v : view) (text : string) : view := set_name v text.

(** The select's [onChange], line 99: its value is one of its two
    options, lines 104-105. *)
Definition onFreqChange (v : view) (f : Frequency) : view :=
  mk_view (habbits_shown v) (newHabbitName v) f (loading v).

(** The list shown is what [GET] answers for [uid] in [w]. *)
Definition fresh (uid : oid) (w : World) (v : view) : Prop :=
  habbits_shown v = query (owned_by uid) Desc None (habbits w).

(** ** Lemmas *)

Lemma fetch_GET_Up s uid w :
  session_user s = Some uid →
  fetch Up (GET s) w = (Some (Json 200 (query (owned_by uid) Desc None (habbits w))), w).
Proof. intros Hs. unfold fetch, GET. rewrite Hs. by mrun. Qed.

(** ** Properties *)

(** C17. The optimistic replace of [toggleHabbit] is a refetch: when the
    list shown is what [GET] answers, ids are unique, and the user
    toggles a habit of the list, the list afterwards is again exactly
    what [GET] answers, whether the PUT succeeded, failed on the server
    or never arrived. *)
Theorem toggle_keeps_view_fresh tzo s uid n now id w v :
  session_user s = Some uid → NoDup (ids (habbits w)) → fresh uid w v →
  id ∈ (fst <$> habbits_shown v) →
  fresh uid (toggleHabbit tzo s n now id w v).1 (toggleHabbit tzo s n now id w v).2.
Proof.
  intros Hs Hnd Hfr Hid. unfold toggleHabbit.
  apply list_elem_of_fmap in Hid as ([id' h] & -> & Hin). rewrite Hfr in Hin. simpl.
  apply query_elem in Hin as [Hin Ho].
  pose proof (NoDup_ids_find _ _ _ Hnd Hin eq_refl) as Hf. simpl in Hf.
  destruct n; [|done]. unfold fetch.
  destruct (toggle tzo (set_hours_start tzo (Some now)) (Habbit.completedDates h)) as [ds|e] eqn:Ht.
  - rewrite (PUT_run_found tzo s uid w id' h (Some now) ds Hs Hf Ht). simpl.
    unfold fresh. simpl. rewrite (query_replace _ _ _ _ _ _ h Hnd Hf) by done.
    by rewrite Hfr.
  - unfold PUT. rewrite Hs. mrun. rewrite Hf. cbn -[set_hours_start toggle]. by rewrite Ht.
Qed.

(** Adding a habit: a blank name sends nothing and changes nothing;
    otherwise, with the POST and the refetch delivered, the habit is
    created with the name and frequency typed, the input is cleared, and
    the list shown is what [GET] answers afterwards, the new habit in
    it. *)
Theorem add_habbit_shown s uid w v :
  session_user s = Some uid →
  (is_blank (newHabbitName v) = true → handleAddHabbit s Up Up w v = (w, v)) ∧
  (is_blank (newHabbitName v) = false →
   let wv := handleAddHabbit s Up Up w v in
   newHabbitName wv.2 = ""%string ∧ loading wv.2 = false ∧ fresh uid wv.1 wv.2 ∧
   (next_oid w, Habbit.mk uid (newHabbitName v) (Some (newHabbitFreq v)) [] (clock_now w) (clock_now w))
     ∈ habbits_shown wv.2).
Proof.
  intros Hs. split; [intros Hb; unfold handleAddHabbit; by rewrite Hb|intros Hb].
  destruct (POST_run_valid s uid w (mk_post (JStr (newHabbitName v)) (JStr (freq_string (newHabbitFreq v))))
              (newHabbitName v) (Some (newHabbitFreq v)) Hs) as (w' & Hrun & Hw').
  { unfold Habbit.validate, cast_string, required_string, Habbit.cast_frequency. simpl.
    rewrite bool_decide_false by (intros Hn; rewrite Hn in Hb; done).
    destruct (newHabbitFreq v); simpl; done. }
  assert (handleAddHabbit s Up Up w v =
            (w', set_loading (set_shown (set_name v "") (query (owned_by uid) Desc None (habbits w'))) false))
    as ->.
  { unfold handleAddHabbit. rewrite Hb. unfold fetch at 1. rewrite Hrun. simpl.
    unfold fetchHabbits. by rewrite (fetch_GET_Up s uid w' Hs). }
  simpl. split_and!; [done|done|done|]. rewrite Hw', query_none_elem.
  split; [|by apply bool_decide_true]. apply elem_of_app. right. by constructor.
Qed.

(** ** Witnesses: user 1 and habit 5 of [demo_habbit_world] *)

Lemma toggle_keeps_view_fresh_witness :
  let v := mk_view (query (owned_by 1%N) Desc None (habbits demo_habbit_world)) "" Daily false in
  fresh 1 (toggleHabbit 0 (Some (Some 1%N)) Up mar1_1530 5 demo_habbit_world v).1
          (toggleHabbit 0 (Some (Some 1%N)) Up mar1_1530 5 demo_habbit_world v).2.
Proof.
  apply (toggle_keeps_view_fresh 0 (Some (Some 1%N)) 1); [reflexivity|apply NoDup_singleton|reflexivity|].
  vm_compute. by left.
Defined.

Lemma add_habbit_shown_witness :
  let v := mk_view [] "Stretch" Weekly false in
  newHabbitName (handleAddHabbit (Some (Some 1%N)) Up Up demo_world v).2 = ""%string ∧
  loading (handleAddHabbit (Some (Some 1%N)) Up Up demo_world v).2 = false ∧
  fresh 1 (handleAddHabbit (Some (Some 1%N)) Up Up demo_world v).1
          (handleAddHabbit (Some (Some 1%N)) Up Up demo_world v).2 ∧
  (next_oid demo_world, Habbit.mk 1 "Stretch" (Some Weekly) [] (clock_now demo_world) (clock_now demo_world))%string
    ∈ habbits_shown (handleAddHabbit (Some (Some 1%N)) Up Up demo_world v).2.
Proof.
  intros v. exact (proj2 (add_habbit_shown (Some (Some 1%N)) 1 demo_world v eq_refl) eq_refl).
Defined.

End HabbitList.
