(* ===== verification/HabitRows.v ===== *)
(** * What the habit tracker shows: [src/components/habbit-tracker.tsx], lines 91-183

    The add form shows the name typed and the frequency chosen (lines
    91-110).

    Each habit of the list is shown as a card ([habbit_row]): whether it
    is done today (the bar's colour, the struck-through name and the
    check mark, lines 148-162), its name, its stored frequency (line
    151), and the monthly progress line [completed/target unit
    (percentage%)] with a bar of that width (lines 166-175).  After the
    cards comes "No habits tracked yet" when the list is empty and not
    loading (lines 179-183).

    The unit word of the progress line tests [frequency === 'daily']
    while the target tests [frequency === 'weekly'] (lines 137 and 170):
    a habit whose frequency is stored as [null], which the schema lets a
    POST create, is counted against the days of the month but labelled
    in weeks. *)

From stdpp Require Import base list strings.
From Stdlib Require Import ZArith Lia String.
From S2P Require Import Prelude Text Calendar Store Models World Habits HabitStats HabitView.

Open Scope Z_scope.

Module HabbitRows.
Import HabbitTracker HabbitList Habits.HabitRoute.

(** One habit's card. *)
Record row := mk_row {
  row_key : oid;        (** [key={habbit._id}], line 145 *)
  row_done : bool;      (** lines 148, 150, 156-162 *)
  row_name : string;    (** line 150 *)
  row_freq : string;    (** line 151 *)
  row_count : Z;        (** line 170 *)
  row_target : Z;
  row_unit : string;
  row_percent : Z       (** lines 170 and 173 *)
}.

(** [{habbit.frequency}], line 151: React renders a [null] as nothing. *)
Definition freq_text (f : option Frequency) : string :=
  match f with Some f => freq_string f | None => ""%string end.

(** The unit word, line 170. *)
Definition unit_label (f : option Frequency) : string :=
  (if bool_decide (f = Some Daily) then "days" else "weeks")%string.

(** The progress line, line 170, and the bar's [width], line 173. *)
Definition progress_text (r : row) : string :=
  (js_int_string (row_count r) +:+ "/" +:+ js_int_string (row_target r) +:+ " " +:+ row_unit r +:+
   " (" +:+ js_int_string (row_percent r) +:+ "%)")%string.

Definition bar_width (r : row) : string := (js_int_string (row_percent r) +:+ "%")%string.

(** The add form, lines 92-110: the name input's and the select's
    values. *)
Record add_form := mk_form { name_value : string; freq_value : string }.

Definition render_form (v : view) : add_form := mk_form (newHabbitName v) (freq_string (newHabbitFreq v)).

Section rows.
(** The browser's offset from UTC and its [new Date()]. *)
Context (ctz now : Z).

(** One card, lines 115-177. *)
Definition habbit_row (h : oid * Habbit.t) : row :=
  let ds := Habbit.completedDates h.2 in
  mk_row h.1 (isCompletedToday ctz now ds) (Habbit.name h.2) (freq_text (Habbit.frequency h.2))
    (completedThisMonth ctz now ds) (target ctz now (Habbit.frequency h.2))
    (unit_label (Habbit.frequency h.2)) (percentage ctz now h.2).

(** The list, lines 113-183: the cards in the order of [habbits], and
    whether the empty message is shown. *)
Definition render_list (v : view) : list row * bool :=
  (habbit_row <$> habbits_shown v, bool_decide (habbits_shown v = []) && negb (loading v)).
End rows.

(** ** Lemmas *)

(** The unit word and the target of each stored frequency. *)
Lemma row_unit_target ctz now h :
  let r := habbit_row ctz now h in
  (Habbit.frequency h.2 = Some Daily → row_unit r = "days"%string ∧ row_target r = get_date ctz now) ∧
  (Habbit.frequency h.2 = Some Weekly →
     row_unit r = "weeks"%string ∧ row_target r = (get_date ctz now + 6) / 7) ∧
  (Habbit.frequency h.2 = None → row_unit r = "weeks"%string ∧ row_target r = get_date ctz now).
Proof.
  simpl. unfold unit_label, target.
  split_and!; intros ->; (split; [|]); (rewrite bool_decide_true by done) || (rewrite bool_decide_false by done);
    done.
Qed.

(** A POST with a non-empty name and [frequency: null] stores the
    habit with a [null] frequency. *)
Lemma POST_null_frequency s uid w n :
  session_user s = Some uid → n ≠ ""%string →
  ∃ w', run (POST s (Some (mk_post (JStr n) JNull))) w =
          (Json 200 (next_oid w, Habbit.mk uid n None [] (clock_now w) (clock_now w)), w').
Proof.
  intros Hs Hn. destruct (POST_run_valid s uid w (mk_post (JStr n) JNull) n None Hs) as (w' & Hrun & _).
  - unfold Habbit.validate, cast_string, required_string, Habbit.cast_frequency. simpl.
    by rewrite bool_decide_false.
  - by exists w'.
Qed.

(** ** Properties *)

(** C22. A habit created by a POST with [frequency: null], which the
    handler accepts, is listed with no frequency, a progress line in
    "weeks", and the daily target (the days of the month so far); from
    the 2nd of a month on that target is not the weekly one the unit
    names. *)
Theorem null_frequency_row_unit ctz now s uid w n :
  session_user s = Some uid → n ≠ ""%string →
  ∃ h w', run (POST s (Some (mk_post (JStr n) JNull))) w = (Json 200 (next_oid w, h), w') ∧
    let r := habbit_row ctz now (next_oid w, h) in
    row_freq r = ""%string ∧ row_unit r = "weeks"%string ∧ row_target r = get_date ctz now ∧
    (2 ≤ get_date ctz now → row_target r ≠ target ctz now (Some Weekly)).
Proof.
  intros Hs Hn. destruct (POST_null_frequency s uid w n Hs Hn) as [w' Hrun].
  eexists _, w'. split; [exact Hrun|].
  destruct (proj2 (proj2 (row_unit_target ctz now
              (next_oid w, Habbit.mk uid n None [] (clock_now w) (clock_now w)))) eq_refl) as [Hu Ht].
  split_and!; [done|done|done|].
  intros H2. rewrite Ht. unfold target. rewrite bool_decide_true by done.
  pose proof (get_date_range ctz now). intros Heq.
  pose proof (Z.mul_div_le (get_date ctz now + 6) 7 ltac:(lia)). lia.
Qed.

(** ** Witnesses *)

(** "Stretch" posted with [frequency: null] on 2024-03-15: 15 days
    labelled weeks. *)
Lemma null_frequency_row_unit_witness :
  ∃ h w', run (POST (Some (Some 1%N)) (Some (mk_post (JStr "Stretch") JNull))) demo_world =
            (Json 200 (next_oid demo_world, h), w') ∧
    let r := habbit_row 0 mar15_noon (next_oid demo_world, h) in
    row_freq r = ""%string ∧ row_unit r = "weeks"%string ∧ row_target r = get_date 0 mar15_noon ∧
    (2 ≤ get_date 0 mar15_noon → row_target r ≠ target 0 mar15_noon (Some Weekly)).
Proof. apply (null_frequency_row_unit 0 mar15_noon _ 1); [reflexivity|discriminate]. Defined.
End HabbitRows.
