(* ===== verification/DashboardData.v ===== *)
(** * The dashboard's data: [src/app/page.tsx], lines 13-85 and 163-397

    The page's state besides the live clock of [Dashboard]: the body of
    the last streak GET ([streakData]), the journal entries shown, the
    text typed for a new entry, [loading], the router's history, and the
    clock state ([StreakClock.page]).  Its handlers are composed with the
    routes they call ([Streak.StreakRoute.GET]/[POST], [Journals.JournalRoute.GET]/
    [POST]) through [fetch]; setting [streakData] runs the effect of
    lines 128-133 ([StreakClock.on_streak_data]).

    [fetchStreak] starts [fetchJournals] without awaiting it; the final
    state is the same in either order of the two answers, because they
    set different fields. *)

From stdpp Require Import base list strings sorting.
From Stdlib Require Import ZArith Lia String.
From S2P Require Import Prelude Calendar Store Models World Streak Journals Dashboard.

Open Scope Z_scope.

Module DashboardPage.
Import StreakClock.

(** [useSession().status]. *)
Inductive auth_status := AuthLoading | Unauthenticated | Authenticated.

Record dash := mk_dash {
  streakData : option Streak.StreakRoute.status_body;
  journals_shown : list (oid * Journal.t);
  journalContent : string;
  loading : bool;
  pushed : list string;
  clock_page : page
}.

(** Lines 16-19 and 101-103. *)
Definition init : dash := mk_dash None [] "" true [] (mk_page None None zero_elapsed).

Definition set_journals_shown (d : dash) (js : list (oid * Journal.t)) : dash :=
  mk_dash (streakData d) js (journalContent d) (loading d) (pushed d) (clock_page d).
Definition set_loading (d : dash) (b : bool) : dash :=
  mk_dash (streakData d) (journals_shown d) (journalContent d) b (pushed d) (clock_page d).
Definition set_content (d : dash) (c : string) : dash :=
  mk_dash (streakData d) (journals_shown d) c (loading d) (pushed d) (clock_page d).
Definition set_clock_page (d : dash) (p : page) : dash :=
  mk_dash (streakData d) (journals_shown d) (journalContent d) (loading d) (pushed d) p.

(** [setStreakData(data)], then the [streakData] effect, lines 128-133. *)
Definition set_streakData (d : dash) (b : Streak.StreakRoute.status_body) : dash :=
  mk_dash (Some b) (journals_shown d) (journalContent d) (loading d) (pushed d)
    (on_streak_data (Streak.StreakRoute.startDate b) (clock_page d)).

Section handlers.
Context (s : session).

(** [fetchJournals], lines 44-54. *)
Definition fetchJournals (n : net) (w : World) (d : dash) : World * dash :=
  let '(r, w') := fetch n (Journals.JournalRoute.GET s) w in
  (w', match r ≫= ok_json with Some data => set_journals_shown d data | None => d end).

(** [fetchStreak], lines 29-42: [n1] carries the streak GET, [n2] the
    journal GET; a rejected [fetch] skips [fetchJournals]. *)
Definition fetchStreak (n1 n2 : net) (w : World) (d : dash) : World * dash :=
  let '(r, w1) := fetch n1 (Streak.StreakRoute.GET s) w in
  match r with
  | None => (w1, set_loading d false)
  | Some r' =>
      let d1 := match ok_json r' with Some data => set_streakData d data | None => d end in
      let '(w2, d2) := fetchJournals n2 w1 d1 in
      (w2, set_loading d2 false)
  end.

(** The session effect, lines 21-27. *)
Definition on_status (st : auth_status) (n1 n2 : net) (w : World) (d : dash) : World * dash :=
  match st with
  | Unauthenticated => (w, mk_dash (streakData d) (journals_shown d) (journalContent d) (loading d)
                              (pushed d ++ ["/login"]) (clock_page d))
  | Authenticated => fetchStreak n1 n2 w d
  | AuthLoading => (w, d)
  end%string.

(** [handleSaveJournal], lines 56-71. *)
Definition handleSaveJournal (n1 n2 : net) (w : World) (d : dash) : World * dash :=
  if is_blank (journalContent d) then (w, d)
  else
    let '(r, w1) := fetch n1 (Journals.JournalRoute.POST s (Some (JStr (journalContent d)))) w in
    match r with
    | Some r' => if res_ok r' then fetchJournals n2 w1 (set_content d "") else (w1, d)
    | None => (w1, d)
    end.

(** [handleReset], lines 73-85: [confirmed] is the answer to
    [confirm(...)]; [n1] carries the POST, [n2] and [n3] the refetch. *)
Definition handleReset (confirmed : bool) (n1 n2 n3 : net) (w : World) (d : dash) : World * dash :=
  if negb confirmed then (w, d)
  else
    let '(r, w1) := fetch n1 (Streak.StreakRoute.POST s) w in
    match r with
    | Some r' => if res_ok r' then fetchStreak n2 n3 w1 (set_clock_page d (reset_ok (clock_page d)))
                 else (w1, d)
    | None => (w1, d)
    end.

(** The journal box's [onChange], line 324. *)
Definition onJournalChange (d : dash) (v : string) : dash := set_content d v.

(** The Sign out button, lines 188-191: [localStorage.removeItem] drops
    the cached start, and [signOut()] ends the session, whose effect
    (lines 21-27) sends the router to [/login]. *)
Definition signOutClick (w : World) (d : dash) : World * dash :=
  let p := clock_page d in
  on_status Unauthenticated Down Down w (set_clock_page d (mk_page (startDateRef p) None (shown p))).

(** A new load of the page in the same browser: the component state
    starts over (lines 16-19 and 101-103) and only [localStorage]
    is kept. *)
Definition reload (d : dash) : dash :=
  mk_dash None [] "" true (pushed d) (mk_page None (cached (clock_page d)) zero_elapsed).

(** The page loaded at [now] with the session [s] authenticated: the
    mount effect reads the cache (lines 106-125) before the answers of
    the [fetchStreak] that the session effect starts arrive. *)
Definition visit (now : Z) (n1 n2 : net) (w : World) (d : dash) : World * dash :=
  let d0 := reload d in
  fetchStreak n1 n2 w (set_clock_page d0 (mount now (clock_page d0))).
End handlers.

(** What the page renders, lines 163-167. *)
Inductive screen := LoadingScreen | Blank | Shown.

Definition render (st : auth_status) (signed_in : bool) (mounted : bool) (d : dash) : screen :=
  if (match st with AuthLoading => true | _ => false end) || loading d || negb mounted then LoadingScreen
  else if negb signed_in then Blank
  else Shown.

(** The history table, lines 377-397: the resets newest first, or the
    empty message ([None]). *)
Definition history_rows (d : dash) : option (list Z) :=
  match streakData d with
  | Some b => if bool_decide (Streak.StreakRoute.history b = []) then None
              else Some (reverse (Streak.StreakRoute.history b))
  | None => None
  end.

(** ** Lemmas *)

Lemma fetchJournals_Up s uid w d :
  session_user s = Some uid →
  fetchJournals s Up w d = (w, set_journals_shown d (query (owned_by uid) Desc None (journals w))).
Proof. intros Hs. unfold fetchJournals, fetch, Journals.JournalRoute.GET. rewrite Hs. by mrun. Qed.

Lemma fetchStreak_no_data s n1 n2 w d :
  (fetch n1 (Streak.StreakRoute.GET s) w).1 ≫= ok_json = None →
  loading (fetchStreak s n1 n2 w d).2 = false ∧ streakData (fetchStreak s n1 n2 w d).2 = streakData d ∧
  clock_page (fetchStreak s n1 n2 w d).2 = clock_page d.
Proof.
  unfold fetchStreak. destruct (fetch n1 _ w) as [[r|] w1]; simpl; intros Hr; [|done].
  rewrite Hr. unfold fetchJournals. destruct (fetch n2 _ w1) as [r2 w2].
  by destruct (r2 ≫= ok_json).
Qed.

(** ** Properties *)

(** A confirmed reset, once its refetch has answered, shows the new
    streak: the page's streak data is the new start (the reset's second
    clock reading) with the days and hours elapsed since it at the
    GET's reading, the history table starts with the reset time just
    recorded followed by the earlier resets newest first, the live clock
    counts from the new start (ref and cache), the journal list is the
    user's entries, and the page is no longer loading. *)
Theorem reset_refetch_shows_new_streak s uid w d u :
  session_user s = Some uid → clock_in_range w → clock_mono w → find_by_id (users w) uid = Some u →
  let wd := handleReset s true Up Up Up w d in
  streakData wd.2 =
    Some (Streak.StreakRoute.mk_status ((clock_at w 3 - clock_at w 1) / msPerDay)
            ((clock_at w 3 - clock_at w 1) / msPerHour) (Some (clock_at w 1))
            (User.history u ++ [clock_at w 0])) ∧
  0 ≤ (clock_at w 3 - clock_at w 1) / msPerDay ∧
  history_rows wd.2 = Some (clock_at w 0 :: reverse (User.history u)) ∧
  startDateRef (clock_page wd.2) = Some (Some (clock_at w 1)) ∧
  cached (clock_page wd.2) = Some (Some (clock_at w 1)) ∧
  journals_shown wd.2 = query (owned_by uid) Desc None (journals w) ∧
  loading wd.2 = false.
Proof.
  intros Hs Hr Hm Hu.
  set (u' := User.touch (User.set_start (User.set_history u (push (User.history u) (clock_at w 0)))
                           (Some (clock_at w 1))) (clock_at w 2)).
  set (w1 := set_users (advance w 3) (replace_by_id (users w) uid u')).
  assert (clock_in_range w1) as Hr1 by (intros i; apply Hr).
  assert (time_clip (clock_at w 1) = Some (clock_at w 1)) as Hc by apply (time_clip_clock w _ Hr).
  assert (clock_now w1 = clock_at w 3) as Hnow by done.
  assert (handleReset s true Up Up Up w d =
            fetchStreak s Up Up w1 (set_clock_page d (reset_ok (clock_page d)))) as ->.
  { unfold handleReset, fetch. by rewrite (Streak.StreakRoute.POST_run s w uid Hs u Hu). }
  unfold fetchStreak, fetch.
  rewrite (Streak.StreakRoute.GET_run_valid s w1 uid Hs u' (clock_at w 1)); [|by eapply find_by_id_replace_eq|done|done].
  rewrite Hnow, Z.abs_eq by (pose proof (clock_at_le w 1 3 Hm); lia).
  simpl. rewrite fetchJournals_Up with (uid := uid) by done. simpl.
  split_and!; try done.
  - apply Z.div_pos; [pose proof (clock_at_le w 1 3 Hm); lia|done].
  - unfold history_rows. simpl. unfold push. rewrite bool_decide_false by (by destruct (User.history u)).
    by rewrite reverse_snoc.
Qed.

(** Saving a journal entry: a blank text sends nothing and changes
    nothing; otherwise, with the POST and the refetch delivered, the
    entry is stored with the text typed, the text box is cleared, and
    the list shown is the user's entries newest first, the new one
    among them. *)
Theorem save_journal_shown s uid w d :
  session_user s = Some uid →
  (is_blank (journalContent d) = true → handleSaveJournal s Up Up w d = (w, d)) ∧
  (is_blank (journalContent d) = false →
   let wd := handleSaveJournal s Up Up w d in
   journalContent wd.2 = ""%string ∧
   journals_shown wd.2 = query (owned_by uid) Desc None (journals wd.1) ∧
   Sorted (sort_rel Desc) (journals_shown wd.2) ∧
   (next_oid w, Journal.mk uid (journalContent d) (clock_now w) (clock_now w)) ∈ journals_shown wd.2).
Proof.
  intros Hs. split; [intros Hb; unfold handleSaveJournal; by rewrite Hb|intros Hb].
  destruct (Journals.JournalProps.POST_run_content s uid w (journalContent d) Hs) as (w' & Hrun & Hw').
  { intros Hn. rewrite Hn in Hb. done. }
  assert (handleSaveJournal s Up Up w d =
            (w', set_journals_shown (set_content d "") (query (owned_by uid) Desc None (journals w'))))
    as ->.
  { unfold handleSaveJournal. rewrite Hb. unfold fetch at 1. rewrite Hrun. simpl.
    by apply fetchJournals_Up. }
  simpl. split_and!; [done|done|apply query_sorted|].
  rewrite Hw', query_none_elem. split; [|by apply bool_decide_true].
  apply elem_of_app. right. by constructor.
Qed.

(** C26. The cached streak start outlives the session: when a session
    ends without the Sign out button (the status turns unauthenticated)
    and the page is loaded again by a signed-in user whose streak GET
    gives no data (a failed request, or an error status), the dashboard
    is shown counting from the start cached by the earlier session.
    The Sign out button sends the router to [/login] and removes the
    cache, after which the same load shows no start and zero. *)
Theorem cached_streak_outlives_session s s' n1 n2 w d now st :
  cached (clock_page d) = Some (Some st) → st ≤ now →
  (fetch n1 (Streak.StreakRoute.GET s') w).1 ≫= ok_json = None →
  let v1 := (visit s' now n1 n2 w (on_status s Unauthenticated Up Up w d).2).2 in
  let d2 := (signOutClick s w d).2 in
  let v2 := (visit s' now n1 n2 w d2).2 in
  render Authenticated true true v1 = Shown ∧ streakData v1 = None ∧
  startDateRef (clock_page v1) = Some (Some st) ∧ shown (clock_page v1) = split_diff (now - st) ∧
  last (pushed d2) = Some "/login"%string ∧
  render Authenticated true true v2 = Shown ∧ startDateRef (clock_page v2) = None ∧
  shown (clock_page v2) = zero_elapsed.
Proof.
  intros Hc Hle Hr. unfold visit.
  destruct (fetchStreak_no_data s' n1 n2 w
              (set_clock_page (reload (on_status s Unauthenticated Up Up w d).2)
                 (mount now (clock_page (reload (on_status s Unauthenticated Up Up w d).2)))) Hr)
    as (Hl1 & Hs1 & Hp1).
  destruct (fetchStreak_no_data s' n1 n2 w
              (set_clock_page (reload (signOutClick s w d).2)
                 (mount now (clock_page (reload (signOutClick s w d).2)))) Hr)
    as (Hl2 & Hs2 & Hp2).
  unfold render. rewrite Hl1, Hs1, Hp1, Hl2, Hp2. cbn. rewrite Hc. cbn.
  rewrite (proj2 (Z.leb_le _ _)) by lia.
  split_and!; try done. by rewrite last_snoc.
Qed.

(** ** Witnesses *)

(** Ada (user 1 of [demo_streak_world], no reset yet) resets: the table
    shows one row, the first clock reading. *)
Lemma reset_refetch_shows_new_streak_witness :
  history_rows (handleReset (Some (Some 1%N)) true Up Up Up Streak.StreakRoute.demo_streak_world init).2 =
    Some [clock_at Streak.StreakRoute.demo_streak_world 0].
Proof.
  destruct (reset_refetch_shows_new_streak (Some (Some 1%N)) 1 Streak.StreakRoute.demo_streak_world init
              (User.register "ada@example.com" "hash" None 1690000000000)) as (_ & _ & Hrows & _);
    [done|by apply demo_clock_range|by apply demo_clock_mono|reflexivity|].
  exact Hrows.
Defined.

Lemma save_journal_shown_witness :
  (next_oid demo_world, Journal.mk 1 "Slept well" (clock_now demo_world) (clock_now demo_world))%string ∈
    journals_shown (handleSaveJournal (Some (Some 1%N)) Up Up demo_world (set_content init "Slept well")).2.
Proof.
  destruct (save_journal_shown (Some (Some 1%N)) 1 demo_world (set_content init "Slept well") eq_refl)
    as [_ Hsave].
  exact (proj2 (proj2 (proj2 (Hsave eq_refl)))).
Defined.

(** Ada's start cached by an earlier session, no network at the next
    load: the page counts from it. *)
Lemma cached_streak_outlives_session_witness :
  let d := set_clock_page init (mk_page (Some (Some 1690000000000)) (Some (Some 1690000000000)) zero_elapsed) in
  shown (clock_page (visit (Some (Some 2%N)) 1700000000000 Down Down demo_world
                       (on_status (Some (Some 1%N)) Unauthenticated Up Up demo_world d).2).2) =
    split_diff (1700000000000 - 1690000000000).
Proof.
  intros d.
  destruct (cached_streak_outlives_session (Some (Some 1%N)) (Some (Some 2%N)) Down Down demo_world d
              1700000000000 1690000000000) as (_ & _ & _ & Hshown & _); [reflexivity|lia|reflexivity|].
  exact Hshown.
Defined.

End DashboardPage.
