(* ===== verification/DashboardView.v ===== *)
(** * What the dashboard shows: [src/app/page.tsx], lines 163-405

    The render of [Home] as a record of what it displays: the loading
    screen and the [null] of a missing session (lines 163-167), the
    greeting (line 185), the streak card (the days, and the hours,
    minutes and seconds padded to two characters, lines 213-233, with
    the bar's width, line 240), the next milestone and the progress
    percentage [Math.round(getProgress(...))] (lines 266-280), the
    journal box and the list of entries or its empty message (lines
    320-366), and the reset table or its empty message (lines 377-404).

    Numbers are printed with [Number.prototype.toString]: an integer, or
    "NaN" for the [NaN] of an invalid date ([None]).  [Math.round(x)] is
    [floor(x + 1/2)], on the exact rationals [getProgress] returns.
    Dates in the lists are the time values [toLocaleDateString] and
    [toLocaleTimeString] format; the locale's formatting is not modelled.

    The theorem: the percentage shown is in [[0, 100]], and it shows
    100 exactly from day 564 on, while the bar (which never clamps) is
    still short of full and the next milestone is always the next day. *)

From stdpp Require Import base list strings.
From Stdlib Require Import ZArith QArith Qround Qminmax Lqa Lia Ascii String.
From S2P Require Import Prelude Text Store Models Streak Dashboard DashboardData.

Open Scope Z_scope.

Module DashboardView.
Import StreakClock DashboardPage.

(** [{x}] and [x.toString()] of a number that may be [NaN]. *)
Definition js_num_string (o : option Z) : string :=
  match o with Some z => js_int_string z | None => "NaN"%string end.

(** [x.toString().padStart(2, '0')], lines 223, 227 and 231. *)
Definition counter_text (o : option Z) : string := pad_start 2 "0"%char (js_num_string o).

(** [Math.round]: the nearest integer, halves rounded up. *)
Definition js_round (q : Q) : Z := Qfloor (q + (1 # 2))%Q.

(** [Math.round(getProgress(elapsed.days))], line 277. *)
Definition shown_percent (days : option Z) : Z := js_round (getProgress days).

(** [getNextMilestone(elapsed.days)], line 269: with [NaN] days no
    milestone is above, and [NaN + 1] is printed. *)
Definition next_text (days : option Z) : string :=
  match days with Some d => js_int_string (getNextMilestone d) | None => "NaN"%string end.

(** [session.user?.name || 'Friend'], line 185. *)
Definition greeting (name : option string) : string :=
  ("Hello, " +:+ match name with Some n => if String.eqb n "" then "Friend" else n | None => "Friend" end)%string.

(** A journal entry, lines 344-358: its key, the time value its date
    and time are printed from, and its text. *)
Record journal_row := mk_jrow { jkey : oid; jwhen : Z; jtext : string }.

Definition journal_row_of (j : oid * Journal.t) : journal_row :=
  mk_jrow j.1 (Journal.createdAt j.2) (Journal.content j.2).

(** The entries panel, lines 341-366: the rows, and whether the empty
    message is shown instead. *)
Definition journal_panel (d : dash) : list journal_row * bool :=
  (journal_row_of <$> journals_shown d, bool_decide (journals_shown d = [])).

(** The reset table, lines 377-404: its rows keyed by their index in the
    reversed history, or the empty message ([None]). *)
Definition history_panel (d : dash) : option (list (nat * Z)) := imap pair <$> history_rows d.

Record page_view := mk_view {
  hello : string;                         (** line 185 *)
  days_text : string;                     (** line 215 *)
  hours_text : string;                    (** line 223 *)
  mins_text : string;                     (** line 227 *)
  secs_text : string;                     (** line 231 *)
  bar_width : Q;                          (** line 240 *)
  milestone_text : string;                (** line 269 *)
  percent_text : string;                  (** line 277 *)
  progress_value : Q;                     (** line 279 *)
  journal_box : string;                   (** line 323 *)
  journal_list : list journal_row;        (** lines 343-359 *)
  journals_empty : bool;                  (** lines 341 and 360-366 *)
  history_table : option (list (nat * Z)) (** lines 377-404: key [i] and the reset's time *)
}.

(** The page of lines 169-412 for the signed-in user [name]. *)
Definition page (name : option string) (d : dash) : page_view :=
  let e := shown (clock_page d) in
  mk_view (greeting name) (js_num_string (days e)) (counter_text (hours e))
    (counter_text (minutes e)) (counter_text (seconds e)) (getProgress (days e))
    (next_text (days e)) (js_int_string (shown_percent (days e)) +:+ "%")%string
    (getProgress (days e)) (journalContent d) (journal_panel d).1 (journal_panel d).2
    (history_panel d).

Inductive view := ViewLoading | ViewNull | ViewPage (v : page_view).

(** Lines 163-169: [user] is the session's user, with its name. *)
Definition render_page (st : auth_status) (user : option (option string)) (mounted : bool) (d : dash) : view :=
  if (match st with AuthLoading => true | _ => false end) || loading d || negb mounted then ViewLoading
  else match user with None => ViewNull | Some name => ViewPage (page name d) end.

(** ** Lemmas *)

#[export] Instance js_round_proper : Proper (Qeq ==> eq) js_round.
Proof. intros q q' Hq. unfold js_round. by rewrite Hq. Qed.

(** The screen is the one [DashboardPage.render] chooses. *)
Lemma render_page_screen st user mounted d :
  render st (bool_decide (is_Some user)) mounted d =
    match render_page st user mounted d with
    | ViewLoading => LoadingScreen | ViewNull => Blank | ViewPage _ => Shown
    end.
Proof. unfold render, render_page. by destruct (_ || _ || _), user. Qed.

(** [Math.round] of a ratio of integers [a / b * 100], as an integer
    division. *)
Lemma js_round_ratio a b :
  0 < b → js_round (inject_Z a / inject_Z b * 100) = (200 * a + b) / (2 * b).
Proof.
  intros Hb. destruct b as [|p|p]; [lia| |lia].
  assert (inject_Z a / inject_Z (Z.pos p) * 100 == (100 * a) # p)%Q as Heq.
  { unfold Qeq, Qdiv, Qmult, Qinv. simpl. lia. }
  unfold js_round. rewrite Heq. simpl. f_equal; lia.
Qed.

(** Past a year, the progress toward the next day's milestone. *)
Lemma progress_large d :
  365 < d → getProgress (Some d) == (inject_Z (d - 365) / inject_Z (d + 1 - 365) * 100)%Q.
Proof.
  intros Hd. unfold getProgress. destruct (milestone_large d Hd) as [-> ->].
  rewrite (proj2 (Z.eqb_neq _ _)) by lia.
  destruct (ratio_percent_bounds (d - 365) (d + 1 - 365) ltac:(lia)) as [H0 H1].
  rewrite Q.max_r by done. apply Q.min_r. by apply Qlt_le_weak.
Qed.

Definition percent_small_ok (d : Z) : bool :=
  (0 <=? shown_percent (Some d)) && (shown_percent (Some d) <? 100).

Lemma percent_small : forall_from 366 0 percent_small_ok = true.
Proof. vm_compute. reflexivity. Qed.

(** ** Properties *)

(** C34. For every day count [d >= 0] the progress percentage the page
    shows ([Math.round(getProgress(d))]) is between 0 and 100, and it
    is 100 exactly when [d >= 564]: from then on the stats card reads
    100% although the next milestone is always one day away. *)
Theorem shown_percent_full d :
  0 ≤ d → 0 ≤ shown_percent (Some d) ≤ 100 ∧ (shown_percent (Some d) = 100 ↔ 564 ≤ d).
Proof.
  intros Hd. destruct (Z.le_gt_cases d 365) as [Hs|Hl].
  - pose proof (forall_from_spec _ _ _ percent_small d ltac:(lia)) as Hok.
    unfold percent_small_ok in Hok. apply andb_prop in Hok as [H0 H1]. zbool. lia.
  - unfold shown_percent. rewrite (progress_large d Hl), js_round_ratio by lia.
    assert (0 ≤ (200 * (d - 365) + (d + 1 - 365)) / (2 * (d + 1 - 365))) by (apply Z.div_pos; lia).
    assert ((200 * (d - 365) + (d + 1 - 365)) / (2 * (d + 1 - 365)) < 101)
      by (apply Z.div_lt_upper_bound; lia).
    split; [lia|split; intros Hr].
    + assert (100 * (2 * (d + 1 - 365)) ≤ 200 * (d - 365) + (d + 1 - 365)); [|lia].
      rewrite <- Hr, Z.mul_comm. apply Z.mul_div_le. lia.
    + apply Z.le_antisymm; [lia|]. apply Z.div_le_lower_bound; lia.
Qed.

(** ** Witnesses *)

(** Day 564 shows 100%, day 563 shows 99%. *)
Lemma shown_percent_full_witness :
  shown_percent (Some 564) = 100 ∧ shown_percent (Some 563) = 99 ∧
  (0 ≤ shown_percent (Some 564) ≤ 100 ∧ (shown_percent (Some 564) = 100 ↔ 564 ≤ 564)).
Proof. split; [reflexivity|split; [reflexivity|]]. apply shown_percent_full. lia. Defined.
End DashboardView.
