(* ===== verification/Interleavings.v ===== *)
(** * Concurrent requests: what [save()] writes, and two interleaved requests
    (habit PUTs, streak resets, gratitude toggles)

    A route handler is not atomic: the habit PUT
    ([src/app/api/habits/route.ts], lines 43-79) makes two database
    round trips, [Habbit.findById] (line 53, the read) and
    [habbit.save()] (line 76, the write), and Node.js runs other requests
    between them; so does the streak POST
    ([src/app/api/streak/route.ts], lines 62-85: [User.findById] at line
    71, [user.save()] at line 82).  Two requests on one document (two
    tabs, two devices, a double click) are two reads and two writes, in
    any order that keeps each request's read before its write: the
    interleavings of [[RdA; WrA]] and [[RdB; WrB]].

    [save()] of a document loaded earlier does not write the document
    back: Mongoose sends the changes made in memory ([Model.$__delta]).
    [arr.push(x)] registers an atomic [$push] of [x]; [arr.splice(...)]
    a [$set] of the whole array; an assignment to a scalar path a
    [$set] of it; timestamps add a [$set] of [updatedAt].  The version
    key [__v] is incremented by both array operations, and a [$set] of
    an array also puts the version the document was loaded at into the
    update's filter, so that such a save on a document another save has
    changed since matches nothing and throws a [VersionError].  Module
    [Delta] models this for [completedDates]; a write step applies the
    operation its request computed to the document as stored when the
    write runs.

    When nothing runs between a request's read and its write the store
    is the one the sequential handler of [Habits] or [Streak] gives,
    which is why the rest of the development runs handlers as single
    steps. *)

From stdpp Require Import base list strings.
From Stdlib Require Import ZArith Lia.
From S2P Require Import Prelude Calendar Store Models World Streak Habits Gratitudes.

Open Scope Z_scope.

(** ** Schedules of two requests *)

Inductive req_step := RdA | WrA | RdB | WrB.

#[global] Instance step_eq_dec : EqDecision req_step.
Proof. solve_decision. Defined.

(** Interleavings of two sequences. *)
Inductive interleaving {A} : list A → list A → list A → Prop :=
| il_nil : interleaving [] [] []
| il_left x l1 l2 l : interleaving l1 l2 l → interleaving (x :: l1) l2 (x :: l)
| il_right x l1 l2 l : interleaving l1 l2 l → interleaving l1 (x :: l2) (x :: l).

(** The two schedules in which one request's read follows the other's
    write. *)
Definition serial (l : list req_step) : Prop := l = [RdA; WrA; RdB; WrB] ∨ l = [RdB; WrB; RdA; WrA].

#[global] Instance serial_dec l : Decision (serial l).
Proof. unfold serial. apply _. Defined.

(** The write that comes first in a schedule. *)
Fixpoint first_writer (l : list req_step) : option req_step :=
  match l with
  | [] => None
  | WrA :: _ => Some WrA
  | WrB :: _ => Some WrB
  | _ :: l' => first_writer l'
  end.

Lemma interleavings_two_two {A} (a1 a2 b1 b2 : A) l :
  interleaving [a1; a2] [b1; b2] l →
  l = [a1; a2; b1; b2] ∨ l = [a1; b1; a2; b2] ∨ l = [a1; b1; b2; a2] ∨
  l = [b1; a1; a2; b2] ∨ l = [b1; a1; b2; a2] ∨ l = [b1; b2; a1; a2].
Proof. intros H. repeat match goal with H : interleaving _ _ _ |- _ => inv H end; naive_solver. Qed.

(** ** The update [habbit.save()] sends for the toggle *)

Module Delta.
Import Habits.Toggle.

(** The change registered on [completedDates]. *)
Inductive arr_op := OpPush (x : Z) | OpSet (xs : list Z).

(** The operation applied by the database to the stored array. *)
Definition apply_op (op : arr_op) (xs : list Z) : list Z :=
  match op with
  | OpPush x => push xs x
  | OpSet ys => ys
  end.

(** A [$set] of the array filters on the loaded [__v]. *)
Definition op_versioned (op : arr_op) : bool :=
  match op with OpSet _ => true | OpPush _ => false end.

(** Lines 58-74 as the change they register: [splice] on the loaded
    list (a [$set] of what is left), or [push] of the target (a
    [$push]); pushing an invalid date throws when Mongoose casts it. *)
Definition toggle_op (tzo : Z) (target : option Z) (ds : list Z) : result arr_op :=
  let existingIndex :=
    findIndex (λ d, time_eqb (set_hours_start tzo (time_clip d)) target) ds in
  if -1 <? existingIndex then Ok (OpSet (splice1 ds existingIndex))
  else match target with
       | Some t => Ok (OpPush t)
       | None => Err (CastError "completedDates")
       end%string.

(** The change applied to the list it was computed on is the toggle. *)
Lemma toggle_op_apply tzo target ds :
  toggle tzo target ds =
    match toggle_op tzo target ds with Ok op => Ok (apply_op op ds) | Err e => Err e end.
Proof. unfold toggle, toggle_op. case_match; [done|]. by destruct target. Qed.

Section target.
Context (tzo t m : Z).
Hypothesis Hm : set_hours_start tzo (Some t) = Some m.

(** A day not completed is pushed. *)
Lemma toggle_op_absent ds :
  day_set tzo ds → local_day tzo t ∉ days tzo ds →
  toggle_op tzo (set_hours_start tzo (Some t)) ds = Ok (OpPush m).
Proof.
  intros Hds Hnot. unfold toggle_op. rewrite Hm. fold (same_day tzo m).
  by rewrite (proj2 (same_day_absent tzo t m Hm ds Hds) Hnot).
Qed.

(** A day just pushed is spliced out again: the [$set] of the list
    before the push. *)
Lemma toggle_op_pushed ds :
  day_set tzo ds → local_day tzo t ∉ days tzo ds →
  toggle_op tzo (set_hours_start tzo (Some t)) (ds ++ [m]) = Ok (OpSet ds).
Proof.
  intros Hds Hnot. unfold toggle_op. rewrite Hm. fold (same_day tzo m).
  rewrite findIndex_snoc.
  - rewrite (proj2 (Z.ltb_lt _ _)) by lia. change (ds ++ [m]) with (push ds m).
    by rewrite splice1_push.
  - apply findIndex_none, (same_day_absent tzo t m Hm ds Hds), Hnot.
  - apply (same_day_spec tzo t m Hm m (midnight_target tzo t m Hm)), (local_day_target tzo t m Hm).
Qed.
End target.
End Delta.

(** ** Two PUTs on one habit *)

Module ConcurrentPUT.
Import Habits.Toggle Habits.HabitRoute Delta.

(** The store, the stored [__v] of the habit, the document and
    version each request has loaded, and the number of requests whose
    handler threw (answered 500). *)
Record conc := mk_conc {
  cw : World;
  ver : nat;
  loadedA : option (Habbit.t * nat);
  loadedB : option (Habbit.t * nat);
  errors : nat
}.

Definition set_cw (c : conc) (w : World) (v : nat) : conc := mk_conc w v (loadedA c) (loadedB c) (errors c).

(** A request whose handler threw, after [n] clock readings. *)
Definition throw_after (c : conc) (n : nat) : conc :=
  mk_conc (advance (cw c) n) (ver c) (loadedA c) (loadedB c) (S (errors c)).

Section concurrent.
(** The server's zone, the habit, and the dates of requests A and B. *)
Context (tzo : Z) (id : oid) (dateA dateB : option Z).

(** The write phase of PUT (lines 58-78) on the document [h] loaded at
    version [v]: the toggle's change is computed on [h], and [save()]
    (one clock reading for [updatedAt]) applies it to the document as
    stored.  A versioned change on a document saved since, or a
    document gone, matches nothing: the save throws and writes
    nothing. *)
Definition PUT_write (date : option Z) (h : Habbit.t) (v : nat) (c : conc) : conc :=
  match toggle_op tzo (set_hours_start tzo date) (Habbit.completedDates h) with
  | Err _ => throw_after c 0
  | Ok op =>
      match find_by_id (habbits (cw c)) id with
      | Some hs =>
          if op_versioned op && negb (bool_decide (v = ver c)) then throw_after c 1
          else
            set_cw c (set_habbits (tick (cw c)) (replace_by_id (habbits (cw c)) id
                        (Habbit.touch (Habbit.set_completedDates hs (apply_op op (Habbit.completedDates hs)))
                           (clock_now (cw c)))))
                   (S (ver c))
      | None => throw_after c 1
      end
  end.

Definition exec_step (c : conc) (st : req_step) : conc :=
  match st with
  | RdA => mk_conc (cw c) (ver c) ((λ h, (h, ver c)) <$> find_by_id (habbits (cw c)) id) (loadedB c) (errors c)
  | RdB => mk_conc (cw c) (ver c) (loadedA c) ((λ h, (h, ver c)) <$> find_by_id (habbits (cw c)) id) (errors c)
  | WrA => match loadedA c with Some (h, v) => PUT_write dateA h v c | None => c end
  | WrB => match loadedB c with Some (h, v) => PUT_write dateB h v c | None => c end
  end.

(** The state after the steps [l], from [w] with the habit at version
    [v], nothing loaded and no error; [exec] is its store. *)
Definition exec_conc (l : list req_step) (w : World) (v : nat) : conc :=
  fold_left exec_step l (mk_conc w v None None 0).

Definition exec (l : list req_step) (w : World) (v : nat) : World := cw (exec_conc l w v).

(** The habit's completion list in a store. *)
Definition completed (w : World) : option (list Z) :=
  Habbit.completedDates <$> find_by_id (habbits w) id.
End concurrent.

(** ** Lemmas *)

(** A write that matches: the change lands on the stored document. *)
Lemma PUT_write_found tzo id date c h v hs op :
  find_by_id (habbits (cw c)) id = Some hs →
  toggle_op tzo (set_hours_start tzo date) (Habbit.completedDates h) = Ok op →
  op_versioned op = false ∨ v = ver c →
  PUT_write tzo id date h v c =
    set_cw c (set_habbits (tick (cw c)) (replace_by_id (habbits (cw c)) id
                (Habbit.touch (Habbit.set_completedDates hs (apply_op op (Habbit.completedDates hs)))
                   (clock_now (cw c)))))
           (S (ver c)).
Proof.
  intros Hf Hop Hv. unfold PUT_write. rewrite Hop, Hf.
  destruct Hv as [-> | ->]; [done|]. by rewrite bool_decide_true, andb_false_r by done.
Qed.

(** A versioned write on a document saved since matches nothing: the
    save throws a [VersionError]. *)
Lemma PUT_write_stale tzo id date c h v hs op :
  find_by_id (habbits (cw c)) id = Some hs →
  toggle_op tzo (set_hours_start tzo date) (Habbit.completedDates h) = Ok op →
  op_versioned op = true → v ≠ ver c →
  PUT_write tzo id date h v c = throw_after c 1.
Proof. intros Hf Hop Hvd Hv. unfold PUT_write. rewrite Hop, Hf, Hvd. by rewrite bool_decide_false. Qed.

Lemma find_advance w id n : find_by_id (habbits (advance w n)) id = find_by_id (habbits w) id.
Proof. done. Qed.

(** A push on the stored document is what the sequential handler
    writes when the day is absent from it too. *)
Lemma PUT_write_push tzo s uid id t m c h v hs :
  session_user s = Some uid → find_by_id (habbits (cw c)) id = Some hs →
  set_hours_start tzo (Some t) = Some m →
  day_set tzo (Habbit.completedDates h) → local_day tzo t ∉ days tzo (Habbit.completedDates h) →
  day_set tzo (Habbit.completedDates hs) → local_day tzo t ∉ days tzo (Habbit.completedDates hs) →
  PUT_write tzo id (Some t) h v c =
    set_cw c (run (PUT tzo s (Some (mk_put (IdValid id) (Some t)))) (cw c)).2 (S (ver c)).
Proof.
  intros Hs Hf Hm Hds Hnot Hds' Hnot'.
  rewrite (PUT_write_found tzo id (Some t) c h v hs (OpPush m) Hf); [|by apply (toggle_op_absent tzo t m Hm)|by left].
  rewrite (PUT_run_found tzo s uid (cw c) id hs (Some t) (Habbit.completedDates hs ++ [m]) Hs Hf); [done|].
  by apply (toggle_absent tzo t m Hm).
Qed.

(** A day pushed by one request is absent from the other's view. *)
Lemma other_day_absent tzo tA tB mA ds :
  set_hours_start tzo (Some tA) = Some mA → local_day tzo tA ≠ local_day tzo tB →
  local_day tzo tB ∉ days tzo ds → local_day tzo tB ∉ days tzo (ds ++ [mA]).
Proof.
  intros HmA Hne Hnot. unfold days. rewrite fmap_app, fmap_cons, fmap_nil, elem_of_app,
    list_elem_of_singleton, (local_day_target tzo tA mA HmA). naive_solver.
Qed.

(** A list with one day booked twice is not a day set. *)
Lemma dup_not_day_set tzo ds m : ¬ day_set tzo (ds ++ [m; m]).
Proof.
  intros [_ Hnd]. unfold days in Hnd. rewrite fmap_app in Hnd.
  apply NoDup_app in Hnd as (_ & _ & Hnd). simpl in Hnd. apply NoDup_cons in Hnd as [Hn _].
  apply Hn. by constructor.
Qed.

(** A write lands on the document the store holds. *)
Lemma find_write w id hs X :
  find_by_id (habbits w) id = Some hs →
  find_by_id (habbits (set_habbits (tick w) (replace_by_id (habbits w) id X))) id = Some X.
Proof. intros Hf. by eapply find_by_id_replace_eq. Qed.

(** One step of a schedule: reduce the steps, then resolve a read or a
    write of the habit on the store as it is ([write_found] describes
    a write that matches, [write_stale] one that fails its version
    filter). *)
Ltac exec_steps :=
  cbv beta iota delta [set_cw throw_after];
  cbn [fold_left exec_step cw ver loadedA loadedB errors fmap option_fmap option_map
       Habbit.completedDates Habbit.touch Habbit.set_completedDates apply_op push].

Ltac find_tac := repeat eapply find_write; eassumption.

Ltac conc_step write_found write_stale :=
  exec_steps;
  first [ match goal with H : find_by_id (habbits ?w) ?id = Some _ |- context [find_by_id (habbits ?w) ?id] =>
            rewrite H end
        | erewrite find_write by find_tac
        | erewrite write_found;
          [ | cbn [cw ver]; find_tac
            | cbn [Habbit.completedDates Habbit.touch Habbit.set_completedDates]; eassumption
            | cbn [cw ver]; first [by left | by right] ]
        | erewrite write_stale;
          [ | cbn [cw ver]; find_tac
            | cbn [Habbit.completedDates Habbit.touch Habbit.set_completedDates]; eassumption
            | reflexivity
            | cbn [ver]; lia ] ].

(** The completion list after two PUTs of the same new day: unchanged
    in the serial schedules, the day pushed twice otherwise. *)
Lemma same_day_completed tzo id t m w v h l :
  find_by_id (habbits w) id = Some h → day_set tzo (Habbit.completedDates h) →
  set_hours_start tzo (Some t) = Some m → local_day tzo t ∉ days tzo (Habbit.completedDates h) →
  interleaving [RdA; WrA] [RdB; WrB] l →
  let ds := Habbit.completedDates h in
  let final := completed id (exec tzo id (Some t) (Some t) l w v) in
  (serial l → final = Some ds) ∧ (¬ serial l → final = Some (ds ++ [m; m])).
Proof.
  intros Hf Hds Hm Hnot Hil ds final.
  pose proof (toggle_op_absent tzo t m Hm _ Hds Hnot) as Hop.
  pose proof (toggle_op_pushed tzo t m Hm _ Hds Hnot) as Hop1.
  unfold final, completed, exec, exec_conc, serial.
  destruct (interleavings_two_two _ _ _ _ _ Hil) as [-> | [-> | [-> | [-> | [-> | -> ]]]]];
    repeat conc_step PUT_write_found PUT_write_stale; exec_steps; split; intros Hs.
  all: first [ exfalso; apply Hs; (by left) || (by right) | destruct Hs as [Hs|Hs]; discriminate Hs | idtac ].
  all: unfold push; by rewrite <- ?app_assoc.
Qed.

(** ** Properties *)

(** C11. Two PUTs toggling the same day, not yet completed, of one habit:
    in the two serial schedules the second request finds the day the
    first pushed and splices it out, so the list is as before; in the
    four interleavings where both read before either saves, both push
    the day ([$push] does not check the version), and the day is booked
    twice: [completedDates] is no longer a day set.  The specification
    (section 5) asks for one entry per day under concurrent toggles. *)
Theorem concurrent_toggles_duplicate_day tzo id t m w v h l :
  find_by_id (habbits w) id = Some h → day_set tzo (Habbit.completedDates h) →
  set_hours_start tzo (Some t) = Some m → local_day tzo t ∉ days tzo (Habbit.completedDates h) →
  interleaving [RdA; WrA] [RdB; WrB] l →
  let ds := Habbit.completedDates h in
  let final := completed id (exec tzo id (Some t) (Some t) l w v) in
  (serial l → final = Some ds) ∧
  (¬ serial l → final = Some (ds ++ [m; m]) ∧ ¬ day_set tzo (ds ++ [m; m])).
Proof.
  intros Hf Hds Hm Hnot Hil ds final.
  destruct (same_day_completed tzo id t m w v h l Hf Hds Hm Hnot Hil) as [Hser Hpar].
  split; [exact Hser|]. intros Hs. split; [exact (Hpar Hs)|apply dup_not_day_set].
Qed.

(** C13. Two PUTs toggling two different days, neither completed, of one
    habit are linearizable: whatever the interleaving of their reads and
    saves, the store is the one the two handlers give run one after the
    other, in the order of their saves; no day is lost, because each
    save sends a [$push] of its day. *)
Theorem concurrent_toggles_linearizable tzo s uid id tA tB mA mB w v h l :
  session_user s = Some uid →
  find_by_id (habbits w) id = Some h → day_set tzo (Habbit.completedDates h) →
  set_hours_start tzo (Some tA) = Some mA → set_hours_start tzo (Some tB) = Some mB →
  local_day tzo tA ∉ days tzo (Habbit.completedDates h) →
  local_day tzo tB ∉ days tzo (Habbit.completedDates h) →
  local_day tzo tA ≠ local_day tzo tB →
  interleaving [RdA; WrA] [RdB; WrB] l →
  let putA := PUT tzo s (Some (mk_put (IdValid id) (Some tA))) in
  let putB := PUT tzo s (Some (mk_put (IdValid id) (Some tB))) in
  exec tzo id (Some tA) (Some tB) l w v =
    match first_writer l with
    | Some WrB => (run putA (run putB w).2).2
    | _ => (run putB (run putA w).2).2
    end.
Proof.
  intros Hs Hf Hds HmA HmB HA HB Hne Hil putA putB.
  destruct (toggle_absent tzo tA mA HmA _ Hds HA) as [HtA HdsA].
  destruct (toggle_absent tzo tB mB HmB _ Hds HB) as [HtB HdsB].
  pose proof (other_day_absent tzo tA tB mA _ HmA Hne HB) as HBA.
  pose proof (other_day_absent tzo tB tA mB _ HmB (not_eq_sym Hne) HA) as HAB.
  destruct (toggle_absent tzo tB mB HmB _ HdsA HBA) as [HtBA _].
  destruct (toggle_absent tzo tA mA HmA _ HdsB HAB) as [HtAB _].
  pose proof (toggle_op_absent tzo tA mA HmA _ Hds HA) as HopA.
  pose proof (toggle_op_absent tzo tB mB HmB _ Hds HB) as HopB.
  pose proof (toggle_op_absent tzo tB mB HmB _ HdsA HBA) as HopBA.
  pose proof (toggle_op_absent tzo tA mA HmA _ HdsB HAB) as HopAB.
  unfold exec, exec_conc, putA, putB.
  destruct (interleavings_two_two _ _ _ _ _ Hil) as [-> | [-> | [-> | [-> | [-> | -> ]]]]];
    repeat conc_step PUT_write_found PUT_write_stale; exec_steps; cbn [first_writer].
  all: erewrite (PUT_run_found tzo s uid w id h); [|done|done|eassumption]; cbn [snd].
  all: erewrite (PUT_run_found tzo s uid _ id); [|done|find_tac|
         cbn [Habbit.completedDates Habbit.touch Habbit.set_completedDates]; eassumption].
  all: reflexivity.
Qed.

(** C15. Two PUTs removing the same day, the last one completed, of one
    habit: in the two serial schedules the first removes the day and
    the second, reading the list without it, adds it back; in the four
    interleavings where both read before either saves, both send a
    [$set] of the list without the day filtered on the version they
    read, so the first save removes the day and the second matches
    nothing and throws a [VersionError]: that request is answered 500
    and the day stays removed. *)
Theorem concurrent_removals_conflict tzo id t m w v h ds l :
  find_by_id (habbits w) id = Some h → Habbit.completedDates h = ds ++ [m] → day_set tzo ds →
  set_hours_start tzo (Some t) = Some m → local_day tzo t ∉ days tzo ds →
  interleaving [RdA; WrA] [RdB; WrB] l →
  let c := exec_conc tzo id (Some t) (Some t) l w v in
  (serial l → completed id (cw c) = Some (ds ++ [m]) ∧ errors c = 0%nat) ∧
  (¬ serial l → completed id (cw c) = Some ds ∧ errors c = 1%nat).
Proof.
  intros Hf Hh Hds Hm Hnot Hil c.
  pose proof (toggle_op_pushed tzo t m Hm _ Hds Hnot) as Hop1. rewrite <- Hh in Hop1.
  pose proof (toggle_op_absent tzo t m Hm _ Hds Hnot) as Hop.
  unfold c, completed, exec_conc, serial.
  destruct (interleavings_two_two _ _ _ _ _ Hil) as [-> | [-> | [-> | [-> | [-> | -> ]]]]];
    repeat conc_step PUT_write_found PUT_write_stale; exec_steps; rewrite ?find_advance;
    repeat conc_step PUT_write_found PUT_write_stale; exec_steps; split; intros Hs.
  all: first [ exfalso; apply Hs; (by left) || (by right) | destruct Hs as [Hs|Hs]; discriminate Hs | idtac ].
  all: done.
Qed.

(** ** Witnesses: habit 5 of [demo_habbit_world], no completion yet *)

(** Two PUTs for 2024-03-01 whose reads both come first book the day
    twice. *)
Lemma concurrent_toggles_duplicate_day_witness :
  completed 5 (exec 0 5 (Some mar1) (Some mar1) [RdA; RdB; WrA; WrB] demo_habbit_world 0) =
    Some [mar1; mar1].
Proof.
  assert (day_set 0 (Habbit.completedDates demo_habbit)) as Hd
    by (unfold day_set, days; simpl; split; constructor).
  destruct (concurrent_toggles_duplicate_day 0 5 mar1 mar1 demo_habbit_world 0 demo_habbit
              [RdA; RdB; WrA; WrB] eq_refl Hd eq_refl ltac:(intros Hin; inversion Hin)
              ltac:(repeat constructor)) as [_ Hdup].
  exact (proj1 (Hdup ltac:(intros [Hs|Hs]; discriminate Hs))).
Defined.

(** PUTs for 2024-03-01 (A) and 2024-03-02 (B), both reads first, A
    saving first: the store of PUT A then PUT B. *)
Lemma concurrent_toggles_linearizable_witness :
  exec 0 5 (Some mar1) (Some (mar1 + msPerDay)) [RdA; RdB; WrA; WrB] demo_habbit_world 0 =
    (run (PUT 0 (Some (Some 1%N)) (Some (mk_put (IdValid 5) (Some (mar1 + msPerDay)))))
       (run (PUT 0 (Some (Some 1%N)) (Some (mk_put (IdValid 5) (Some mar1)))) demo_habbit_world).2).2.
Proof.
  assert (day_set 0 (Habbit.completedDates demo_habbit)) as Hd
    by (unfold day_set, days; simpl; split; constructor).
  exact (concurrent_toggles_linearizable 0 (Some (Some 1%N)) 1 5 mar1 (mar1 + msPerDay) mar1 (mar1 + msPerDay)
           demo_habbit_world 0 demo_habbit [RdA; RdB; WrA; WrB] eq_refl eq_refl Hd eq_refl eq_refl
           ltac:(intros Hin; inversion Hin) ltac:(intros Hin; inversion Hin)
           ltac:(intros Hc; vm_compute in Hc; discriminate Hc) ltac:(repeat constructor)).
Defined.

(** Habit 5 completed on 2024-03-01 only; two PUTs for that day whose
    reads both come first: the day is removed and one request fails. *)
Lemma concurrent_removals_conflict_witness :
  let w := set_habbits demo_world [(5%N, Habbit.set_completedDates demo_habbit [mar1])] in
  completed 5 (cw (exec_conc 0 5 (Some mar1) (Some mar1) [RdA; RdB; WrA; WrB] w 0)) = Some [] ∧
  errors (exec_conc 0 5 (Some mar1) (Some mar1) [RdA; RdB; WrA; WrB] w 0) = 1%nat.
Proof.
  intros w.
  destruct (concurrent_removals_conflict 0 5 mar1 mar1 w 0 (Habbit.set_completedDates demo_habbit [mar1]) []
              [RdA; RdB; WrA; WrB] eq_refl eq_refl ltac:(split; constructor) eq_refl
              ltac:(intros Hin; inversion Hin) ltac:(repeat constructor)) as [_ Hconf].
  exact (Hconf ltac:(intros [Hs|Hs]; discriminate Hs)).
Defined.

End ConcurrentPUT.

(** ** Two concurrent streak resets *)

Module ConcurrentReset.
Import Streak.StreakRoute.

(** The store and the user each request has loaded. *)
Record rconc := mk_rconc { rw : World; rloadedA : option User.t; rloadedB : option User.t }.

Section resets.
Context (uid : oid).

(** The write phase of POST (lines 77-84): [history.push(new Date())]
    registers a [$push], [currentStreakStart = new Date()] a [$set] and
    [save()] a [$set] of [updatedAt] (three clock readings); the update
    applies to the user as stored, whatever the request loaded.  A
    [$push] increments [__v] without filtering on it, so the save
    matches whenever the user exists. *)
Definition POST_write (w : World) : World :=
  let t1 := clock_at w 0 in
  let t2 := clock_at w 1 in
  let t := clock_at w 2 in
  match find_by_id (users w) uid with
  | Some us =>
      set_users (advance w 3) (replace_by_id (users w) uid
        (User.touch (User.set_start (User.set_history us (push (User.history us) t1)) (Some t2)) t))
  | None => advance w 3
  end.

Definition exec_reset_step (c : rconc) (st : req_step) : rconc :=
  match st with
  | RdA => mk_rconc (rw c) (find_by_id (users (rw c)) uid) (rloadedB c)
  | RdB => mk_rconc (rw c) (rloadedA c) (find_by_id (users (rw c)) uid)
  | WrA => match rloadedA c with Some _ => mk_rconc (POST_write (rw c)) (rloadedA c) (rloadedB c) | None => c end
  | WrB => match rloadedB c with Some _ => mk_rconc (POST_write (rw c)) (rloadedA c) (rloadedB c) | None => c end
  end.

(** The store after the steps [l], from [w] with nothing loaded. *)
Definition exec_resets (l : list req_step) (w : World) : World :=
  rw (fold_left exec_reset_step l (mk_rconc w None None)).
End resets.

(** ** Lemmas *)

(** With nothing between its read and its write, a reset writes what
    the handler writes. *)
Lemma POST_write_run s uid w u :
  session_user s = Some uid → find_by_id (users w) uid = Some u →
  POST_write uid w = (run (POST s) w).2.
Proof. intros Hs Hf. rewrite (POST_run s w uid Hs u Hf). unfold POST_write. by rewrite Hf. Qed.

Lemma find_reset uid w u :
  find_by_id (users w) uid = Some u →
  find_by_id (users (POST_write uid w)) uid =
    Some (User.touch (User.set_start (User.set_history u (push (User.history u) (clock_at w 0)))
                        (Some (clock_at w 1))) (clock_at w 2)).
Proof. intros Hf. unfold POST_write. rewrite Hf. by eapply find_by_id_replace_eq. Qed.

(** A reset takes three clock readings. *)
Lemma POST_write_clock uid w k : clock_at (POST_write uid w) k = clock_at w (k + 3).
Proof. unfold POST_write, clock_at. destruct (find_by_id _ _); simpl; f_equal; lia. Qed.

(** ** Properties *)

(** C14. Two concurrent resets of one user are linearizable: whatever
    the interleaving of their reads and saves, the store is the one the
    handler gives run twice; both resets are in [history] (the first
    save's reset time, then the second's) and the start is the second
    save's, as section 5 of the specification says (both appends land,
    the last writer wins on [currentStreakStart]). *)
Theorem concurrent_resets_linearizable s uid w u l :
  session_user s = Some uid → find_by_id (users w) uid = Some u →
  interleaving [RdA; WrA] [RdB; WrB] l →
  exec_resets uid l w = (run (POST s) (run (POST s) w).2).2 ∧
  User.history <$> find_by_id (users (exec_resets uid l w)) uid =
    Some (User.history u ++ [clock_at w 0; clock_at w 3]) ∧
  User.currentStreakStart <$> find_by_id (users (exec_resets uid l w)) uid = Some (Some (clock_at w 4)).
Proof.
  intros Hs Hf Hil.
  pose proof (find_reset uid w u Hf) as Hf1.
  assert (exec_resets uid l w = POST_write uid (POST_write uid w)) as ->.
  { unfold exec_resets.
    destruct (interleavings_two_two _ _ _ _ _ Hil) as [-> | [-> | [-> | [-> | [-> | -> ]]]]];
      cbn [fold_left exec_reset_step rw rloadedA rloadedB]; rewrite ?Hf; cbn [rw rloadedA rloadedB];
      rewrite ?Hf1; done. }
  rewrite (find_reset uid _ _ Hf1), !POST_write_clock. cbn. split_and!.
  - rewrite <- (POST_write_run s uid w u Hs Hf). exact (POST_write_run s uid _ _ Hs Hf1).
  - unfold push. by rewrite <- app_assoc.
  - done.
Qed.

(** ** Witnesses *)

(** Ada (user 1 of [demo_streak_world], no reset yet) resets in two tabs
    whose reads both come first: two entries are recorded. *)
Lemma concurrent_resets_linearizable_witness :
  User.history <$> find_by_id (users (exec_resets 1 [RdA; RdB; WrA; WrB] demo_streak_world)) 1 =
    Some [clock_at demo_streak_world 0; clock_at demo_streak_world 3].
Proof.
  exact (proj1 (proj2 (concurrent_resets_linearizable (Some (Some 1%N)) 1 demo_streak_world
           (User.register "ada@example.com" "hash" None 1690000000000) _ eq_refl eq_refl
           ltac:(repeat constructor)))).
Defined.
End ConcurrentReset.

(** ** Two concurrent gratitude toggles *)

Module ConcurrentCheck.
Import Gratitudes.GratitudeRoute.

(** The store and the item each request has loaded. *)
Record gconc := mk_gconc { gw : World; gloadedA : option Gratitude.t; gloadedB : option Gratitude.t }.

Section checks.
Context (id : oid).

(** The write phase of the gratitude PUT (lines 77-78) on the item [g]
    its read loaded: [item.isChecked = !item.isChecked] registers a
    [$set] of [isChecked] to the negation of the loaded value (a scalar:
    no version filter), and [save()] a [$set] of [updatedAt]; the update
    applies to the item as stored. *)
Definition PUT_write (g : Gratitude.t) (w : World) : World :=
  match find_by_id (gratitudes w) id with
  | Some gs =>
      set_gratitudes (tick w) (replace_by_id (gratitudes w) id
        (Gratitude.touch (Gratitude.set_isChecked gs (negb (Gratitude.isChecked g))) (clock_now w)))
  | None => tick w
  end.

Definition exec_check_step (c : gconc) (st : req_step) : gconc :=
  match st with
  | RdA => mk_gconc (gw c) (find_by_id (gratitudes (gw c)) id) (gloadedB c)
  | RdB => mk_gconc (gw c) (gloadedA c) (find_by_id (gratitudes (gw c)) id)
  | WrA => match gloadedA c with Some g => mk_gconc (PUT_write g (gw c)) (gloadedA c) (gloadedB c) | None => c end
  | WrB => match gloadedB c with Some g => mk_gconc (PUT_write g (gw c)) (gloadedA c) (gloadedB c) | None => c end
  end.

(** The store after the steps [l], from [w] with nothing loaded. *)
Definition exec_checks (l : list req_step) (w : World) : World :=
  gw (fold_left exec_check_step l (mk_gconc w None None)).

(** The item's [isChecked] in a store. *)
Definition checked (w : World) : option bool :=
  Gratitude.isChecked <$> find_by_id (gratitudes w) id.
End checks.

(** ** Lemmas *)

(** With nothing between its read and its write, a toggle writes what
    the handler writes. *)
Lemma PUT_write_run s uid id w g :
  session_user s = Some uid → find_by_id (gratitudes w) id = Some g →
  PUT_write id g w = (run (PUT s (Some (mk_put (IdValid id)))) w).2.
Proof.
  intros Hs Hf. rewrite (Gratitudes.GratitudeProps.PUT_run_item s uid w id g Hs Hf).
  unfold PUT_write. by rewrite Hf.
Qed.

Lemma find_check_write id w g gs :
  find_by_id (gratitudes w) id = Some gs →
  find_by_id (gratitudes (PUT_write id g w)) id =
    Some (Gratitude.touch (Gratitude.set_isChecked gs (negb (Gratitude.isChecked g))) (clock_now w)).
Proof. intros Hf. unfold PUT_write. rewrite Hf. by eapply find_by_id_replace_eq. Qed.

(** ** Properties *)

(** C16. Two toggles of one gratitude item: in the two serial schedules
    the second flips the first's result back, as the handler run twice
    does; in the four interleavings where both read before either
    saves, both set [isChecked] to the negation of the value they read,
    and the item ends flipped once although both requests answered
    200 with a flip. *)
Theorem concurrent_checks_lose_toggle s uid id w g l :
  session_user s = Some uid → find_by_id (gratitudes w) id = Some g →
  interleaving [RdA; WrA] [RdB; WrB] l →
  let put := PUT s (Some (mk_put (IdValid id))) in
  (serial l → exec_checks id l w = (run put (run put w).2).2 ∧
              checked id (exec_checks id l w) = Some (Gratitude.isChecked g)) ∧
  (¬ serial l → checked id (exec_checks id l w) = Some (negb (Gratitude.isChecked g))).
Proof.
  intros Hs Hf Hil put. pose proof (find_check_write id w g g Hf) as Hf1.
  unfold checked, exec_checks, serial.
  destruct (interleavings_two_two _ _ _ _ _ Hil) as [-> | [-> | [-> | [-> | [-> | -> ]]]]];
    cbn [fold_left exec_check_step gw gloadedA gloadedB]; rewrite ?Hf; cbn [gw gloadedA gloadedB];
    rewrite ?Hf1; cbn [gw gloadedA gloadedB]; rewrite ?(find_check_write id _ _ _ Hf1);
    split; intros Hsr.
  all: first [ exfalso; apply Hsr; (by left) || (by right) | destruct Hsr as [Hsr|Hsr]; discriminate Hsr
             | idtac ].
  all: cbn; rewrite ?negb_involutive; try done.
  all: split; [|done]; unfold put.
  all: rewrite <- (PUT_write_run s uid id w g Hs Hf); exact (PUT_write_run s uid id _ _ Hs Hf1).
Qed.

(** ** Witnesses *)

(** Item 10 of [demo_gratitude_world] (unchecked), toggled from two tabs
    whose reads both come first: it ends checked. *)
Lemma concurrent_checks_lose_toggle_witness :
  checked 10 (exec_checks 10 [RdA; RdB; WrA; WrB] Gratitudes.GratitudeProps.demo_gratitude_world) = Some true.
Proof.
  destruct (concurrent_checks_lose_toggle (Some (Some 1%N)) 1 10 Gratitudes.GratitudeProps.demo_gratitude_world
              (Gratitude.mk 1 "Family" false 1699916400000 1699916400000) [RdA; RdB; WrA; WrB]
              eq_refl eq_refl ltac:(repeat constructor)) as [_ Hlost].
  exact (Hlost ltac:(intros [Hsr|Hsr]; discriminate Hsr)).
Defined.
End ConcurrentCheck.
