(* ===== verification/ConcurrentView.v ===== *)
(** * What the habit tracker shows after concurrent toggles

    [Interleavings] shows that two PUTs toggling the same new day of a
    habit, from two tabs whose reads both come before either save, push
    the day twice.  Here the consequence on the card of
    [src/components/habbit-tracker.tsx] (lines 166-175), which any
    later [fetchHabbits] shows for the stored habit: [completedThisMonth]
    counts entries, not days, so the progress line counts two more
    completions although one day was completed.  On the first day of a
    month a daily habit reads "2/1 days". *)

From stdpp Require Import base list strings.
From Stdlib Require Import ZArith Lia String.
From S2P Require Import Prelude Calendar Store Models World Habits HabitStats HabitView HabitRows Interleavings.

Open Scope Z_scope.

Module ConcurrentView.
Import Habits.Toggle Habits.HabitRoute HabbitTracker HabbitRows Delta ConcurrentPUT.

(** ** Lemmas *)

(** A local midnight is in the month and year of the time it starts. *)
Lemma month_of_midnight tzo t m :
  set_hours_start tzo (Some t) = Some m →
  get_month tzo m = get_month tzo t ∧ get_full_year tzo m = get_full_year tzo t.
Proof.
  intros Hm. apply set_hours_start_spec in Hm as (_ & _ & Hd).
  unfold get_month, get_full_year. by rewrite Hd.
Qed.

Lemma completedThisMonth_app ctz now ds es :
  completedThisMonth ctz now (ds ++ es) = completedThisMonth ctz now ds + completedThisMonth ctz now es.
Proof. unfold completedThisMonth. by rewrite filter_app, List.length_app, Nat2Z.inj_add. Qed.

Lemma completedThisMonth_twice ctz now m :
  get_month ctz m = get_month ctz now → get_full_year ctz m = get_full_year ctz now →
  completedThisMonth ctz now [m; m] = 2.
Proof. intros Hmo Hy. unfold completedThisMonth. by rewrite !filter_cons_True. Qed.

(** ** Properties *)

(** C12. When two PUTs toggling the same new day of a habit interleave
    with both reads before either save, the stored habit's card (with
    the server and the browser in one zone, in the month of the day)
    counts two more completions than before, although one day was
    completed: the count can exceed the number of days in the month so
    far. *)
Theorem concurrent_toggles_overcount tzo now id t m w v h l :
  find_by_id (habbits w) id = Some h → day_set tzo (Habbit.completedDates h) →
  set_hours_start tzo (Some t) = Some m → local_day tzo t ∉ days tzo (Habbit.completedDates h) →
  interleaving [RdA; WrA] [RdB; WrB] l → ¬ serial l →
  get_month tzo t = get_month tzo now → get_full_year tzo t = get_full_year tzo now →
  ∃ h', find_by_id (habbits (exec tzo id (Some t) (Some t) l w v)) id = Some h' ∧
    row_count (habbit_row tzo now (id, h')) = row_count (habbit_row tzo now (id, h)) + 2.
Proof.
  intros Hf Hds Hm Hnot Hil Hns Hmo Hy.
  pose proof (proj2 (same_day_completed tzo id t m w v h l Hf Hds Hm Hnot Hil) Hns) as Hc.
  unfold completed in Hc. apply fmap_Some in Hc as (h' & Hf' & Hdates).
  exists h'. split; [exact Hf'|]. cbn [habbit_row row_count fst snd].
  destruct (month_of_midnight tzo t m Hm) as [Hmm Hmy].
  rewrite <- Hdates, completedThisMonth_app, completedThisMonth_twice by congruence. reflexivity.
Qed.

(** ** Witnesses *)

(** Two tabs toggle 2024-03-01 on "Read" (no completion yet), both
    reading first: on that day the card counts 2 of a target of 1. *)
Lemma concurrent_toggles_overcount_witness :
  ∃ h', find_by_id (habbits (exec 0 5 (Some mar1) (Some mar1) [RdA; RdB; WrA; WrB] demo_habbit_world 0)) 5
          = Some h' ∧
    row_count (habbit_row 0 mar1 (5%N, h')) = row_count (habbit_row 0 mar1 (5%N, demo_habbit)) + 2 ∧
    row_count (habbit_row 0 mar1 (5%N, h')) = 2 ∧ row_target (habbit_row 0 mar1 (5%N, h')) = 1.
Proof.
  assert (day_set 0 (Habbit.completedDates demo_habbit)) as Hd
    by (unfold day_set, days; simpl; split; constructor).
  destruct (concurrent_toggles_overcount 0 mar1 5 mar1 mar1 demo_habbit_world 0 demo_habbit
              [RdA; RdB; WrA; WrB] eq_refl Hd eq_refl ltac:(intros Hin; inversion Hin)
              ltac:(repeat constructor) ltac:(intros [Hs|Hs]; discriminate Hs) eq_refl eq_refl)
    as (h' & Hf & Hc).
  exists h'. split_and!; [exact Hf|exact Hc| |].
  - rewrite Hc. reflexivity.
  - vm_compute in Hf. injection Hf as <-. reflexivity.
Defined.
End ConcurrentView.
